(** * A shallow embedding of go-mongodb: the wrapper types of package [types]
    (ObjectId, UUID, NullString, NullInt32/64, NullFloat32/64, Binary) and the
    [StdConnector] facade of package [mongodb].

    Go values are modelled as the code has them: a Go [string] is a Rocq
    [string] (a sequence of bytes), a Go [byte] is an [ascii], a [[]byte] is a
    [list ascii].  Methods with a pointer receiver return the new content of
    the receiver together with the returned [error], or a panic.  The parts of
    the Go standard library and of the mongo driver the wrapper types call
    ([encoding/hex], [encoding/json], [encoding/base64], [unicode/utf8],
    [github.com/google/uuid], [bson.MarshalValue] and the bson value reader)
    are modelled in their own modules, following their Go sources. *)

From Stdlib Require Import String Ascii ZArith NArith List Bool Lia.
From Stdlib Require Import Floats.
Import ListNotations.
Open Scope bool_scope.
#[local] Set Warnings "-register-all".

(** ** Go basics *)

Definition bytes := list ascii.

(** A byte as an integer in [0, 256), and back. *)
Definition ord (c : ascii) : Z := Z.of_N (N_of_ascii c).
Definition chr (z : Z) : ascii := ascii_of_N (Z.to_N z).

Definition dquote : ascii := ascii_of_nat 34.
Definition bslash : ascii := ascii_of_nat 92.

Fixpoint bytes_eqb (a b : bytes) : bool :=
  match a, b with
  | [], [] => true
  | x :: a', y :: b' => Ascii.eqb x y && bytes_eqb a' b'
  | _, _ => false
  end.

(** The values of Go's [error] interface that the modelled code can return.
    [ErrorString] is what [errors.New] builds; the others are the error values
    of the libraries, named after their Go types. *)
Inductive go_error : Type :=
| ErrorString (msg : string)
| ErrInvalidHex
| HexInvalidByteError (c : ascii)
| HexErrLength
| UUIDInvalidLengthError (n : nat)
| UUIDInvalidURNPrefix (p : string)
| UUIDInvalidBytes (n : nat)
| JSONSyntaxOrTypeError
| JSONUnsupportedValueError
| Base64CorruptInputError (offset : nat)
| BSONReadError
| BSONDecodeTypeError
| BSONOverflowError
| BSONTruncationError.

(** A library call that either yields a value or an error. *)
Inductive result (A : Type) : Type :=
| Ok (a : A)
| Err (e : go_error).
Arguments Ok {A} a.
Arguments Err {A} e.

(** What a call of a method with a pointer receiver does: it returns (the
    receiver's new content and the returned error) or it panics (the
    receiver's content at the panic). *)
Inductive outcome (A : Type) : Type :=
| Returns (dest : A) (err : option go_error)
| Panics (dest : A).
Arguments Returns {A} dest err.
Arguments Panics {A} dest.

(** A Go string literal in JSON text: the bytes of [s] between double quotes. *)
Definition quoted (s : string) : string :=
  string_of_list_ascii (dquote :: list_ascii_of_string s ++ [dquote]).

(** ** encoding/hex *)
Module Hex.

Definition hextable : string := "0123456789abcdef".

Definition digit (n : N) : ascii :=
  match String.get (N.to_nat n) hextable with Some c => c | None => "0"%char end.

(** [hex.EncodeToString]: [dst[j] = hextable[v>>4]; dst[j+1] = hextable[v&0x0f]]. *)
Definition EncodeToString (src : bytes) : string :=
  string_of_list_ascii
    (flat_map (fun v => [digit (N.shiftr (N_of_ascii v) 4);
                        digit (N.land (N_of_ascii v) 15)]) src).

(** [reverseHexTable]: 0xff for a byte that is not a hex digit. *)
Definition reverseHexTable (c : ascii) : N :=
  let n := N_of_ascii c in
  if (48 <=? n)%N && (n <=? 57)%N then (n - 48)%N
  else if (97 <=? n)%N && (n <=? 102)%N then (n - 87)%N
  else if (65 <=? n)%N && (n <=? 70)%N then (n - 55)%N
  else 255%N.

(** [hex.Decode]: pairs first, then the odd trailing byte. *)
Fixpoint Decode (src : list ascii) : result bytes :=
  match src with
  | [] => Ok []
  | [p] => if (15 <? reverseHexTable p)%N then Err (HexInvalidByteError p)
           else Err HexErrLength
  | p :: q :: rest =>
      let a := reverseHexTable p in
      let b := reverseHexTable q in
      if (15 <? a)%N then Err (HexInvalidByteError p)
      else if (15 <? b)%N then Err (HexInvalidByteError q)
      else match Decode rest with
           | Ok d => Ok (ascii_of_N (N.lor (N.shiftl a 4) b) :: d)
           | Err e => Err e
           end
  end.

End Hex.

(** ** unicode/utf8 (DecodeRune, EncodeRune) *)
Module Utf8.

Definition RuneError : Z := 65533.

Definition cont (b : Z) (lo hi : Z) : bool := (lo <=? b)%Z && (b <=? hi)%Z.

(** [utf8.DecodeRune]: the rune and its width; [(RuneError, 1)] on an
    invalid or short encoding, [(RuneError, 0)] on empty input. *)
Definition DecodeRune (p : bytes) : Z * nat :=
  match p with
  | [] => (RuneError, 0%nat)
  | c0 :: r =>
    let p0 := ord c0 in
    if (p0 <? 128)%Z then (p0, 1%nat)
    else if (p0 <? 194)%Z then (RuneError, 1%nat)
    else if (p0 <? 224)%Z then
      match r with
      | c1 :: _ =>
          let b1 := ord c1 in
          if cont b1 128 191 then (((p0 - 192) * 64 + (b1 - 128))%Z, 2%nat)
          else (RuneError, 1%nat)
      | _ => (RuneError, 1%nat)
      end
    else if (p0 <? 240)%Z then
      let lo := if (p0 =? 224)%Z then 160%Z else 128%Z in
      let hi := if (p0 =? 237)%Z then 159%Z else 191%Z in
      match r with
      | c1 :: c2 :: _ =>
          let b1 := ord c1 in let b2 := ord c2 in
          if cont b1 lo hi then
            if cont b2 128 191 then
              (((p0 - 224) * 4096 + (b1 - 128) * 64 + (b2 - 128))%Z, 3%nat)
            else (RuneError, 1%nat)
          else (RuneError, 1%nat)
      | _ => (RuneError, 1%nat)
      end
    else if (p0 <? 245)%Z then
      let lo := if (p0 =? 240)%Z then 144%Z else 128%Z in
      let hi := if (p0 =? 244)%Z then 143%Z else 191%Z in
      match r with
      | c1 :: c2 :: c3 :: _ =>
          let b1 := ord c1 in let b2 := ord c2 in let b3 := ord c3 in
          if cont b1 lo hi then
            if cont b2 128 191 then
              if cont b3 128 191 then
                (((p0 - 240) * 262144 + (b1 - 128) * 4096 + (b2 - 128) * 64
                  + (b3 - 128))%Z, 4%nat)
              else (RuneError, 1%nat)
            else (RuneError, 1%nat)
          else (RuneError, 1%nat)
      | _ => (RuneError, 1%nat)
      end
    else (RuneError, 1%nat)
  end.

(** [utf8.EncodeRune]; surrogates and values above U+10FFFF encode
    [RuneError]. *)
Definition encode3 (r : Z) : list Z :=
  [224 + r / 4096; 128 + (r / 64) mod 64; 128 + r mod 64]%Z.

Definition EncodeRune (r : Z) : bytes :=
  map chr
    (if (r <? 0)%Z then encode3 RuneError
     else if (r <=? 127)%Z then [r]
     else if (r <=? 2047)%Z then [192 + r / 64; 128 + r mod 64]%Z
     else if (1114111 <? r)%Z || ((55296 <=? r)%Z && (r <=? 57343)%Z) then encode3 RuneError
     else if (r <=? 65535)%Z then encode3 r
     else [240 + r / 262144; 128 + (r / 4096) mod 64; 128 + (r / 64) mod 64;
           128 + r mod 64]%Z).

(** [utf8.Valid]: no position decodes to [(RuneError, 1)]. *)
Fixpoint valid_fuel (fuel : nat) (s : bytes) : bool :=
  match fuel with
  | O => true
  | S f =>
    match s with
    | [] => true
    | _ :: _ =>
      let '(r, n) := DecodeRune s in
      if (r =? RuneError)%Z && Nat.eqb n 1 then false else valid_fuel f (skipn n s)
    end
  end.

Definition Valid (s : bytes) : bool := valid_fuel (length s) s.

End Utf8.

(** ** encoding/json: the text of strings, null and integers *)
Module Json.

Definition is_ws (c : ascii) : bool :=
  let b := ord c in ((b =? 32) || (b =? 9) || (b =? 10) || (b =? 13))%Z.

Fixpoint skip_ws (l : bytes) : bytes :=
  match l with
  | c :: r => if is_ws c then skip_ws r else l
  | [] => []
  end.

(** [htmlSafeSet]: printable ASCII and DEL, except the double quote, the
    backslash and the HTML characters <, > and &. *)
Definition html_safe (b : Z) : bool :=
  ((32 <=? b) && (b <=? 127) && negb (b =? 34) && negb (b =? 92)
   && negb (b =? 60) && negb (b =? 62) && negb (b =? 38))%Z.

Definition lhex (n : Z) : ascii := Hex.digit (Z.to_N n).

(** The escape of an ASCII byte that is not html-safe ([appendString]). *)
Definition escape_ascii (b : Z) : bytes :=
  if (b =? 92)%Z then [bslash; bslash]
  else if (b =? 34)%Z then [bslash; dquote]
  else if (b =? 8)%Z then [bslash; "b"%char]
  else if (b =? 12)%Z then [bslash; "f"%char]
  else if (b =? 10)%Z then [bslash; "n"%char]
  else if (b =? 13)%Z then [bslash; "r"%char]
  else if (b =? 9)%Z then [bslash; "t"%char]
  else [bslash; "u"%char; "0"%char; "0"%char; lhex (b / 16); lhex (b mod 16)].

(** The body of [appendString(dst, src, escapeHTML=true)]. *)
Fixpoint quote_body (fuel : nat) (s : bytes) : bytes :=
  match fuel with
  | O => []
  | S f =>
    match s with
    | [] => []
    | c :: r =>
      let b := ord c in
      if (b <? 128)%Z then
        (if html_safe b then [c] else escape_ascii b) ++ quote_body f r
      else
        let '(rn, size) := Utf8.DecodeRune s in
        if (rn =? Utf8.RuneError)%Z && Nat.eqb size 1 then
          [bslash; "u"%char; "f"%char; "f"%char; "f"%char; "d"%char] ++ quote_body f r
        else if ((rn =? 8232) || (rn =? 8233))%Z then
          [bslash; "u"%char; "2"%char; "0"%char; "2"%char; lhex (rn mod 16)]
            ++ quote_body f (skipn size s)
        else firstn size s ++ quote_body f (skipn size s)
    end
  end.

(** [json.Marshal] of a Go string. *)
Definition Marshal_string (s : string) : string * option go_error :=
  let l := list_ascii_of_string s in
  (string_of_list_ascii (dquote :: quote_body (length l) l ++ [dquote]), None).

(** [json.Marshal(nil)]. *)
Definition Marshal_nil : string * option go_error := ("null"%string, None).

(** [getu4] on the four hex digits following [\u]. *)
Definition hexval (c : ascii) : option Z :=
  let n := Hex.reverseHexTable c in if (15 <? n)%N then None else Some (Z.of_N n).

Definition getu4 (l : bytes) : option (Z * bytes) :=
  match l with
  | a :: b :: c :: d :: r =>
    match hexval a, hexval b, hexval c, hexval d with
    | Some x, Some y, Some z, Some w => Some ((((x * 16 + y) * 16 + z) * 16 + w)%Z, r)
    | _, _, _, _ => None
    end
  | _ => None
  end.

Definition is_surrogate (r : Z) : bool := ((55296 <=? r) && (r <? 57344))%Z.

(** [utf16.DecodeRune]. *)
Definition utf16_decode (r1 r2 : Z) : Z :=
  if ((55296 <=? r1) && (r1 <? 56320) && (56320 <=? r2) && (r2 <? 57344))%Z
  then ((r1 - 55296) * 1024 + (r2 - 56320) + 65536)%Z
  else Utf8.RuneError.

(** The scanner and [unquote] on the bytes after an opening quote: the
    decoded string and the bytes after the closing quote, or [None] on a
    syntax error. *)
Fixpoint string_body (fuel : nat) (s : bytes) : option (bytes * bytes) :=
  match fuel with
  | O => None
  | S f =>
    match s with
    | [] => None
    | c :: r =>
      let b := ord c in
      if (b =? 34)%Z then Some ([], r)
      else if (b =? 92)%Z then
        match r with
        | [] => None
        | e :: r' =>
          let k := ord e in
          let simple (x : ascii) :=
            match string_body f r' with Some (v, t) => Some (x :: v, t) | None => None end in
          if ((k =? 34) || (k =? 92) || (k =? 47))%Z then simple e
          else if (k =? 98)%Z then simple (ascii_of_nat 8)
          else if (k =? 102)%Z then simple (ascii_of_nat 12)
          else if (k =? 110)%Z then simple (ascii_of_nat 10)
          else if (k =? 114)%Z then simple (ascii_of_nat 13)
          else if (k =? 116)%Z then simple (ascii_of_nat 9)
          else if (k =? 117)%Z then
            match getu4 r' with
            | None => None
            | Some (rr, r'') =>
              let emit (x : Z) (rest : bytes) :=
                match string_body f rest with
                | Some (v, t) => Some (Utf8.EncodeRune x ++ v, t)
                | None => None
                end in
              if is_surrogate rr then
                match r'' with
                | b1 :: u1 :: r3 =>
                  if (ord b1 =? 92)%Z && (ord u1 =? 117)%Z then
                    match getu4 r3 with
                    | Some (rr1, r4) =>
                      let dec := utf16_decode rr rr1 in
                      if (dec =? Utf8.RuneError)%Z then emit Utf8.RuneError r''
                      else emit dec r4
                    | None => emit Utf8.RuneError r''
                    end
                  else emit Utf8.RuneError r''
                | _ => emit Utf8.RuneError r''
                end
              else emit rr r''
            end
          else None
        end
      else if (b <? 32)%Z then None
      else if (b <? 128)%Z then
        match string_body f r with Some (v, t) => Some (c :: v, t) | None => None end
      else
        let '(rn, size) := Utf8.DecodeRune s in
        match string_body f (skipn size s) with
        | Some (v, t) => Some (Utf8.EncodeRune rn ++ v, t)
        | None => None
        end
    end
  end.

(** The JSON values a document can hold, as the decoder classifies a literal. *)
Inductive literal : Type :=
| LNull
| LString (s : string)
| LNumber (text : string)
| LOther.

Definition is_digit (c : ascii) : bool := ((48 <=? ord c) && (ord c <=? 57))%Z.

Fixpoint drop_digits (l : bytes) : bytes :=
  match l with c :: r => if is_digit c then drop_digits r else l | [] => [] end.

Definition digits1 (l : bytes) : option bytes :=
  match l with c :: r => if is_digit c then Some (drop_digits r) else None | [] => None end.

(** The number grammar of the JSON scanner: the bytes after the number. *)
Definition number_rest (l : bytes) : option bytes :=
  let l1 := match l with c :: r => if (ord c =? 45)%Z then r else l | [] => l end in
  let int_part :=
    match l1 with
    | c :: r => if (ord c =? 48)%Z then Some r
                else if is_digit c then Some (drop_digits r) else None
    | [] => None
    end in
  match int_part with
  | None => None
  | Some l2 =>
    let l3 := match l2 with
              | c :: r => if (ord c =? 46)%Z then digits1 r else Some l2
              | [] => Some l2
              end in
    match l3 with
    | None => None
    | Some l4 =>
      match l4 with
      | c :: r =>
        if ((ord c =? 101) || (ord c =? 69))%Z then
          let r' := match r with
                    | s :: r2 => if ((ord s =? 43) || (ord s =? 45))%Z then r2 else r
                    | [] => r
                    end in
          digits1 r'
        else Some l4
      | [] => Some l4
      end
    end
  end.

Definition starts_with (p l : bytes) : option bytes :=
  if bytes_eqb (firstn (length p) l) p then Some (skipn (length p) l) else None.

(** Classify a document holding one literal; [None] is a syntax error.  An
    array or an object is [LOther] (its own syntax is not checked: every
    target of this package rejects it). *)
Definition classify (data : string) : option literal :=
  let l := skip_ws (list_ascii_of_string data) in
  let done_ (v : literal) (rest : bytes) :=
    match skip_ws rest with [] => Some v | _ => None end in
  match l with
  | [] => None
  | c :: r =>
    let b := ord c in
    if (b =? 34)%Z then
      match string_body (length r) r with
      | Some (v, rest) => done_ (LString (string_of_list_ascii v)) rest
      | None => None
      end
    else if (b =? 110)%Z then
      match starts_with (list_ascii_of_string "null") l with
      | Some rest => done_ LNull rest
      | None => None
      end
    else if (b =? 116)%Z then
      match starts_with (list_ascii_of_string "true") l with
      | Some rest => done_ LOther rest
      | None => None
      end
    else if (b =? 102)%Z then
      match starts_with (list_ascii_of_string "false") l with
      | Some rest => done_ LOther rest
      | None => None
      end
    else if ((b =? 91) || (b =? 123))%Z then Some LOther
    else
      match number_rest l with
      | Some rest =>
        done_ (LNumber (string_of_list_ascii (firstn (length l - length rest) l))) rest
      | None => None
      end
  end.

(** [json.Unmarshal(data, &s)] for a Go string [s] holding [cur]: null leaves
    it alone, a string literal sets it, anything else is an error. *)
Definition Unmarshal_string (data : string) (cur : string) : string * option go_error :=
  match classify data with
  | Some LNull => (cur, None)
  | Some (LString s) => (s, None)
  | _ => (cur, Some JSONSyntaxOrTypeError)
  end.

(** [strconv.FormatInt(z, 10)]. *)
Fixpoint dec_digits (fuel : nat) (n : Z) (acc : bytes) : bytes :=
  match fuel with
  | O => acc
  | S f =>
    let acc' := chr (48 + n mod 10) :: acc in
    if (n <? 10)%Z then acc' else dec_digits f (n / 10) acc'
  end.

Definition FormatInt (z : Z) : string :=
  let n := Z.abs z in
  let ds := dec_digits (S (Z.to_nat (Z.log2 n))) n [] in
  string_of_list_ascii (if (z <? 0)%Z then "-"%char :: ds else ds).

Definition int64_ok (z : Z) : bool := ((- 2 ^ 63 <=? z) && (z <? 2 ^ 63))%Z.
Definition int32_ok (z : Z) : bool := ((- 2 ^ 31 <=? z) && (z <? 2 ^ 31))%Z.

Definition digits_value (l : bytes) : Z :=
  fold_left (fun acc c => (acc * 10 + (ord c - 48))%Z) l 0%Z.

(** [strconv.ParseInt(s, 10, 64)]: optional sign, decimal digits, int64 range. *)
Definition ParseInt (s : string) : option Z :=
  let l := list_ascii_of_string s in
  let '(neg, ds) :=
    match l with
    | c :: r => if (ord c =? 45)%Z then (true, r)
                else if (ord c =? 43)%Z then (false, r) else (false, l)
    | [] => (false, l)
    end in
  match ds with
  | [] => None
  | _ => if forallb is_digit ds then
           let v := digits_value ds in
           let z := if neg then (- v)%Z else v in
           if int64_ok z then Some z else None
         else None
  end.

(** [json.Marshal] of an int32 or int64. *)
Definition Marshal_int (z : Z) : string * option go_error := (FormatInt z, None).

(** [json.Unmarshal(data, &v)] for a Go integer [v] of [w] bits holding [cur]:
    [strconv.ParseInt(s, 10, 64)] and the [OverflowInt] check; the target is
    left alone on null and on every error. *)
Definition Unmarshal_int (w : Z) (data : string) (cur : Z) : Z * option go_error :=
  match classify data with
  | Some LNull => (cur, None)
  | Some (LNumber t) =>
      match ParseInt t with
      | Some n => if ((- 2 ^ (w - 1) <=? n) && (n <? 2 ^ (w - 1)))%Z then (n, None)
                  else (cur, Some JSONSyntaxOrTypeError)
      | None => (cur, Some JSONSyntaxOrTypeError)
      end
  | _ => (cur, Some JSONSyntaxOrTypeError)
  end.

(** Floats go through [strconv]'s shortest formatting and its parser, which
    are kept abstract: [FormatFloat bits f] is the text the float encoder
    writes for [f] at bit size [bits] (32 or 64), [ParseFloat s] the result of
    [strconv.ParseFloat(s, 64)] ([None] on a syntax or range error). *)
Section Floats.
Variable FormatFloat : Z -> float -> string.
Variable ParseFloat : string -> option float.

(** [json.Marshal] of a float: NaN and the infinities are an
    [UnsupportedValueError]. *)
Definition Marshal_float (bits : Z) (f : float) : string * option go_error :=
  if PrimFloat.is_finite f then (FormatFloat bits f, None)
  else (EmptyString, Some JSONUnsupportedValueError).

(** [json.Unmarshal(data, &v)] for a Go float64 [v] holding [cur]. *)
Definition Unmarshal_float (data : string) (cur : float) : float * option go_error :=
  match classify data with
  | Some LNull => (cur, None)
  | Some (LNumber t) =>
      match ParseFloat t with
      | Some f => (f, None)
      | None => (cur, Some JSONSyntaxOrTypeError)
      end
  | _ => (cur, Some JSONSyntaxOrTypeError)
  end.

End Floats.

End Json.

(** ** IEEE 754 binary64 bit patterns ([math.Float64bits], [math.Float64frombits])
    and the [float32(x)] conversion of Go, on Rocq's primitive floats. *)
Module F64.

Definition two52 : Z := (2 ^ 52)%Z.

(** The bits of a float64.  A NaN's payload is not observable on a primitive
    float; it is written as the quiet NaN. *)
Definition bits (f : float) : Z :=
  match Prim2SF f with
  | S754_zero s => if s then (2 ^ 63)%Z else 0%Z
  | S754_infinity s => ((if s then 2 ^ 63 else 0) + 2047 * two52)%Z
  | S754_nan => (2047 * two52 + 2 ^ 51)%Z
  | S754_finite s m e =>
      let sgn := (if s then 2 ^ 63 else 0)%Z in
      if (Z.pos m <? two52)%Z then (sgn + Z.pos m)%Z
      else (sgn + (e + 1075) * two52 + (Z.pos m - two52))%Z
  end.

Definition of_bits (b : Z) : float :=
  let s := Z.testbit b 63 in
  let ex := Z.land (Z.shiftr b 52) 2047 in
  let fr := Z.land b (two52 - 1) in
  SF2Prim
    (if (ex =? 0)%Z then
       (if (fr =? 0)%Z then S754_zero s else S754_finite s (Z.to_pos fr) (-1074))
     else if (ex =? 2047)%Z then
       (if (fr =? 0)%Z then S754_infinity s else S754_nan)
     else S754_finite s (Z.to_pos (fr + two52)) (ex - 1075)).

(** Go's [float32(x)] for a float64 [x]: round to nearest even at 24 bits of
    precision and exponent range of binary32, overflowing to an infinity.
    The float32 is then held exactly by a float64 again. *)
Definition to_float32 (x : float) : float :=
  match Prim2SF x with
  | S754_finite s m e => SF2Prim (binary_round 24 128 s m e)
  | _ => x
  end.

Definition is_finite (f : float) : bool := PrimFloat.is_finite f.

End F64.

(** ** The bson library of the mongo driver: type tags, [bson.MarshalValue]
    and the value reader *)
Module Bson.

Definition TypeDouble : ascii := ascii_of_nat 1.
Definition TypeString : ascii := ascii_of_nat 2.
Definition TypeBinary : ascii := ascii_of_nat 5.
Definition TypeUndefined : ascii := ascii_of_nat 6.
Definition TypeObjectID : ascii := ascii_of_nat 7.
Definition TypeBoolean : ascii := ascii_of_nat 8.
Definition TypeNull : ascii := ascii_of_nat 10.
Definition TypeSymbol : ascii := ascii_of_nat 14.
Definition TypeInt32 : ascii := ascii_of_nat 16.
Definition TypeInt64 : ascii := ascii_of_nat 18.

Definition TypeBinaryGeneric : ascii := ascii_of_nat 0.
Definition TypeBinaryBinaryOld : ascii := ascii_of_nat 2.
Definition TypeBinaryUUIDOld : ascii := ascii_of_nat 3.
Definition TypeBinaryUUID : ascii := ascii_of_nat 4.

(** Little-endian encoding of the low [n] bytes of [z] (two's complement for
    a negative [z]), and the unsigned value of little-endian bytes. *)
Fixpoint le_bytes (n : nat) (z : Z) : bytes :=
  match n with
  | O => []
  | S k => chr (z mod 256) :: le_bytes k (z / 256)
  end.

Fixpoint le_value (l : bytes) : Z :=
  match l with
  | [] => 0%Z
  | c :: r => (ord c + 256 * le_value r)%Z
  end.

Definition signed (w : Z) (u : Z) : Z :=
  if (2 ^ (w - 1) <=? u)%Z then (u - 2 ^ w)%Z else u.

(** [bson.ObjectID] is a [[12]byte]. *)
Definition ObjectID := bytes.

Definition NilObjectID : ObjectID := repeat (ascii_of_nat 0) 12.

(** [bson.ObjectIDFromHex]. *)
Definition ObjectIDFromHex (s : string) : result ObjectID :=
  if negb (Nat.eqb (String.length s) 24) then Err ErrInvalidHex
  else match Hex.Decode (list_ascii_of_string s) with
       | Err e => Err e
       | Ok b => Ok b
       end.

(** [ObjectID.Hex] and [ObjectID.IsZero]. *)
Definition Hex (id : ObjectID) : string := Hex.EncodeToString id.
Definition IsZero (id : ObjectID) : bool := bytes_eqb id NilObjectID.

(** The conversion [bson.ObjectID(data)] of a slice to a [[12]byte]: a
    run-time panic when the slice is shorter than the array ([None]). *)
Definition ObjectID_of_slice (data : bytes) : option ObjectID :=
  if (length data <? 12)%nat then None else Some (firstn 12 data).

(** [bson.Binary]. *)
Record Binary : Type := { Subtype : ascii; Data : bytes }.

(** The Go values this package hands to [bson.MarshalValue]. *)
Inductive gvalue : Type :=
| VObjectID (id : ObjectID)
| VBinary (b : Binary)
| VString (s : string)
| VInt32 (z : Z)
| VInt64 (z : Z)
| VFloat32 (f : float)
| VFloat64 (f : float).

Definition le32 (z : Z) : bytes := le_bytes 4 z.

(** [bson.MarshalValue]: the type tag and the value's bytes.  A float32 is
    written as a double, a binary of the old subtype 0x02 with its inner
    length. *)
Definition MarshalValue (v : gvalue) : ascii * bytes * option go_error :=
  match v with
  | VObjectID id => (TypeObjectID, id, None)
  | VBinary b =>
      let d := Data b in
      if Ascii.eqb (Subtype b) TypeBinaryBinaryOld then
        (TypeBinary, le32 (Z.of_nat (length d) + 4) ++ [Subtype b]
                       ++ le32 (Z.of_nat (length d)) ++ d, None)
      else (TypeBinary, le32 (Z.of_nat (length d)) ++ [Subtype b] ++ d, None)
  | VString s =>
      let l := list_ascii_of_string s in
      (TypeString, le32 (Z.of_nat (length l) + 1) ++ l ++ [ascii_of_nat 0], None)
  | VInt32 z => (TypeInt32, le_bytes 4 z, None)
  | VInt64 z => (TypeInt64, le_bytes 8 z, None)
  | VFloat32 f => (TypeDouble, le_bytes 8 (F64.bits f), None)
  | VFloat64 f => (TypeDouble, le_bytes 8 (F64.bits f), None)
  end.

(** The value reader on a value's bytes. *)
Definition readLength (l : bytes) : option (Z * bytes) :=
  match l with
  | a :: b :: c :: d :: r => Some (signed 32 (le_value [a; b; c; d]), r)
  | _ => None
  end.

Definition readBytes (n : Z) (l : bytes) : result (bytes * bytes) :=
  if (n <? 0)%Z then Err BSONReadError
  else if (Z.of_nat (length l) <? n)%Z then Err BSONReadError
  else Ok (firstn (Z.to_nat n) l, skipn (Z.to_nat n) l).

(** [valueReader.ReadBinary]: length, subtype, the inner length of the old
    binary subtype, data. *)
Definition ReadBinary (l : bytes) : result Binary :=
  match readLength l with
  | None => Err BSONReadError
  | Some (len, r) =>
    match r with
    | [] => Err BSONReadError
    | st :: r' =>
      let len' :=
        if Ascii.eqb st TypeBinaryBinaryOld && (4 <? len)%Z then
          match readLength r' with Some (n, r'') => Some (n, r'') | None => None end
        else Some (len, r') in
      match len' with
      | None => Err BSONReadError
      | Some (n, r'') =>
        match readBytes n r'' with
        | Ok (d, _) => Ok {| Subtype := st; Data := d |}
        | Err e => Err e
        end
      end
    end
  end.

(** [valueReader.ReadString]. *)
Definition ReadString (l : bytes) : result string :=
  match readLength l with
  | None => Err BSONReadError
  | Some (len, r) =>
    if (len <=? 0)%Z then Err BSONReadError
    else match readBytes len r with
         | Err e => Err e
         | Ok (d, _) =>
           if Ascii.eqb (last d "000"%char) (ascii_of_nat 0)
           then Ok (string_of_list_ascii (removelast d)) else Err BSONReadError
         end
  end.

Definition ReadInt32 (l : bytes) : result Z :=
  match l with
  | a :: b :: c :: d :: _ => Ok (signed 32 (le_value [a; b; c; d]))
  | _ => Err BSONReadError
  end.

Definition ReadInt64 (l : bytes) : result Z :=
  if (length l <? 8)%nat then Err BSONReadError
  else Ok (signed 64 (le_value (firstn 8 l))).

Definition ReadDouble (l : bytes) : result float :=
  if (length l <? 8)%nat then Err BSONReadError
  else Ok (F64.of_bits (le_value (firstn 8 l))).

(** [bson.UnmarshalValue(TypeBinary, data, &bin)] for a [bson.Binary]. *)
Definition UnmarshalValue_Binary (typ : ascii) (data : bytes) : result Binary :=
  if Ascii.eqb typ TypeBinary then ReadBinary data
  else if Ascii.eqb typ TypeNull || Ascii.eqb typ TypeUndefined then
    Ok {| Subtype := ascii_of_nat 0; Data := [] |}
  else Err BSONDecodeTypeError.

End Bson.

(** ** github.com/google/uuid *)
Module GUuid.

(** A [UUID] is a [[16]byte]. *)
Definition UUID := bytes.

Definition Nil : UUID := repeat (ascii_of_nat 0) 16.

(** [uuid[i] = v] on an array (always in range in the code below). *)
Fixpoint set_nth (u : bytes) (i : nat) (v : ascii) : bytes :=
  match u, i with
  | [], _ => []
  | _ :: r, O => v :: r
  | x :: r, S k => x :: set_nth r k v
  end.

(** [xtob]: [(b1 << 4) | b2] as a byte, and whether both were hex digits
    ([xvalues] is 255 for any other byte). *)
Definition xtob (x1 x2 : ascii) : ascii * bool :=
  let b1 := Hex.reverseHexTable x1 in
  let b2 := Hex.reverseHexTable x2 in
  (ascii_of_N (N.land (N.lor (N.shiftl b1 4) b2) 255),
   negb (N.eqb b1 255) && negb (N.eqb b2 255)).

Definition invalidFormat : go_error := ErrorString "invalid UUID format".

(** The 32 hex digit form: [uuid[i], ok = xtob(s[i*2], s[i*2+1])], the byte is
    stored before [ok] is checked. *)
Fixpoint parse32 (i : nat) (u : UUID) (s : bytes) : UUID * option go_error :=
  match s with
  | x1 :: x2 :: r =>
      let (v, ok) := xtob x1 x2 in
      let u' := set_nth u i v in
      if ok then parse32 (S i) u' r else (u', Some invalidFormat)
  | _ => (u, None)
  end.

Definition positions : list nat :=
  [0; 2; 4; 6; 9; 11; 14; 16; 19; 21; 24; 26; 28; 30; 32; 34]%nat.

Definition at_ (s : bytes) (i : nat) : ascii := nth i s (ascii_of_nat 0).

(** The hyphenated form: [v, ok := xtob(s[x], s[x+1]); if !ok return; uuid[i] = v]. *)
Fixpoint parse_groups (i : nat) (u : UUID) (s : bytes) (xs : list nat)
  : UUID * option go_error :=
  match xs with
  | [] => (u, None)
  | x :: xs' =>
      let (v, ok) := xtob (at_ s x) (at_ s (S x)) in
      if ok then parse_groups (S i) (set_nth u i v) s xs'
      else (u, Some invalidFormat)
  end.

Definition is_dash (c : ascii) : bool := Ascii.eqb c "-"%char.

Definition parse_hyphenated (s : bytes) : UUID * option go_error :=
  if negb (is_dash (at_ s 8) && is_dash (at_ s 13) && is_dash (at_ s 18)
           && is_dash (at_ s 23))
  then (Nil, Some invalidFormat)
  else parse_groups 0 Nil s positions.

(** [strings.EqualFold] against the ASCII prefix ["urn:uuid:"], which has no
    letter with a non-ASCII case fold, so only ASCII letters fold. *)
Definition lower (c : ascii) : ascii :=
  let n := N_of_ascii c in
  if (65 <=? n)%N && (n <=? 90)%N then ascii_of_N (n + 32) else c.

Definition urn_prefix : bytes := list_ascii_of_string "urn:uuid:".

Definition EqualFold (a b : bytes) : bool := bytes_eqb (map lower a) b.

(** [Parse] and [ParseBytes], on the bytes of their argument. *)
Definition parse_bytes (s : bytes) : UUID * option go_error :=
  let n := length s in
  if Nat.eqb n 36 then parse_hyphenated s
  else if Nat.eqb n 45 then
    (if EqualFold (firstn 9 s) urn_prefix then parse_hyphenated (skipn 9 s)
     else (Nil, Some (UUIDInvalidURNPrefix (string_of_list_ascii (firstn 9 s)))))
  else if Nat.eqb n 38 then parse_hyphenated (skipn 1 s)
  else if Nat.eqb n 32 then parse32 0 Nil s
  else (Nil, Some (UUIDInvalidLengthError n)).

Definition Parse (s : string) : UUID * option go_error :=
  parse_bytes (list_ascii_of_string s).

Definition ParseBytes (b : bytes) : UUID * option go_error := parse_bytes b.

(** [UUID.String]: [encodeHex], the 8-4-4-4-12 lowercase form. *)
Definition String_ (u : UUID) : string :=
  let h l := list_ascii_of_string (Hex.EncodeToString l) in
  string_of_list_ascii
    (h (firstn 4 u) ++ ["-"%char] ++ h (firstn 2 (skipn 4 u)) ++ ["-"%char]
     ++ h (firstn 2 (skipn 6 u)) ++ ["-"%char] ++ h (firstn 2 (skipn 8 u))
     ++ ["-"%char] ++ h (skipn 10 u)).

(** [UUID.MarshalBinary]: [uuid[:]]. *)
Definition MarshalBinary (u : UUID) : bytes * option go_error := (u, None).

(** [FromBytes]: [UnmarshalBinary], which rejects a slice that is not 16 bytes. *)
Definition FromBytes (b : bytes) : UUID * option go_error :=
  if Nat.eqb (length b) 16 then (b, None) else (Nil, Some (UUIDInvalidBytes (length b))).

End GUuid.

(** ** encoding/base64, [StdEncoding] (padded, not strict) *)
Module B64.

Definition encodeStd : string :=
  "ABCDEFGHIJKLMNOPQRSTUVWXYZabcdefghijklmnopqrstuvwxyz0123456789+/".

Definition padChar : ascii := "="%char.

Definition enc (n : Z) : ascii :=
  match String.get (Z.to_nat n) encodeStd with Some c => c | None => "A"%char end.

(** [decodeMap]: 0xff for a byte outside the alphabet. *)
Definition decodeMap (c : ascii) : Z :=
  let n := ord c in
  if (65 <=? n)%Z && (n <=? 90)%Z then (n - 65)%Z
  else if (97 <=? n)%Z && (n <=? 122)%Z then (n - 71)%Z
  else if (48 <=? n)%Z && (n <=? 57)%Z then (n + 4)%Z
  else if (n =? 43)%Z then 62%Z
  else if (n =? 47)%Z then 63%Z
  else 255%Z.

(** [Encode]: whole 3-byte groups, then the remaining one or two bytes padded. *)
Fixpoint encode_fuel (fuel : nat) (src : bytes) : bytes :=
  match fuel with
  | O => []
  | S f =>
    match src with
    | b0 :: b1 :: b2 :: rest =>
        let val := Z.lor (Z.lor (Z.shiftl (ord b0) 16) (Z.shiftl (ord b1) 8)) (ord b2) in
        [enc (Z.land (Z.shiftr val 18) 63); enc (Z.land (Z.shiftr val 12) 63);
         enc (Z.land (Z.shiftr val 6) 63); enc (Z.land val 63)]
        ++ encode_fuel f rest
    | [b0; b1] =>
        let val := Z.lor (Z.shiftl (ord b0) 16) (Z.shiftl (ord b1) 8) in
        [enc (Z.land (Z.shiftr val 18) 63); enc (Z.land (Z.shiftr val 12) 63);
         enc (Z.land (Z.shiftr val 6) 63); padChar]
    | [b0] =>
        let val := Z.shiftl (ord b0) 16 in
        [enc (Z.land (Z.shiftr val 18) 63); enc (Z.land (Z.shiftr val 12) 63);
         padChar; padChar]
    | [] => []
    end
  end.

Definition EncodeToString (src : bytes) : string :=
  string_of_list_ascii (encode_fuel (length src) src).

Definition is_nl (c : ascii) : bool :=
  Ascii.eqb c (ascii_of_nat 10) || Ascii.eqb c (ascii_of_nat 13).

(** Skip ['\n'] and ['\r'], counting the position [si]. *)
Fixpoint skip_nl (src : bytes) (si : nat) : bytes * nat :=
  match src with
  | c :: r => if is_nl c then skip_nl r (S si) else (src, si)
  | [] => ([], si)
  end.

(** The bytes of a quantum of [dlen] sextets [dbuf] ([dlen - 1] bytes). *)
Definition quantum_bytes (dbuf : list Z) : bytes :=
  let d i := nth i dbuf 0%Z in
  let val := Z.lor (Z.lor (Z.lor (Z.shiftl (d 0) 18) (Z.shiftl (d 1) 12))
                          (Z.shiftl (d 2) 6)) (d 3) in
  let b0 := chr (Z.land (Z.shiftr val 16) 255) in
  let b1 := chr (Z.land (Z.shiftr val 8) 255) in
  let b2 := chr (Z.land val 255) in
  match length dbuf with
  | 4 => [b0; b1; b2]
  | 3 => [b0; b1]
  | 2 => [b0]
  | _ => []
  end%nat.

(** [decodeQuantum]: reads up to four sextets from position [si], skipping
    newlines; [dbuf] holds the [j] sextets read so far.  Returns the rest of
    the input, the new position, the decoded bytes and the error. *)
Fixpoint decodeQuantum (src : bytes) (si : nat) (dbuf : list Z)
  : bytes * nat * bytes * option go_error :=
  let j := length dbuf in
  if Nat.eqb j 4 then (src, si, quantum_bytes dbuf, None) else
  match src with
  | [] =>
      if Nat.eqb j 0 then (src, si, [], None)
      else (src, si, [], Some (Base64CorruptInputError (si - j)))
  | c :: r =>
      let out := decodeMap c in
      if negb (out =? 255)%Z then decodeQuantum r (S si) (dbuf ++ [out])
      else if is_nl c then decodeQuantum r (S si) dbuf
      else if negb (Ascii.eqb c padChar) then
        (r, S si, [], Some (Base64CorruptInputError si))
      else if Nat.leb j 1 then (r, S si, [], Some (Base64CorruptInputError si))
      else
        (* a padding character after two or three sextets *)
        let second :=
          if Nat.eqb j 2 then
            let (r2, si2) := skip_nl r (S si) in
            match r2 with
            | [] => inl (Base64CorruptInputError si2)
            | c2 :: r3 =>
                if Ascii.eqb c2 padChar then inr (r3, S si2)
                else inl (Base64CorruptInputError (si2 - 1))
            end
          else inr (r, S si) in
        match second with
        | inl e => (r, S si, [], Some e)
        | inr (r4, si4) =>
            let (r5, si5) := skip_nl r4 si4 in
            match r5 with
            | [] => (r5, si5, quantum_bytes dbuf, None)
            | _ :: _ => (r5, si5, quantum_bytes dbuf, Some (Base64CorruptInputError si5))
            end
        end
  end.

(** [Decode]: quanta until the input is consumed or an error occurs. *)
Fixpoint decode_fuel (fuel : nat) (src : bytes) (si : nat) : bytes * option go_error :=
  match fuel with
  | O => ([], None)
  | S f =>
    match src with
    | [] => ([], None)
    | _ :: _ =>
      match decodeQuantum src si [] with
      | (rest, si', out, Some e) => (out, Some e)
      | (rest, si', out, None) =>
          let (out', e) := decode_fuel f rest si' in (out ++ out', e)
      end
    end
  end.

(** [DecodeString]: the decoded prefix and the error. *)
Definition DecodeString (s : string) : bytes * option go_error :=
  let l := list_ascii_of_string s in decode_fuel (length l) l 0.

End B64.

(** ** The driver's default value decoders, for the kinds of the wrapper
    types without an [UnmarshalBSONValue] of their own.  The destination is
    set only when the decoder returns no error. *)
Module BsonDecode.
Import Bson.

Definition ReadBoolean (l : bytes) : result bool :=
  match l with
  | c :: _ => if (ord c =? 0)%Z then Ok false else if (ord c =? 1)%Z then Ok true
              else Err BSONReadError
  | [] => Err BSONReadError
  end.

(** [float64(z)] of an integer, rounded to nearest even. *)
Definition float_of_Z (z : Z) : float := SF2Prim (binary_normalize 53 1024 z 0 false).

(** A double's value when it is an integer ([math.Floor(f) == f]). *)
Definition integral_value (f : float) : option Z :=
  match Prim2SF f with
  | S754_zero _ => Some 0%Z
  | S754_finite s m e =>
      let v := if (0 <=? e)%Z then (Z.pos m * 2 ^ e)%Z
               else if (Z.pos m mod 2 ^ (- e) =? 0)%Z then (Z.pos m / 2 ^ (- e))%Z
               else (-1)%Z in
      if (v <? 0)%Z then None else Some (if s then (- v)%Z else v)
  | _ => None
  end.

(** [intDecodeType]: the int64 read, before the check of the target's kind.
    [int64(f)] of a double below the int64 range is the amd64 result
    [math.MinInt64]. *)
Definition int_value (typ : ascii) (data : bytes) : result Z :=
  if Ascii.eqb typ TypeInt32 then ReadInt32 data
  else if Ascii.eqb typ TypeInt64 then ReadInt64 data
  else if Ascii.eqb typ TypeDouble then
    match ReadDouble data with
    | Err e => Err e
    | Ok f =>
      match Prim2SF f with
      | S754_infinity false => Err BSONOverflowError
      | S754_infinity true => Ok (- 2 ^ 63)%Z
      | S754_nan => Err BSONTruncationError
      | _ =>
        match integral_value f with
        | None => Err BSONTruncationError
        | Some z => if (2 ^ 63 <? z)%Z then Err BSONOverflowError
                    else if Json.int64_ok z then Ok z else Ok (- 2 ^ 63)%Z
        end
      end
    end
  else if Ascii.eqb typ TypeBoolean then
    match ReadBoolean data with Ok b => Ok (if b then 1 else 0)%Z | Err e => Err e end
  else if Ascii.eqb typ TypeNull || Ascii.eqb typ TypeUndefined then Ok 0%Z
  else Err BSONDecodeTypeError.

(** [IntDecodeValue] for an int32 kind: the range check. *)
Definition Int32 (typ : ascii) (data : bytes) : result Z :=
  match int_value typ data with
  | Ok z => if Json.int32_ok z then Ok z else Err BSONOverflowError
  | Err e => Err e
  end.

(** [IntDecodeValue] for an int64 kind. *)
Definition Int64 (typ : ascii) (data : bytes) : result Z := int_value typ data.

(** [FloatDecodeValue] for a float64 kind. *)
Definition Float64 (typ : ascii) (data : bytes) : result float :=
  if Ascii.eqb typ TypeInt32 then
    match ReadInt32 data with Ok z => Ok (float_of_Z z) | Err e => Err e end
  else if Ascii.eqb typ TypeInt64 then
    match ReadInt64 data with Ok z => Ok (float_of_Z z) | Err e => Err e end
  else if Ascii.eqb typ TypeDouble then ReadDouble data
  else if Ascii.eqb typ TypeBoolean then
    match ReadBoolean data with Ok b => Ok (if b then 1 else 0)%float | Err e => Err e end
  else if Ascii.eqb typ TypeNull || Ascii.eqb typ TypeUndefined then Ok 0%float
  else Err BSONDecodeTypeError.

(** [StringDecodeValue]: a string, a symbol, a binary of the generic or old
    binary subtype, an object id as hex; null and undefined give [""]. *)
Definition String_ (typ : ascii) (data : bytes) : result string :=
  if Ascii.eqb typ TypeString || Ascii.eqb typ TypeSymbol then ReadString data
  else if Ascii.eqb typ TypeBinary then
    match ReadBinary data with
    | Ok b => if Ascii.eqb (Subtype b) TypeBinaryGeneric
                 || Ascii.eqb (Subtype b) TypeBinaryBinaryOld
              then Ok (string_of_list_ascii (Data b)) else Err BSONDecodeTypeError
    | Err e => Err e
    end
  else if Ascii.eqb typ TypeObjectID then
    match ObjectID_of_slice data with
    | Some id => Ok (Hex id)
    | None => Err BSONReadError
    end
  else if Ascii.eqb typ TypeNull || Ascii.eqb typ TypeUndefined then Ok EmptyString
  else Err BSONDecodeTypeError.

(** A decoder's effect on its destination. *)
Definition store {A} (cur : A) (r : result A) : outcome A :=
  match r with Ok v => Returns v None | Err e => Returns cur (Some e) end.

End BsonDecode.

(** * Package [types] *)

Open Scope string_scope.

(** [marshalBsonValue] of utils.go: [bson.MarshalValue] with the type as a byte. *)
Definition marshalBsonValue (v : Bson.gvalue) : ascii * bytes * option go_error :=
  Bson.MarshalValue v.

Definition bson_null : ascii * bytes * option go_error := (Bson.TypeNull, [], None).

(** ** objectid.go *)
Module ObjectId.

Definition ObjectId := string.

Definition NilObjectID : ObjectId := "000000000000000000000000".

Definition ObjectIdFromHex (s : string) : ObjectId * option go_error :=
  match Bson.ObjectIDFromHex s with
  | Err e => (EmptyString, Some e)
  | Ok oId => (Bson.Hex oId, None)
  end.

Definition IsZero (o : ObjectId) : bool := Nat.eqb (String.length o) 0.

(** [String]: [fmt.Sprintf("ObjectID(%s)", string(o))] unless zero. *)
Definition String_ (o : ObjectId) : string :=
  if IsZero o then "null" else ("ObjectID(" ++ o ++ ")")%string.

Definition MarshalJSON (o : ObjectId) : string * option go_error :=
  if Nat.eqb (String.length o) 0 then Json.Marshal_nil
  else if String.eqb o NilObjectID then Json.Marshal_nil
  else Json.Marshal_string o.

Definition UnmarshalJSON (o : ObjectId) (data : string) : outcome ObjectId :=
  let (hexStr, err) := Json.Unmarshal_string data EmptyString in
  match err with
  | Some e => Returns o (Some e)
  | None =>
    if Nat.eqb (String.length hexStr) 0 then Returns EmptyString None
    else match Bson.ObjectIDFromHex hexStr with
         | Err e => Returns o (Some e)
         | Ok oId => Returns (Bson.Hex oId) None
         end
  end.

Definition MarshalBSONValue (o : ObjectId) : ascii * bytes * option go_error :=
  if Nat.eqb (String.length o) 0 then bson_null
  else match Bson.ObjectIDFromHex o with
       | Err e => (ascii_of_nat 0, [], Some e)
       | Ok oId => if Bson.IsZero oId then bson_null
                   else marshalBsonValue (Bson.VObjectID oId)
       end.

(** [bson.ObjectID(data)] panics on a slice shorter than 12 bytes. *)
Definition UnmarshalBSONValue (o : ObjectId) (typ : ascii) (data : bytes) : outcome ObjectId :=
  if Ascii.eqb typ Bson.TypeNull then Returns EmptyString None
  else if negb (Ascii.eqb typ Bson.TypeObjectID) then
    Returns o (Some (ErrorString "wrong bson type expected objectid"))
  else match Bson.ObjectID_of_slice data with
       | None => Panics o
       | Some oId => Returns (Bson.Hex oId) None
       end.

End ObjectId.

(** ** uuid.go *)
Module UUID.

Definition UUID := string.

Definition String_ (u : UUID) : string := u.

Definition IsZero (u : UUID) : bool := Nat.eqb (String.length u) 0.

Definition UuidFromString (id : string) : UUID * option go_error :=
  let (u, err) := GUuid.Parse id in (GUuid.String_ u, err).

Definition MarshalJSON (u : UUID) : string * option go_error :=
  if IsZero u then Json.Marshal_nil else Json.Marshal_string u.

(** [uuid.ParseBytes(data)] on the JSON text itself. *)
Definition UnmarshalJSON (u : UUID) (data : string) : outcome UUID :=
  if String.eqb data "null" then Returns EmptyString None
  else let (uid, err) := GUuid.ParseBytes (list_ascii_of_string data) in
       match err with
       | Some e => Returns u (Some e)
       | None => Returns (GUuid.String_ uid) None
       end.

Definition MarshalBSONValue (u : UUID) : ascii * bytes * option go_error :=
  if IsZero u then bson_null
  else let (uid, err) := GUuid.Parse u in
       match err with
       | Some e => (ascii_of_nat 0, [], Some e)
       | None =>
         let (data, err2) := GUuid.MarshalBinary uid in
         match err2 with
         | Some e => (ascii_of_nat 0, [], Some e)
         | None => marshalBsonValue
                     (Bson.VBinary {| Bson.Subtype := Bson.TypeBinaryUUID; Bson.Data := data |})
         end
       end.

Definition UnmarshalBSONValue (u : UUID) (typ : ascii) (data : bytes) : outcome UUID :=
  if Ascii.eqb typ Bson.TypeNull then Returns EmptyString None
  else if negb (Ascii.eqb typ Bson.TypeBinary) then
    Returns u (Some (ErrorString "wrong bson type expected binary"))
  else match Bson.UnmarshalValue_Binary typ data with
       | Err e => Returns u (Some e)
       | Ok bin =>
         if negb (Ascii.eqb (Bson.Subtype bin) Bson.TypeBinaryUUID) then
           Returns u (Some (ErrorString "wrong subtype"))
         else let (uid, err) := GUuid.FromBytes (Bson.Data bin) in
              match err with
              | Some e => Returns u (Some e)
              | None => Returns (GUuid.String_ uid) None
              end
       end.

End UUID.

(** ** Binary (the generic binary type) *)
Module Binary.

Definition Binary := bytes.

Definition MarshalJSON (b : Binary) : string * option go_error :=
  if Nat.eqb (length b) 0 then Json.Marshal_nil
  else Json.Marshal_string (B64.EncodeToString b).

Definition UnmarshalJSON (b : Binary) (data : string) : outcome Binary :=
  if Nat.eqb (String.length data) 0 then Returns [] None
  else let (base64Str, err) := Json.Unmarshal_string data EmptyString in
       match err with
       | Some e => Returns b (Some e)
       | None =>
         if Nat.eqb (String.length base64Str) 0 then Returns [] None
         else let (bs, err2) := B64.DecodeString base64Str in
              match err2 with
              | Some e => Returns b (Some e)
              | None => Returns bs None
              end
       end.

Definition MarshalBSONValue (b : Binary) : ascii * bytes * option go_error :=
  if Nat.eqb (length b) 0 then bson_null
  else marshalBsonValue
         (Bson.VBinary {| Bson.Subtype := Bson.TypeBinaryGeneric; Bson.Data := b |}).

Definition UnmarshalBSONValue (b : Binary) (typ : ascii) (data : bytes) : outcome Binary :=
  if Ascii.eqb typ Bson.TypeNull then Returns [] None
  else if negb (Ascii.eqb typ Bson.TypeBinary) then
    Returns b (Some (ErrorString "wrong bson type expected binary"))
  else match Bson.UnmarshalValue_Binary typ data with
       | Err e => Returns b (Some e)
       | Ok prim =>
         if negb (Ascii.eqb (Bson.Subtype prim) Bson.TypeBinaryGeneric) then
           Returns b (Some (ErrorString "wrong bson subtype expected generic"))
         else Returns (Bson.Data prim) None
       end.

End Binary.

(** ** string.go.  [NullString] has no decoder of its own: decoding uses the
    default decoders of a Go string. *)
Module NullString.

Definition NullString := string.

Definition MarshalJSON (v : NullString) : string * option go_error :=
  if Nat.eqb (String.length v) 0 then Json.Marshal_nil else Json.Marshal_string v.

Definition MarshalBSONValue (v : NullString) : ascii * bytes * option go_error :=
  if Nat.eqb (String.length v) 0 then bson_null else Bson.MarshalValue (Bson.VString v).

Definition UnmarshalJSON (v : NullString) (data : string) : outcome NullString :=
  let (s, err) := Json.Unmarshal_string data v in Returns s err.

Definition UnmarshalBSONValue (v : NullString) (typ : ascii) (data : bytes)
  : outcome NullString :=
  BsonDecode.store v (BsonDecode.String_ typ data).

End NullString.

(** ** number.go.  The number types have no decoders of their own either. *)
Module NullInt32.

Definition NullInt32 := Z.

Definition MarshalJSON (v : NullInt32) : string * option go_error :=
  if (v =? 0)%Z then Json.Marshal_nil else Json.Marshal_int v.

Definition MarshalBSONValue (v : NullInt32) : ascii * bytes * option go_error :=
  if (v =? 0)%Z then bson_null else marshalBsonValue (Bson.VInt32 v).

Definition UnmarshalJSON (v : NullInt32) (data : string) : outcome NullInt32 :=
  let (n, err) := Json.Unmarshal_int 32 data v in Returns n err.

Definition UnmarshalBSONValue (v : NullInt32) (typ : ascii) (data : bytes)
  : outcome NullInt32 :=
  BsonDecode.store v (BsonDecode.Int32 typ data).

End NullInt32.

Module NullInt64.

Definition NullInt64 := Z.

Definition MarshalJSON (v : NullInt64) : string * option go_error :=
  if (v =? 0)%Z then Json.Marshal_nil else Json.Marshal_int v.

Definition MarshalBSONValue (v : NullInt64) : ascii * bytes * option go_error :=
  if (v =? 0)%Z then bson_null else marshalBsonValue (Bson.VInt64 v).

Definition UnmarshalJSON (v : NullInt64) (data : string) : outcome NullInt64 :=
  let (n, err) := Json.Unmarshal_int 64 data v in Returns n err.

Definition UnmarshalBSONValue (v : NullInt64) (typ : ascii) (data : bytes)
  : outcome NullInt64 :=
  BsonDecode.store v (BsonDecode.Int64 typ data).

End NullInt64.

(** [v == 0] on a float64: true for both zeros, false for NaN. *)
Definition float_is_zero (v : float) : bool := PrimFloat.eqb v 0%float.

(** [NullFloat32] holds a float64 and encodes [float32(v)]. *)
Module NullFloat32.

Definition NullFloat32 := float.

Section Text.
Variable FormatFloat : Z -> float -> string.
Variable ParseFloat : string -> option float.

Definition MarshalJSON (v : NullFloat32) : string * option go_error :=
  if float_is_zero v then Json.Marshal_nil
  else Json.Marshal_float FormatFloat 32 (F64.to_float32 v).

Definition UnmarshalJSON (v : NullFloat32) (data : string) : outcome NullFloat32 :=
  let (f, err) := Json.Unmarshal_float ParseFloat data v in Returns f err.

End Text.

Definition MarshalBSONValue (v : NullFloat32) : ascii * bytes * option go_error :=
  if float_is_zero v then bson_null
  else marshalBsonValue (Bson.VFloat32 (F64.to_float32 v)).

Definition UnmarshalBSONValue (v : NullFloat32) (typ : ascii) (data : bytes)
  : outcome NullFloat32 :=
  BsonDecode.store v (BsonDecode.Float64 typ data).

End NullFloat32.

Module NullFloat64.

Definition NullFloat64 := float.

Section Text.
Variable FormatFloat : Z -> float -> string.
Variable ParseFloat : string -> option float.

Definition MarshalJSON (v : NullFloat64) : string * option go_error :=
  if float_is_zero v then Json.Marshal_nil else Json.Marshal_float FormatFloat 64 v.

Definition UnmarshalJSON (v : NullFloat64) (data : string) : outcome NullFloat64 :=
  let (f, err) := Json.Unmarshal_float ParseFloat data v in Returns f err.

End Text.

Definition MarshalBSONValue (v : NullFloat64) : ascii * bytes * option go_error :=
  if float_is_zero v then bson_null else marshalBsonValue (Bson.VFloat64 v).

Definition UnmarshalBSONValue (v : NullFloat64) (typ : ascii) (data : bytes)
  : outcome NullFloat64 :=
  BsonDecode.store v (BsonDecode.Float64 typ data).

End NullFloat64.

(** * Package [mongodb]: the [StdConnector] facade over the driver *)
Module Connector.

(** The values the connector hands to the driver: the documents it builds
    itself, and the caller's arguments ([BOther], opaque). *)
Inductive bval : Type :=
| BString (s : string)
| BInt (z : Z)
| BInt32 (z : Z)
| BInt64 (z : Z)
| BDouble (f : float)
| BBool (b : bool)
| BDoc (d : list (string * bval))
| BOther (n : nat).

(** The connector: the database handle ([None] for a nil [*mongo.Database])
    and the configured collection, by its name ([None] for a nil
    [*mongo.Collection]). *)
Record StdConnector : Type := {
  database : option string;
  collection : option string
}.

(** What a collection method of the connector does: forward the call of the
    driver's method on the configured collection (whose result it returns),
    or fail without calling the driver, returning the error (with the
    non-nil scalar beside it, [-1] for [Count]). *)
Inductive reply : Type :=
| Forward (coll : string) (method : string) (args : list bval)
| Fail (ret : option Z) (e : go_error).

(** The cursor methods forward to the cursor, without any check. *)
Inductive cursor_reply : Type :=
| CursorForward (method : string) (args : list bval).

Definition no_collection_set : go_error := ErrorString "no collection set".

(** [if conn.collection == nil { return ..., errors.New("no collection set") }]
    followed by [conn.collection.<method>(conn.context, ...)]. *)
Definition guarded (conn : StdConnector) (method : string) (args : list bval) : reply :=
  match collection conn with
  | None => Fail None no_collection_set
  | Some c => Forward c method args
  end.

(** [mongo.ErrNilDocument]. *)
Definition ErrNilDocument : go_error := ErrorString "document is nil".

(** The [SingleResult] methods: [if conn.collection == nil { return
    mongo.NewSingleResultFromDocument(nil, errors.New("no collection set"), nil) }].
    The driver's [NewSingleResultFromDocument] returns [&SingleResult{err:
    ErrNilDocument}] for a nil document, dropping the error it was given. *)
Definition guarded_single (conn : StdConnector) (method : string) (args : list bval) : reply :=
  match collection conn with
  | None => Fail None ErrNilDocument
  | Some c => Forward c method args
  end.

Definition WithCollection (conn : StdConnector) (coll : string) : option StdConnector :=
  match database conn with
  | None => None  (* [conn.database.Collection] on a nil database: a panic *)
  | Some d => Some {| database := Some d; collection := Some coll |}
  end.

Definition Find conn filter opts := guarded conn "Find" (filter :: opts).
Definition FindOne conn filter opts := guarded_single conn "FindOne" (filter :: opts).
Definition Count (conn : StdConnector) (filter : bval) (opts : list bval) : reply :=
  match collection conn with
  | None => Fail (Some (-1)%Z) no_collection_set
  | Some c => Forward c "CountDocuments" (filter :: opts)
  end.
Definition Distinct conn (fieldName : string) filter opts :=
  guarded conn "Distinct" (BString fieldName :: filter :: opts).
Definition FindOneAndDelete conn filter opts := guarded_single conn "FindOneAndDelete" (filter :: opts).
Definition FindOneAndReplace conn filter replacement opts :=
  guarded_single conn "FindOneAndReplace" (filter :: replacement :: opts).
Definition FindOneAndUpdate conn filter update opts :=
  guarded_single conn "FindOneAndUpdate" (filter :: update :: opts).
Definition UpdateOne conn filter update opts := guarded conn "UpdateOne" (filter :: update :: opts).
Definition UpdateMany conn filter update opts := guarded conn "UpdateMany" (filter :: update :: opts).
Definition UpdateById conn id update opts := guarded conn "UpdateByID" (id :: update :: opts).
Definition ReplaceOne conn filter update opts := guarded conn "ReplaceOne" (filter :: update :: opts).
Definition InsertOne conn document opts := guarded conn "InsertOne" (document :: opts).
Definition InsertMany conn (documents : list bval) opts :=
  guarded conn "InsertMany" (BDoc (map (fun d => (EmptyString, d)) documents) :: opts).
Definition DeleteOne conn filter opts := guarded conn "DeleteOne" (filter :: opts).
Definition DeleteMany conn filter opts := guarded conn "DeleteMany" (filter :: opts).
Definition Aggregate conn pipeline opts := guarded conn "Aggregate" (pipeline :: opts).
Definition Drop conn := guarded conn "Drop" [].
Definition Watch conn pipeline opts := guarded conn "Watch" (pipeline :: opts).

Definition Decode (cur val : bval) : cursor_reply := CursorForward "Decode" [cur; val].
Definition Next (cur : bval) : cursor_reply := CursorForward "Next" [cur].
Definition FetchAll (cur results : bval) : cursor_reply := CursorForward "All" [cur; results].

(** The value of a key of a [bson.M] decoded from a document: the last
    element with that key. *)
Fixpoint lookup_last (k : string) (d : list (string * bval)) : option bval :=
  match d with
  | [] => None
  | (k', v) :: r =>
      match lookup_last k r with
      | Some x => Some x
      | None => if String.eqb k k' then Some v else None
      end
  end.

(** [int64(int(v))] of a float64: truncation toward zero; out of range (and
    NaN) the amd64 result [math.MinInt64]. *)
Definition trunc_value (f : float) : option Z :=
  match Prim2SF f with
  | S754_zero _ => Some 0%Z
  | S754_finite s m e =>
      let a := if (0 <=? e)%Z then (Z.pos m * 2 ^ e)%Z else (Z.pos m / 2 ^ (- e))%Z in
      Some (if s then (- a)%Z else a)
  | _ => None
  end.

Definition int_of_float (f : float) : Z :=
  match trunc_value f with
  | Some z => if Json.int64_ok z then z else (- 2 ^ 63)%Z
  | None => (- 2 ^ 63)%Z
  end.

(** What [GetNextSeq] does: return, panic, or make one driver call and
    continue with the result of decoding its [SingleResult] into a [bson.M]. *)
Inductive seq_outcome : Type :=
| SeqReturn (seq : Z) (err : option go_error)
| SeqPanic
| SeqCall (coll : string) (method : string) (args : list bval)
          (k : result (list (string * bval)) -> Z * option go_error).

(** The type switch on [data["Current"]]. *)
Definition seq_of_result (r : result (list (string * bval))) : Z * option go_error :=
  match r with
  | Err e => (0%Z, Some e)
  | Ok data =>
    match lookup_last "Current" data with
    | Some (BInt32 v) => (v, None)
    | Some (BInt64 v) => (v, None)
    | Some (BDouble v) => (int_of_float v, None)
    | _ => (0%Z, Some (ErrorString "unknown return type"))
    end
  end.

Definition seqFilter (name : string) : bval := BDoc [("_id", BString name)].
Definition seqUpdate : bval := BDoc [("$inc", BDoc [("Current", BInt 1)])].
Definition seqOptions : list bval :=
  [BDoc [("upsert", BBool true)];
   BDoc [("returnDocument", BString "After")];
   BDoc [("projection", BDoc [("Current", BInt 1)])]].

(** [GetNextSeq].  The [SingleResult] of [FindOneAndUpdate] is never nil, so
    the [res == nil] branch is not reachable; a failed [FindOneAndUpdate]
    surfaces its error through [res.Decode]. *)
Definition GetNextSeq (conn : StdConnector) (name : string) (opts : list string)
  : seq_outcome :=
  let name' :=
    if Nat.eqb (String.length name) 0 then
      match collection conn with
      | None => inl no_collection_set
      | Some c => inr c
      end
    else inr name in
  match name' with
  | inl e => SeqReturn 0 (Some e)
  | inr nm =>
    let seqCollection := match opts with o :: _ => o | [] => "Sequences" end in
    match WithCollection conn seqCollection with
    | None => SeqPanic
    | Some conn2 =>
      match FindOneAndUpdate conn2 (seqFilter nm) seqUpdate seqOptions with
      | Forward c m args => SeqCall c m args seq_of_result
      | Fail _ e => SeqReturn 0 (Some e)
      end
    end
  end.

End Connector.

(** * Sample values and the round trip of an encoder and a decoder *)

(** Connectors with a database, without and with a collection. *)
Definition conn_without_collection : Connector.StdConnector :=
  {| Connector.database := Some "app"; Connector.collection := None |}.

Definition conn_with_collection : Connector.StdConnector :=
  {| Connector.database := Some "app"; Connector.collection := Some "orders" |}.

(** The decoder run on what the encoder produced, when the encoder succeeded
    ([None] when it returned an error). *)
Definition json_decode_of {A} (enc : string * option go_error) (dec : string -> outcome A)
  : option (outcome A) :=
  match enc with (j, None) => Some (dec j) | _ => None end.

Definition bson_decode_of {A} (enc : ascii * bytes * option go_error)
  (dec : ascii -> bytes -> outcome A) : option (outcome A) :=
  match enc with (t, d, None) => Some (dec t d) | _ => None end.

Definition hex_lower (s : string) : string :=
  string_of_list_ascii (map GUuid.lower (list_ascii_of_string s)).

(** The bytes that [appendString] copies unescaped. *)
Definition safe_bytes (l : bytes) : bool := forallb (fun c => Json.html_safe (ord c)) l.

(** * Properties *)

(** ** General lemmas on bytes and strings *)

Lemma length_string_of_list_ascii (l : bytes) :
  String.length (string_of_list_ascii l) = length l.
Proof. induction l; simpl; auto. Qed.

Lemma length_list_ascii_of_string (s : string) :
  length (list_ascii_of_string s) = String.length s.
Proof. induction s; simpl; auto. Qed.

Lemma list_ascii_of_string_append (a b : string) :
  list_ascii_of_string (a ++ b) = (list_ascii_of_string a ++ list_ascii_of_string b)%list.
Proof. induction a; simpl; f_equal; auto. Qed.

Lemma bytes_eqb_eq (a b : bytes) : bytes_eqb a b = true <-> a = b.
Proof.
  revert b; induction a as [|x a IH]; destruct b as [|y b]; simpl;
    try (split; congruence).
  rewrite andb_true_iff, Ascii.eqb_eq, IH.
  split; [intros [-> ->]; auto | intros H; inversion H; auto].
Qed.

Lemma Hex_EncodeToString_length (l : bytes) :
  String.length (Hex.EncodeToString l) = (2 * length l)%nat.
Proof.
  unfold Hex.EncodeToString. rewrite length_string_of_list_ascii.
  induction l as [|a l IH]; [reflexivity|]. cbn [flat_map length app]. rewrite IH. lia.
Qed.

(** ** google/uuid: the parsed array always has 16 bytes *)

Lemma set_nth_length (u : bytes) i v : length (GUuid.set_nth u i v) = length u.
Proof.
  revert i; induction u; destruct i; simpl; auto.
Qed.

Lemma parse32_length i u s :
  length (fst (GUuid.parse32 i u s)) = length u.
Proof.
  remember (length s) as n eqn:Hn. assert (Hle : (length s <= n)%nat) by lia.
  clear Hn. revert i u s Hle. induction n as [|n IH]; intros i u s Hle.
  - destruct s; [reflexivity | simpl in Hle; lia].
  - destruct s as [|x1 [|x2 r]]; try reflexivity.
    cbn [GUuid.parse32]. destruct (GUuid.xtob x1 x2) as [v ok]. destruct ok.
    + rewrite IH; [apply set_nth_length | simpl in Hle; lia].
    + apply set_nth_length.
Qed.

Lemma parse_groups_length i u s xs :
  length (fst (GUuid.parse_groups i u s xs)) = length u.
Proof.
  revert i u; induction xs as [|x xs IH]; intros i u; [reflexivity|].
  cbn [GUuid.parse_groups].
  destruct (GUuid.xtob (GUuid.at_ s x) (GUuid.at_ s (S x))) as [v ok];
    destruct ok; [|reflexivity].
  rewrite IH. apply set_nth_length.
Qed.

Lemma parse_hyphenated_length s : length (fst (GUuid.parse_hyphenated s)) = 16%nat.
Proof.
  unfold GUuid.parse_hyphenated.
  destruct (negb _); [reflexivity|]. rewrite parse_groups_length. reflexivity.
Qed.

Lemma parse_bytes_length s : length (fst (GUuid.parse_bytes s)) = 16%nat.
Proof.
  unfold GUuid.parse_bytes.
  destruct (Nat.eqb _ 36); [apply parse_hyphenated_length|].
  destruct (Nat.eqb _ 45); [destruct (GUuid.EqualFold _ _); [apply parse_hyphenated_length|reflexivity]|].
  destruct (Nat.eqb _ 38); [apply parse_hyphenated_length|].
  destruct (Nat.eqb _ 32); [rewrite parse32_length; reflexivity|reflexivity].
Qed.

Lemma String_length (u : GUuid.UUID) :
  length u = 16%nat -> String.length (GUuid.String_ u) = 36%nat.
Proof.
  intros H. unfold GUuid.String_. rewrite length_string_of_list_ascii.
  rewrite !length_app, !length_list_ascii_of_string, !Hex_EncodeToString_length.
  rewrite !length_firstn, !length_skipn, H. reflexivity.
Qed.

Lemma ascii_eqb_refl (c : ascii) : Ascii.eqb c c = true.
Proof. apply Ascii.eqb_eq. reflexivity. Qed.

Lemma ascii_eqb_true (a b : ascii) : Ascii.eqb a b = true -> a = b.
Proof. apply Ascii.eqb_eq. Qed.

(** ** C8: zero test and display of an ObjectId *)

(** C8 (counterexample): the display of a non-zero ObjectId is
    ["ObjectID(<hex>)"], not ["Identifier(<hex>)"]. *)
Lemma ObjectId_String_counterexample :
  ObjectId.String_ "6555d2cc4fce49f464c2f683" = "ObjectID(6555d2cc4fce49f464c2f683)"
  /\ ObjectId.String_ "6555d2cc4fce49f464c2f683" <> "Identifier(6555d2cc4fce49f464c2f683)".
Proof. split; [reflexivity | discriminate]. Qed.

(** C8 (amended): [IsZero o] holds iff the text of [o] is empty; [String o]
    is ["null"] when [o] is zero and ["ObjectID(" ++ o ++ ")"] otherwise; the
    all-zero sentinel is not zero and does not display as ["null"]. *)
Theorem ObjectId_IsZero_String (o : ObjectId.ObjectId) :
  (ObjectId.IsZero o = true <-> String.length o = 0%nat)
  /\ ObjectId.String_ o
     = (if Nat.eqb (String.length o) 0 then "null" else "ObjectID(" ++ o ++ ")")
  /\ ObjectId.IsZero ObjectId.NilObjectID = false
  /\ ObjectId.String_ ObjectId.NilObjectID <> "null".
Proof.
  unfold ObjectId.IsZero, ObjectId.String_. split; [apply Nat.eqb_eq|].
  split; [reflexivity|]. split; [reflexivity|]. discriminate.
Qed.

(** ** C4: the encoders of an ObjectId *)

(** C4: [MarshalBSONValue o] is the null type for the empty [o]; otherwise it
    parses [o] and returns the parse error, the null type when the parsed id
    is all zero, and else the object id type with the 12 parsed bytes.  In
    JSON both the empty id and the all-zero sentinel are [null]. *)
Theorem ObjectId_MarshalBSONValue_algorithm (o : ObjectId.ObjectId) :
  ObjectId.MarshalBSONValue o =
    (if Nat.eqb (String.length o) 0 then (Bson.TypeNull, [], None)
     else match Bson.ObjectIDFromHex o with
          | Err e => (ascii_of_nat 0, [], Some e)
          | Ok oId => if bytes_eqb oId Bson.NilObjectID then (Bson.TypeNull, [], None)
                      else (Bson.TypeObjectID, oId, None)
          end)
  /\ ObjectId.MarshalJSON EmptyString = ("null", None)
  /\ ObjectId.MarshalJSON ObjectId.NilObjectID = ("null", None)
  /\ Bson.ObjectIDFromHex ObjectId.NilObjectID = Ok Bson.NilObjectID.
Proof.
  split; [|split; [reflexivity | split; [reflexivity | vm_compute; reflexivity]]].
  unfold ObjectId.MarshalBSONValue, bson_null, marshalBsonValue.
  destruct (Nat.eqb _ 0); [reflexivity|].
  destruct (Bson.ObjectIDFromHex o); reflexivity.
Qed.

(** ** C9: the ObjectId BSON decoder does not check the payload length *)

(** C9: with the object id type, [UnmarshalBSONValue] panics on a payload
    shorter than 12 bytes and otherwise takes the hex of its first 12 bytes. *)
Theorem ObjectId_UnmarshalBSONValue_length (o : ObjectId.ObjectId) (data : bytes) :
  ObjectId.UnmarshalBSONValue o Bson.TypeObjectID data
  = (if (length data <? 12)%nat then Panics o
     else Returns (Bson.Hex (firstn 12 data)) None).
Proof.
  unfold ObjectId.UnmarshalBSONValue, Bson.ObjectID_of_slice. simpl.
  destruct (length data <? 12)%nat; reflexivity.
Qed.

(** ** C10: the value [UuidFromString] returns beside an error *)

Lemma Parse_bad_length (id : string) :
  negb (Nat.eqb (String.length id) 36 || Nat.eqb (String.length id) 45
        || Nat.eqb (String.length id) 38 || Nat.eqb (String.length id) 32) = true ->
  GUuid.Parse id = (GUuid.Nil, Some (UUIDInvalidLengthError (String.length id))).
Proof.
  intros H. unfold GUuid.Parse, GUuid.parse_bytes.
  rewrite length_list_ascii_of_string.
  destruct (Nat.eqb _ 36), (Nat.eqb _ 45), (Nat.eqb _ 38), (Nat.eqb _ 32);
    try discriminate H; reflexivity.
Qed.

(** C10 (counterexample): a 36-character string whose last digit is bad
    returns the error with the bytes parsed before it, not the all-zero
    UUID. *)
Lemma UuidFromString_counterexample :
  UUID.UuidFromString "f47ac10b-58cc-0372-8567-0e02b2c3d47z"
  = ("f47ac10b-58cc-0372-8567-0e02b2c3d400", Some (ErrorString "invalid UUID format"))
  /\ "f47ac10b-58cc-0372-8567-0e02b2c3d400" <> "00000000-0000-0000-0000-000000000000".
Proof. split; [vm_compute; reflexivity | discriminate]. Qed.

(** C10 (amended): when [UuidFromString id] fails it returns the error with
    the canonical rendering of the bytes [uuid.Parse] had filled in before
    the error, a 36-character string, so [IsZero] is false; for a string of
    a length [uuid.Parse] does not accept it is the all-zero UUID string. *)
Theorem UuidFromString_error_value (id : string) (u : UUID.UUID) (e : go_error) :
  UUID.UuidFromString id = (u, Some e) ->
  u = GUuid.String_ (fst (GUuid.Parse id))
  /\ String.length u = 36%nat
  /\ UUID.IsZero u = false
  /\ (negb (Nat.eqb (String.length id) 36 || Nat.eqb (String.length id) 45
            || Nat.eqb (String.length id) 38 || Nat.eqb (String.length id) 32) = true ->
      u = "00000000-0000-0000-0000-000000000000"
      /\ e = UUIDInvalidLengthError (String.length id)).
Proof.
  assert (H16 : length (fst (GUuid.Parse id)) = 16%nat) by apply parse_bytes_length.
  unfold UUID.UuidFromString. destruct (GUuid.Parse id) as [b err] eqn:Hp.
  intros H. injection H as <- ->. simpl in H16 |- *.
  assert (Hl : String.length (GUuid.String_ b) = 36%nat) by (apply String_length; exact H16).
  split; [reflexivity|]. split; [exact Hl|]. split.
  - unfold UUID.IsZero. rewrite Hl. reflexivity.
  - intros Hn. rewrite Parse_bad_length in Hp by exact Hn.
    injection Hp as <- He. split; [vm_compute; reflexivity | congruence].
Qed.

(** C10: [UuidFromString "abcd"]. *)
Lemma UuidFromString_error_value_witness :
  UUID.UuidFromString "abcd"
    = ("00000000-0000-0000-0000-000000000000", Some (UUIDInvalidLengthError 4))
  /\ String.length "00000000-0000-0000-0000-000000000000" = 36%nat.
Proof.
  assert (H : UUID.UuidFromString "abcd"
    = ("00000000-0000-0000-0000-000000000000", Some (UUIDInvalidLengthError 4)))
    by (vm_compute; reflexivity).
  split; [exact H|].
  exact (proj1 (proj2 (UuidFromString_error_value "abcd" _ _ H))).
Defined.

(** ** C3: the BSON decoders reject a wrong type or subtype *)

Lemma UnmarshalValue_Binary_binary (data : bytes) :
  Bson.UnmarshalValue_Binary Bson.TypeBinary data = Bson.ReadBinary data.
Proof. reflexivity. Qed.

(** C3: the BSON decoders of ObjectId, UUID and Binary answer a type tag
    other than null and the expected one with their wrong-type error, and
    (UUID, Binary) a well-formed binary of another subtype with their
    wrong-subtype error, leaving the destination alone; a decode that
    succeeds had the null type or the expected type (and subtype). *)
Theorem bson_decoders_reject_mismatch :
  (forall (o : ObjectId.ObjectId) typ data,
      Ascii.eqb typ Bson.TypeNull = false -> Ascii.eqb typ Bson.TypeObjectID = false ->
      ObjectId.UnmarshalBSONValue o typ data
      = Returns o (Some (ErrorString "wrong bson type expected objectid")))
  /\ (forall (u : UUID.UUID) typ data,
      Ascii.eqb typ Bson.TypeNull = false -> Ascii.eqb typ Bson.TypeBinary = false ->
      UUID.UnmarshalBSONValue u typ data
      = Returns u (Some (ErrorString "wrong bson type expected binary")))
  /\ (forall (b : Binary.Binary) typ data,
      Ascii.eqb typ Bson.TypeNull = false -> Ascii.eqb typ Bson.TypeBinary = false ->
      Binary.UnmarshalBSONValue b typ data
      = Returns b (Some (ErrorString "wrong bson type expected binary")))
  /\ (forall (u : UUID.UUID) data bin,
      Bson.ReadBinary data = Ok bin ->
      Ascii.eqb (Bson.Subtype bin) Bson.TypeBinaryUUID = false ->
      UUID.UnmarshalBSONValue u Bson.TypeBinary data
      = Returns u (Some (ErrorString "wrong subtype")))
  /\ (forall (b : Binary.Binary) data bin,
      Bson.ReadBinary data = Ok bin ->
      Ascii.eqb (Bson.Subtype bin) Bson.TypeBinaryGeneric = false ->
      Binary.UnmarshalBSONValue b Bson.TypeBinary data
      = Returns b (Some (ErrorString "wrong bson subtype expected generic")))
  /\ (forall (o o' : ObjectId.ObjectId) typ data,
      ObjectId.UnmarshalBSONValue o typ data = Returns o' None ->
      typ = Bson.TypeNull \/ typ = Bson.TypeObjectID)
  /\ (forall (u u' : UUID.UUID) typ data,
      UUID.UnmarshalBSONValue u typ data = Returns u' None ->
      typ = Bson.TypeNull
      \/ (typ = Bson.TypeBinary /\ exists bin, Bson.ReadBinary data = Ok bin
                                   /\ Bson.Subtype bin = Bson.TypeBinaryUUID))
  /\ (forall (b b' : Binary.Binary) typ data,
      Binary.UnmarshalBSONValue b typ data = Returns b' None ->
      typ = Bson.TypeNull
      \/ (typ = Bson.TypeBinary /\ exists bin, Bson.ReadBinary data = Ok bin
                                   /\ Bson.Subtype bin = Bson.TypeBinaryGeneric))
  /\ "wrong subtype" <> "wrong bson type expected binary"
  /\ "wrong bson subtype expected generic" <> "wrong bson type expected binary".
Proof.
  repeat split.
  - intros o typ data H1 H2. unfold ObjectId.UnmarshalBSONValue. rewrite H1, H2. reflexivity.
  - intros u typ data H1 H2. unfold UUID.UnmarshalBSONValue. rewrite H1, H2. reflexivity.
  - intros b typ data H1 H2. unfold Binary.UnmarshalBSONValue. rewrite H1, H2. reflexivity.
  - intros u data bin H1 H2. unfold UUID.UnmarshalBSONValue.
    rewrite UnmarshalValue_Binary_binary, H1, H2. reflexivity.
  - intros b data bin H1 H2. unfold Binary.UnmarshalBSONValue.
    rewrite UnmarshalValue_Binary_binary, H1, H2. reflexivity.
  - intros o o' typ data. unfold ObjectId.UnmarshalBSONValue.
    destruct (Ascii.eqb typ Bson.TypeNull) eqn:E1; [left; apply ascii_eqb_true; exact E1|].
    destruct (Ascii.eqb typ Bson.TypeObjectID) eqn:E2; [right; apply ascii_eqb_true; exact E2|].
    discriminate.
  - intros u u' typ data. unfold UUID.UnmarshalBSONValue.
    destruct (Ascii.eqb typ Bson.TypeNull) eqn:E1; [left; apply ascii_eqb_true; exact E1|].
    destruct (Ascii.eqb typ Bson.TypeBinary) eqn:E2; [|discriminate]. simpl.
    apply ascii_eqb_true in E2. subst typ. rewrite UnmarshalValue_Binary_binary.
    destruct (Bson.ReadBinary data) as [bin|e]; [|discriminate].
    destruct (Ascii.eqb (Bson.Subtype bin) Bson.TypeBinaryUUID) eqn:E3; [|discriminate].
    intros _. right. split; [reflexivity|]. exists bin. split; [reflexivity|].
    apply ascii_eqb_true; exact E3.
  - intros b b' typ data. unfold Binary.UnmarshalBSONValue.
    destruct (Ascii.eqb typ Bson.TypeNull) eqn:E1; [left; apply ascii_eqb_true; exact E1|].
    destruct (Ascii.eqb typ Bson.TypeBinary) eqn:E2; [|discriminate]. simpl.
    apply ascii_eqb_true in E2. subst typ. rewrite UnmarshalValue_Binary_binary.
    destruct (Bson.ReadBinary data) as [bin|e]; [|discriminate].
    destruct (Ascii.eqb (Bson.Subtype bin) Bson.TypeBinaryGeneric) eqn:E3; [|discriminate].
    intros _. right. split; [reflexivity|]. exists bin. split; [reflexivity|].
    apply ascii_eqb_true; exact E3.
  - discriminate.
  - discriminate.
Qed.

(** C3: a string-typed value given to the ObjectId decoder, and a binary of
    the old UUID subtype given to the UUID decoder. *)
Lemma bson_decoders_reject_mismatch_witness :
  ObjectId.UnmarshalBSONValue "" Bson.TypeString (Bson.le32 1 ++ [ascii_of_nat 0])%list
    = Returns "" (Some (ErrorString "wrong bson type expected objectid"))
  /\ UUID.UnmarshalBSONValue "" Bson.TypeBinary
       (Bson.le32 1 ++ [Bson.TypeBinaryUUIDOld; ascii_of_nat 7])%list
     = Returns "" (Some (ErrorString "wrong subtype")).
Proof.
  split.
  - apply (proj1 bson_decoders_reject_mismatch); reflexivity.
  - apply (proj1 (proj2 (proj2 (proj2 bson_decoders_reject_mismatch)))
             "" _ {| Bson.Subtype := Bson.TypeBinaryUUIDOld; Bson.Data := [ascii_of_nat 7] |});
      vm_compute; reflexivity.
Defined.

(** ** C6: the connector without a collection *)

(** C6 (code bug): [FindOne] on a connector with a database and no collection
    returns a [SingleResult] holding the driver's ["document is nil"]: the
    ["no collection set"] error it builds is dropped by
    [NewSingleResultFromDocument]. *)
Lemma FindOne_no_collection_counterexample :
  Connector.FindOne conn_without_collection (Connector.BOther 0) []
  = Connector.Fail None Connector.ErrNilDocument
  /\ Connector.ErrNilDocument <> Connector.no_collection_set.
Proof. split; [reflexivity | discriminate]. Qed.

(** C6: on a connector without a collection every collection method returns
    without calling the driver: with ["no collection set"] (and [-1] for
    [Count]), except [FindOne] and the three [FindOneAnd*] methods, whose
    [SingleResult] holds ["document is nil"].  [GetNextSeq] with an empty name
    returns ["no collection set"]; with a non-empty name, on a connector with
    a database, it does not look at the collection and makes its increment
    call on the counters collection. *)
Theorem no_collection_set_error (conn : Connector.StdConnector) :
  Connector.collection conn = None ->
  (forall filter opts, Connector.Find conn filter opts
                       = Connector.Fail None Connector.no_collection_set)
  /\ (forall filter opts, Connector.FindOne conn filter opts
                          = Connector.Fail None Connector.ErrNilDocument)
  /\ (forall filter opts, Connector.Count conn filter opts
                          = Connector.Fail (Some (-1)%Z) Connector.no_collection_set)
  /\ (forall field filter opts, Connector.Distinct conn field filter opts
                                = Connector.Fail None Connector.no_collection_set)
  /\ (forall filter opts, Connector.FindOneAndDelete conn filter opts
                          = Connector.Fail None Connector.ErrNilDocument)
  /\ (forall filter r opts, Connector.FindOneAndReplace conn filter r opts
                            = Connector.Fail None Connector.ErrNilDocument)
  /\ (forall filter u opts, Connector.FindOneAndUpdate conn filter u opts
                            = Connector.Fail None Connector.ErrNilDocument)
  /\ (forall filter u opts, Connector.UpdateOne conn filter u opts
                            = Connector.Fail None Connector.no_collection_set)
  /\ (forall filter u opts, Connector.UpdateMany conn filter u opts
                            = Connector.Fail None Connector.no_collection_set)
  /\ (forall id u opts, Connector.UpdateById conn id u opts
                        = Connector.Fail None Connector.no_collection_set)
  /\ (forall filter u opts, Connector.ReplaceOne conn filter u opts
                            = Connector.Fail None Connector.no_collection_set)
  /\ (forall d opts, Connector.InsertOne conn d opts
                     = Connector.Fail None Connector.no_collection_set)
  /\ (forall ds opts, Connector.InsertMany conn ds opts
                      = Connector.Fail None Connector.no_collection_set)
  /\ (forall filter opts, Connector.DeleteOne conn filter opts
                          = Connector.Fail None Connector.no_collection_set)
  /\ (forall filter opts, Connector.DeleteMany conn filter opts
                          = Connector.Fail None Connector.no_collection_set)
  /\ (forall p opts, Connector.Aggregate conn p opts
                     = Connector.Fail None Connector.no_collection_set)
  /\ Connector.Drop conn = Connector.Fail None Connector.no_collection_set
  /\ (forall p opts, Connector.Watch conn p opts
                     = Connector.Fail None Connector.no_collection_set)
  /\ (forall opts, Connector.GetNextSeq conn EmptyString opts
                   = Connector.SeqReturn 0 (Some Connector.no_collection_set))
  /\ (forall db name opts, Connector.database conn = Some db ->
        Nat.eqb (String.length name) 0 = false ->
        exists k, Connector.GetNextSeq conn name opts
                  = Connector.SeqCall (match opts with o :: _ => o | [] => "Sequences" end)
                      "FindOneAndUpdate"
                      ([Connector.seqFilter name; Connector.seqUpdate]
                       ++ Connector.seqOptions)%list k).
Proof.
  intros H.
  unfold Connector.Find, Connector.FindOne, Connector.Count, Connector.Distinct,
    Connector.FindOneAndDelete, Connector.FindOneAndReplace, Connector.FindOneAndUpdate,
    Connector.UpdateOne, Connector.UpdateMany, Connector.UpdateById, Connector.ReplaceOne,
    Connector.InsertOne, Connector.InsertMany, Connector.DeleteOne, Connector.DeleteMany,
    Connector.Aggregate, Connector.Drop, Connector.Watch, Connector.guarded,
    Connector.guarded_single.
  rewrite H.
  repeat match goal with |- _ /\ _ => split end; try reflexivity; try (intros; reflexivity).
  - intros opts. unfold Connector.GetNextSeq. rewrite H. reflexivity.
  - intros db name opts Hdb Hn. unfold Connector.GetNextSeq, Connector.WithCollection.
    rewrite Hn, Hdb. eexists. reflexivity.
Qed.

(** C6: a connector with a database and no collection. *)
Lemma no_collection_set_error_witness :
  Connector.collection conn_without_collection = None
  /\ Connector.FindOne conn_without_collection (Connector.BOther 0) []
     = Connector.Fail None Connector.ErrNilDocument
  /\ Connector.Drop conn_without_collection
     = Connector.Fail None Connector.no_collection_set.
Proof.
  split; [reflexivity|]. split.
  - exact (proj1 (proj2 (no_collection_set_error conn_without_collection eq_refl))
             (Connector.BOther 0) []).
  - exact (proj1 (proj2 (proj2 (proj2 (proj2 (proj2 (proj2 (proj2 (proj2 (proj2
        (proj2 (proj2 (proj2 (proj2 (proj2 (proj2 (proj2
        (no_collection_set_error conn_without_collection eq_refl)))))))))))))))))).
Defined.

(** ** C7: the sequence allocator *)

(** C7 (counterexample): with an empty name, the counter document is the one
    named after the configured collection, not the one named by the
    argument. *)
Lemma GetNextSeq_name_counterexample :
  match Connector.GetNextSeq conn_with_collection EmptyString [] with
  | Connector.SeqCall c m (f :: _) _ =>
      f = Connector.BDoc [("_id", Connector.BString "orders")]
      /\ f <> Connector.BDoc [("_id", Connector.BString EmptyString)]
  | _ => False
  end.
Proof. vm_compute. split; [reflexivity | discriminate]. Qed.

(** C7 (amended): on a connector with a database, [GetNextSeq] makes one
    driver call, [FindOneAndUpdate] on the collection ["Sequences"] (or the
    first option) with the filter [{_id: counter}], the update
    [{$inc: {Current: 1}}], upsert, the document after the update and the
    projection [{Current: 1}], where the counter is the name argument, or the
    configured collection's name when the argument is empty; it returns the
    decoded [Current] as an int64 when it is an int32, an int64 or a float64
    (truncated), the error ["unknown return type"] for any other or a missing
    value, and the driver's error when decoding fails. *)
Theorem GetNextSeq_increment (conn : Connector.StdConnector) (db name counter : string)
  (opts : list string) :
  Connector.database conn = Some db ->
  (if Nat.eqb (String.length name) 0 then Connector.collection conn = Some counter
   else counter = name) ->
  exists k,
    Connector.GetNextSeq conn name opts
    = Connector.SeqCall (match opts with o :: _ => o | [] => "Sequences" end)
        "FindOneAndUpdate"
        [Connector.BDoc [("_id", Connector.BString counter)];
         Connector.BDoc [("$inc", Connector.BDoc [("Current", Connector.BInt 1)])];
         Connector.BDoc [("upsert", Connector.BBool true)];
         Connector.BDoc [("returnDocument", Connector.BString "After")];
         Connector.BDoc [("projection", Connector.BDoc [("Current", Connector.BInt 1)])]]
        k
    /\ (forall doc,
          k (Ok doc) = match Connector.lookup_last "Current" doc with
                       | Some (Connector.BInt32 v) => (v, None)
                       | Some (Connector.BInt64 v) => (v, None)
                       | Some (Connector.BDouble f) => (Connector.int_of_float f, None)
                       | _ => (0%Z, Some (ErrorString "unknown return type"))
                       end)
    /\ (forall e, k (Err e) = (0%Z, Some e)).
Proof.
  intros Hdb Hc. unfold Connector.GetNextSeq.
  destruct (Nat.eqb (String.length name) 0); [rewrite Hc | subst counter];
    unfold Connector.WithCollection; rewrite Hdb;
    exists Connector.seq_of_result; (split; [reflexivity|]);
    (split; [|reflexivity]); intros doc; reflexivity.
Qed.

(** C7: the empty name on a connector with the collection ["orders"] counts
    under ["orders"]; a stored [3.0] is returned as [3]. *)
Lemma GetNextSeq_increment_witness :
  Connector.database conn_with_collection = Some "app"
  /\ Connector.collection conn_with_collection = Some "orders"
  /\ Connector.int_of_float 3.0%float = 3%Z
  /\ exists k, Connector.GetNextSeq conn_with_collection EmptyString []
               = Connector.SeqCall "Sequences" "FindOneAndUpdate"
                   ([Connector.seqFilter "orders"; Connector.seqUpdate]
                    ++ Connector.seqOptions)%list k.
Proof.
  assert (H1 : Connector.database conn_with_collection = Some "app") by reflexivity.
  assert (H2 : Connector.collection conn_with_collection = Some "orders") by reflexivity.
  split; [exact H1|]. split; [exact H2|]. split; [vm_compute; reflexivity|].
  destruct (GetNextSeq_increment conn_with_collection "app" EmptyString "orders" [] H1 H2)
    as [k [Hk _]].
  exists k. exact Hk.
Defined.

(** ** C1: empty values and null *)

(** C1: every wrapper type encodes its zero value as JSON [null] and as the
    BSON null type, and decodes a JSON [null] and a BSON null to its zero
    value: the decoders of ObjectId, UUID and Binary from any destination,
    the default BSON decoders of the other types from any destination, and
    the default JSON decoders, which leave the destination alone on [null],
    from the zero value. *)
Theorem zero_values_are_null :
  (ObjectId.MarshalJSON "" = ("null", None)
   /\ ObjectId.MarshalBSONValue "" = (Bson.TypeNull, [], None)
   /\ (forall o, ObjectId.UnmarshalJSON o "null" = Returns "" None)
   /\ (forall o, ObjectId.UnmarshalBSONValue o Bson.TypeNull [] = Returns "" None))
  /\ (UUID.MarshalJSON "" = ("null", None)
   /\ UUID.MarshalBSONValue "" = (Bson.TypeNull, [], None)
   /\ (forall u, UUID.UnmarshalJSON u "null" = Returns "" None)
   /\ (forall u, UUID.UnmarshalBSONValue u Bson.TypeNull [] = Returns "" None))
  /\ (Binary.MarshalJSON [] = ("null", None)
   /\ Binary.MarshalBSONValue [] = (Bson.TypeNull, [], None)
   /\ (forall b, Binary.UnmarshalJSON b "null" = Returns [] None)
   /\ (forall b, Binary.UnmarshalBSONValue b Bson.TypeNull [] = Returns [] None))
  /\ (NullString.MarshalJSON "" = ("null", None)
   /\ NullString.MarshalBSONValue "" = (Bson.TypeNull, [], None)
   /\ NullString.UnmarshalJSON "" "null" = Returns "" None
   /\ (forall v, NullString.UnmarshalBSONValue v Bson.TypeNull [] = Returns "" None))
  /\ (NullInt32.MarshalJSON 0%Z = ("null", None)
   /\ NullInt32.MarshalBSONValue 0%Z = (Bson.TypeNull, [], None)
   /\ NullInt32.UnmarshalJSON 0%Z "null" = Returns 0%Z None
   /\ (forall v, NullInt32.UnmarshalBSONValue v Bson.TypeNull [] = Returns 0%Z None))
  /\ (NullInt64.MarshalJSON 0%Z = ("null", None)
   /\ NullInt64.MarshalBSONValue 0%Z = (Bson.TypeNull, [], None)
   /\ NullInt64.UnmarshalJSON 0%Z "null" = Returns 0%Z None
   /\ (forall v, NullInt64.UnmarshalBSONValue v Bson.TypeNull [] = Returns 0%Z None))
  /\ ((forall FormatFloat, NullFloat32.MarshalJSON FormatFloat 0%float = ("null", None))
   /\ NullFloat32.MarshalBSONValue 0%float = (Bson.TypeNull, [], None)
   /\ (forall ParseFloat, NullFloat32.UnmarshalJSON ParseFloat 0%float "null"
                          = Returns 0%float None)
   /\ (forall v, NullFloat32.UnmarshalBSONValue v Bson.TypeNull [] = Returns 0%float None))
  /\ ((forall FormatFloat, NullFloat64.MarshalJSON FormatFloat 0%float = ("null", None))
   /\ NullFloat64.MarshalBSONValue 0%float = (Bson.TypeNull, [], None)
   /\ (forall ParseFloat, NullFloat64.UnmarshalJSON ParseFloat 0%float "null"
                          = Returns 0%float None)
   /\ (forall v, NullFloat64.UnmarshalBSONValue v Bson.TypeNull [] = Returns 0%float None)).
Proof.
  repeat split; intros; vm_compute; reflexivity.
Qed.

(** ** C5: a failing decode leaves its destination alone *)

Lemma Unmarshal_string_err data cur s e :
  Json.Unmarshal_string data cur = (s, Some e) -> s = cur.
Proof.
  unfold Json.Unmarshal_string.
  destruct (Json.classify data) as [[| |t|]|]; intros H; inversion H; reflexivity.
Qed.

Lemma Unmarshal_int_err w data cur n e :
  Json.Unmarshal_int w data cur = (n, Some e) -> n = cur.
Proof.
  unfold Json.Unmarshal_int.
  destruct (Json.classify data) as [[| |t|]|]; intros H; try (inversion H; reflexivity).
  destruct (Json.ParseInt t) as [m|]; [|inversion H; reflexivity].
  destruct (_ && _); inversion H; reflexivity.
Qed.

Lemma Unmarshal_float_err ParseFloat data cur f e :
  Json.Unmarshal_float ParseFloat data cur = (f, Some e) -> f = cur.
Proof.
  unfold Json.Unmarshal_float.
  destruct (Json.classify data) as [[| |t|]|]; intros H; try (inversion H; reflexivity).
  destruct (ParseFloat t); inversion H; reflexivity.
Qed.

Lemma store_err {A} (cur d : A) r e :
  BsonDecode.store cur r = Returns d (Some e) -> d = cur.
Proof. destruct r; simpl; intros H; inversion H; reflexivity. Qed.

Ltac outcome_cases H :=
  repeat match type of H with
  | context [match ?x with _ => _ end] => destruct x eqn:?
  | context [if ?x then _ else _] => destruct x eqn:?
  end; inversion H; subst; try reflexivity.

(** C5 (the part that holds): every decoder of every wrapper type that
    returns an error leaves its destination as it was (so a destination at
    its zero value stays there), and decoding the JSON text ["f47ac10b"] as an
    ObjectId returns the invalid-hex error with the destination unset; the
    ObjectId BSON decoder does not return an error on a short object id
    payload but panics. *)
Theorem decode_error_leaves_destination :
  (forall o data o' e, ObjectId.UnmarshalJSON o data = Returns o' (Some e) -> o' = o)
  /\ (forall o typ data o' e,
        ObjectId.UnmarshalBSONValue o typ data = Returns o' (Some e) -> o' = o)
  /\ (forall u data u' e, UUID.UnmarshalJSON u data = Returns u' (Some e) -> u' = u)
  /\ (forall u typ data u' e,
        UUID.UnmarshalBSONValue u typ data = Returns u' (Some e) -> u' = u)
  /\ (forall b data b' e, Binary.UnmarshalJSON b data = Returns b' (Some e) -> b' = b)
  /\ (forall b typ data b' e,
        Binary.UnmarshalBSONValue b typ data = Returns b' (Some e) -> b' = b)
  /\ (forall v data v' e, NullString.UnmarshalJSON v data = Returns v' (Some e) -> v' = v)
  /\ (forall v typ data v' e,
        NullString.UnmarshalBSONValue v typ data = Returns v' (Some e) -> v' = v)
  /\ (forall v data v' e, NullInt32.UnmarshalJSON v data = Returns v' (Some e) -> v' = v)
  /\ (forall v typ data v' e,
        NullInt32.UnmarshalBSONValue v typ data = Returns v' (Some e) -> v' = v)
  /\ (forall v data v' e, NullInt64.UnmarshalJSON v data = Returns v' (Some e) -> v' = v)
  /\ (forall v typ data v' e,
        NullInt64.UnmarshalBSONValue v typ data = Returns v' (Some e) -> v' = v)
  /\ (forall ParseFloat v data v' e,
        NullFloat32.UnmarshalJSON ParseFloat v data = Returns v' (Some e) -> v' = v)
  /\ (forall v typ data v' e,
        NullFloat32.UnmarshalBSONValue v typ data = Returns v' (Some e) -> v' = v)
  /\ (forall ParseFloat v data v' e,
        NullFloat64.UnmarshalJSON ParseFloat v data = Returns v' (Some e) -> v' = v)
  /\ (forall v typ data v' e,
        NullFloat64.UnmarshalBSONValue v typ data = Returns v' (Some e) -> v' = v)
  /\ ObjectId.UnmarshalJSON "" (quoted "f47ac10b") = Returns "" (Some ErrInvalidHex)
  /\ ObjectId.UnmarshalBSONValue "" Bson.TypeObjectID
       [ascii_of_nat 1; ascii_of_nat 2; ascii_of_nat 3] = Panics "".
Proof.
  repeat match goal with |- _ /\ _ => split end.
  - intros o data o' e H. unfold ObjectId.UnmarshalJSON in H. outcome_cases H.
  - intros o typ data o' e H. unfold ObjectId.UnmarshalBSONValue in H. outcome_cases H.
  - intros u data u' e H. unfold UUID.UnmarshalJSON in H. outcome_cases H.
  - intros u typ data u' e H. unfold UUID.UnmarshalBSONValue in H. outcome_cases H.
  - intros b data b' e H. unfold Binary.UnmarshalJSON in H. outcome_cases H.
  - intros b typ data b' e H. unfold Binary.UnmarshalBSONValue in H. outcome_cases H.
  - intros v data v' e H. unfold NullString.UnmarshalJSON in H.
    destruct (Json.Unmarshal_string data v) as [s err] eqn:E. inversion H; subst.
    eapply Unmarshal_string_err; exact E.
  - intros v typ data v' e H. eapply store_err; exact H.
  - intros v data v' e H. unfold NullInt32.UnmarshalJSON in H.
    destruct (Json.Unmarshal_int 32 data v) as [n err] eqn:E. inversion H; subst.
    eapply Unmarshal_int_err; exact E.
  - intros v typ data v' e H. eapply store_err; exact H.
  - intros v data v' e H. unfold NullInt64.UnmarshalJSON in H.
    destruct (Json.Unmarshal_int 64 data v) as [n err] eqn:E. inversion H; subst.
    eapply Unmarshal_int_err; exact E.
  - intros v typ data v' e H. eapply store_err; exact H.
  - intros PF v data v' e H. unfold NullFloat32.UnmarshalJSON in H.
    destruct (Json.Unmarshal_float PF data v) as [f err] eqn:E. inversion H; subst.
    eapply Unmarshal_float_err; exact E.
  - intros v typ data v' e H. eapply store_err; exact H.
  - intros PF v data v' e H. unfold NullFloat64.UnmarshalJSON in H.
    destruct (Json.Unmarshal_float PF data v) as [f err] eqn:E. inversion H; subst.
    eapply Unmarshal_float_err; exact E.
  - intros v typ data v' e H. eapply store_err; exact H.
  - vm_compute. reflexivity.
  - vm_compute. reflexivity.
Qed.

(** ** Lemmas on the codecs: UTF-8, JSON strings and integers, little-endian
    integers, float64 bits, hex, base64 and the UUID text *)
Open Scope Z_scope.

Lemma ord_bounds c : 0 <= ord c < 256.
Proof. unfold ord. pose proof (N_ascii_bounded c). lia. Qed.

Lemma chr_ord c : chr (ord c) = c.
Proof. unfold chr, ord. rewrite N2Z.id. apply ascii_N_embedding. Qed.

Lemma ord_chr z : 0 <= z < 256 -> ord (chr z) = z.
Proof.
  intros H. unfold chr, ord. rewrite N_ascii_embedding by lia. lia.
Qed.

Lemma div_mod_2 x y : 0 <= y < 64 -> (x * 64 + y) / 64 = x /\ (x * 64 + y) mod 64 = y.
Proof. intros. split; Z.div_mod_to_equations; lia. Qed.

Lemma div_mod_3 a b c : 0 <= b < 64 -> 0 <= c < 64 ->
  (a * 4096 + b * 64 + c) / 4096 = a /\ ((a * 4096 + b * 64 + c) / 64) mod 64 = b
  /\ (a * 4096 + b * 64 + c) mod 64 = c.
Proof. intros. repeat split; Z.div_mod_to_equations; lia. Qed.

Lemma div_mod_4 a b c d : 0 <= b < 64 -> 0 <= c < 64 -> 0 <= d < 64 ->
  (a * 262144 + b * 4096 + c * 64 + d) / 262144 = a
  /\ ((a * 262144 + b * 4096 + c * 64 + d) / 4096) mod 64 = b
  /\ ((a * 262144 + b * 4096 + c * 64 + d) / 64) mod 64 = c
  /\ (a * 262144 + b * 4096 + c * 64 + d) mod 64 = d.
Proof. intros. repeat split; Z.div_mod_to_equations; lia. Qed.

Ltac splits := repeat match goal with |- _ /\ _ => split end.

Ltac zbool :=
  repeat match goal with
  | H : (_ <? _) = true |- _ => apply Z.ltb_lt in H
  | H : (_ <? _) = false |- _ => apply Z.ltb_ge in H
  | H : (_ <=? _) = true |- _ => apply Z.leb_le in H
  | H : (_ <=? _) = false |- _ => apply Z.leb_gt in H
  | H : (_ =? _) = true |- _ => apply Z.eqb_eq in H
  | H : (_ =? _) = false |- _ => apply Z.eqb_neq in H
  | H : (_ && _)%bool = true |- _ => apply andb_prop in H; destruct H
  | H : (_ && _)%bool = false |- _ => apply andb_false_iff in H; destruct H
  | H : Utf8.cont _ _ _ = _ |- _ => unfold Utf8.cont in H
  | H : context [if ?b then _ else _] |- _ => destruct b eqn:?
  end.

Ltac zgoal :=
  repeat match goal with
  | |- context [?a =? ?b] => destruct (Z.eqb_spec a b); try lia
  | |- context [?a <? ?b] => destruct (Z.ltb_spec a b); try lia
  | |- context [?a <=? ?b] => destruct (Z.leb_spec a b); try lia
  end.

Ltac destr_in H :=
  repeat match type of H with
  | context [match ?x with _ => _ end] => destruct x eqn:?
  end.

Lemma chr_shift k c : chr (k + (ord c - k)) = c.
Proof. replace (k + (ord c - k)) with (ord c) by lia. apply chr_ord. Qed.

Ltac enc_fin :=
  match goal with
  | |- context [(?a * 262144 + ?b * 4096 + ?c * 64 + ?d) / 262144] =>
      destruct (div_mod_4 a b c d) as [E1 [E2 [E3 E4]]]; [lia|lia|lia|];
      rewrite E1, E2, E3, E4
  | |- context [(?a * 4096 + ?b * 64 + ?c) / 4096] =>
      destruct (div_mod_3 a b c) as [E1 [E2 E3]]; [lia|lia|]; rewrite E1, E2, E3
  | |- context [(?x * 64 + ?y) / 64] =>
      destruct (div_mod_2 x y) as [E1 E2]; [lia|]; rewrite E1, E2
  end; cbn [map]; rewrite !chr_shift; reflexivity.

Lemma DecodeRune_valid c0 r rn n :
  Utf8.DecodeRune (c0 :: r) = (rn, n) -> 128 <= ord c0 ->
  ((rn =? Utf8.RuneError) && Nat.eqb n 1)%bool = false ->
  (1 <= n <= 4)%nat /\ (n <= length (c0 :: r))%nat /\ 128 <= rn /\
  Utf8.EncodeRune rn = firstn n (c0 :: r) /\
  (forall t, Utf8.DecodeRune ((firstn n (c0 :: r) ++ t)%list) = (rn, n)).
Proof.
  intros H Hhi Hok. pose proof (ord_bounds c0).
  unfold Utf8.DecodeRune in H. cbv zeta in H.
  destr_in H; inversion H; subst; clear H; try (vm_compute in Hok; discriminate);
    try clear Hok; zbool; try lia.
  all: repeat match goal with |- _ /\ _ => split end; try (simpl; lia).
  all: try (intros t; cbn [firstn app]; unfold Utf8.DecodeRune, Utf8.cont; cbv zeta; zgoal;
            reflexivity).
  all: unfold Utf8.EncodeRune, Utf8.encode3; zgoal; cbn [orb andb firstn]; try enc_fin.

Qed.

Lemma string_body_ascii c f rest : ord c < 128 ->
  Json.string_body (S f)
    ((if Json.html_safe (ord c) then [c] else Json.escape_ascii (ord c)) ++ rest)%list =
  match Json.string_body f rest with Some (v, t) => Some (c :: v, t) | None => None end.
Proof.
  destruct c as [[] [] [] [] [] [] [] []]; intros H;
    first [reflexivity | vm_compute in H; discriminate].
Qed.

Lemma string_body_high c L f : 128 <= ord c ->
  Json.string_body (S f) (c :: L) =
  let '(rn, size) := Utf8.DecodeRune (c :: L) in
  match Json.string_body f (skipn size (c :: L)) with
  | Some (v, t) => Some ((Utf8.EncodeRune rn ++ v)%list, t)
  | None => None
  end.
Proof.
  intros H. pose proof (ord_bounds c). cbn [Json.string_body]. zgoal. reflexivity.
Qed.

Lemma string_body_line_sep rn f X : rn = 8232 \/ rn = 8233 ->
  Json.string_body (S f)
    ([bslash; "u"%char; "2"%char; "0"%char; "2"%char; Json.lhex (rn mod 16)] ++ X)%list =
  match Json.string_body f X with
  | Some (v, t) => Some ((Utf8.EncodeRune rn ++ v)%list, t)
  | None => None
  end.
Proof. intros [-> | ->]; reflexivity. Qed.

Lemma quote_string_body n : forall s fuel rest,
  (length s <= n)%nat -> Utf8.valid_fuel n s = true ->
  (length (Json.quote_body n s) < fuel)%nat ->
  Json.string_body fuel ((Json.quote_body n s ++ dquote :: rest)%list) = Some (s, rest).
Proof.
  induction n as [|k IH]; intros s fuel rest Hlen Hv Hf.
  - destruct s; [|simpl in Hlen; lia].
    destruct fuel; [simpl in Hf; lia|]. reflexivity.
  - destruct fuel as [|f]; [lia|].
    destruct s as [|c r]; [reflexivity|].
    pose proof (ord_bounds c).
    destruct (Z.ltb_spec (ord c) 128) as [Hlo|Hhi].
    + assert (Hq : Json.quote_body (S k) (c :: r) =
              ((if Json.html_safe (ord c) then [c] else Json.escape_ascii (ord c))
               ++ Json.quote_body k r)%list).
      { cbn [Json.quote_body]. destruct (Z.ltb_spec (ord c) 128); [reflexivity|lia]. }
      assert (Hvr : Utf8.valid_fuel k r = true).
      { cbn [Utf8.valid_fuel] in Hv. unfold Utf8.DecodeRune in Hv.
        destruct (Z.ltb_spec (ord c) 128); [|lia].
        unfold Utf8.RuneError in Hv. destruct (Z.eqb_spec (ord c) 65533); [lia|].
        exact Hv. }
      rewrite Hq in Hf |- *. rewrite <- app_assoc, string_body_ascii by exact Hlo.
      rewrite IH; [reflexivity| simpl in Hlen; lia | exact Hvr |].
      rewrite length_app in Hf.
      assert (1 <= length (if Json.html_safe (ord c) then [c] else Json.escape_ascii (ord c)))%nat.
      { destruct (Json.html_safe (ord c)); [simpl; lia|].
        unfold Json.escape_ascii. repeat destruct (_ =? _)%Z; simpl; lia. }
      lia.
    + destruct (Utf8.DecodeRune (c :: r)) as [rn size] eqn:Hd.
      assert (Hok : ((rn =? Utf8.RuneError) && Nat.eqb size 1)%bool = false).
      { cbn [Utf8.valid_fuel] in Hv. rewrite Hd in Hv.
        destruct (_ && _)%bool; [discriminate|reflexivity]. }
      assert (Hvr : Utf8.valid_fuel k (skipn size (c :: r)) = true).
      { cbn [Utf8.valid_fuel] in Hv. rewrite Hd, Hok in Hv. exact Hv. }
      destruct (DecodeRune_valid c r rn size Hd Hhi Hok)
        as [Hsz [Hle [Hrn [Henc Hdec]]]].
      assert (Hsplit : (firstn size (c :: r) ++ skipn size (c :: r))%list = c :: r)
        by apply firstn_skipn.
      assert (Hlen' : (length (skipn size (c :: r)) <= k)%nat).
      { rewrite length_skipn. cbn [length] in Hlen, Hle |- *. lia. }
      cbn [Json.quote_body] in Hf |- *.
      destruct (Z.ltb_spec (ord c) 128); [lia|]. rewrite Hd, Hok in Hf |- *.
      destruct ((rn =? 8232) || (rn =? 8233))%Z eqn:Hls.
      * rewrite <- app_assoc, string_body_line_sep
          by (apply orb_true_iff in Hls; destruct Hls as [E|E]; apply Z.eqb_eq in E; lia).
        rewrite IH; [| exact Hlen' | exact Hvr | rewrite length_app in Hf; simpl in Hf; lia].
        rewrite Henc, Hsplit. reflexivity.
      * destruct size as [|m]; [lia|].
        cbn [firstn] in Hf |- *. cbn [app].
        rewrite string_body_high by exact Hhi.
        rewrite <- app_assoc.
        change (c :: (firstn m r ++ (Json.quote_body k (skipn (S m) (c :: r)) ++ dquote :: rest)))%list
          with ((firstn (S m) (c :: r) ++ (Json.quote_body k (skipn (S m) (c :: r)) ++ dquote :: rest))%list).
        rewrite Hdec. rewrite skipn_app.
        rewrite length_firstn, Nat.min_l by exact Hle. rewrite Nat.sub_diag.
        rewrite skipn_firstn_comm, Nat.sub_diag. cbn [firstn skipn app].
        rewrite IH; [| exact Hlen' | exact Hvr | rewrite length_app in Hf; simpl in Hf; lia].
        rewrite Henc. cbn [firstn skipn app]. rewrite firstn_skipn. reflexivity.
Qed.

Lemma Marshal_string_classify s :
  Utf8.Valid (list_ascii_of_string s) = true ->
  Json.classify (fst (Json.Marshal_string s)) = Some (Json.LString s).
Proof.
  intros Hv. unfold Json.Marshal_string, Json.classify. cbn [fst].
  rewrite list_ascii_of_string_of_list_ascii.
  cbn [Json.skip_ws]. change (Json.is_ws dquote) with false. cbv iota.
  change (ord dquote =? 34) with true. cbv iota.
  rewrite quote_string_body; [| lia | exact Hv | rewrite length_app; simpl; lia].
  cbn. rewrite string_of_list_ascii_of_string. reflexivity.
Qed.

Lemma Unmarshal_Marshal_string s cur :
  Utf8.Valid (list_ascii_of_string s) = true ->
  Json.Unmarshal_string (fst (Json.Marshal_string s)) cur = (s, None).
Proof. intros Hv. unfold Json.Unmarshal_string. rewrite Marshal_string_classify by exact Hv. reflexivity. Qed.

Lemma digits_value_snoc l d :
  Json.digits_value (l ++ [d])%list = Json.digits_value l * 10 + (ord d - 48).
Proof. unfold Json.digits_value. rewrite fold_left_app. reflexivity. Qed.

Lemma is_digit_chr d : 0 <= d < 10 -> Json.is_digit (chr (48 + d)) = true.
Proof.
  intros H. unfold Json.is_digit. rewrite ord_chr by lia.
  apply andb_true_intro; split; apply Z.leb_le; lia.
Qed.

Lemma dec_digits_spec f : forall n acc, 0 <= n < 10 ^ Z.of_nat (S f) ->
  exists ds, Json.dec_digits (S f) n acc = (ds ++ acc)%list /\ ds <> [] /\
    forallb Json.is_digit ds = true /\ Json.digits_value ds = n /\
    (ds = ["0"%char] \/ ord (hd "0"%char ds) <> 48).
Proof.
  induction f as [|f IH]; intros n acc Hn.
  - simpl in Hn. cbn [Json.dec_digits].
    destruct (Z.ltb_spec n 10); [|lia].
    exists [chr (48 + n mod 10)]. rewrite Z.mod_small by lia.
    splits; try discriminate; try reflexivity.
    + cbn [forallb]. rewrite is_digit_chr by lia. reflexivity.
    + unfold Json.digits_value. cbn [fold_left]. rewrite ord_chr by lia. lia.
    + destruct (Z.eqb_spec n 0) as [->|Hn0]; [left; reflexivity|].
      right. cbn [hd]. rewrite ord_chr by lia. lia.
  - change (Json.dec_digits (S (S f)) n acc) with
      (if n <? 10 then chr (48 + n mod 10) :: acc
       else Json.dec_digits (S f) (n / 10) (chr (48 + n mod 10) :: acc)).
    destruct (Z.ltb_spec n 10).
    + exists [chr (48 + n mod 10)]. rewrite Z.mod_small by lia.
      splits; try discriminate; try reflexivity.
      * cbn [forallb]. rewrite is_digit_chr by lia. reflexivity.
      * unfold Json.digits_value. cbn [fold_left]. rewrite ord_chr by lia. lia.
      * destruct (Z.eqb_spec n 0) as [->|Hn0]; [left; reflexivity|].
        right. cbn [hd]. rewrite ord_chr by lia. lia.
    + assert (Hq : 0 <= n / 10 < 10 ^ Z.of_nat (S f)).
      { split; [apply Z.div_pos; lia|].
        rewrite Nat2Z.inj_succ, Z.pow_succ_r in Hn by lia.
        apply Z.div_lt_upper_bound; lia. }
      destruct (IH (n / 10) (chr (48 + n mod 10) :: acc) Hq)
        as [ds [E [Hne [Hd [Hv Hh]]]]].
      pose proof (Z.mod_pos_bound n 10 ltac:(lia)).
      exists (ds ++ [chr (48 + n mod 10)])%list.
      rewrite E, <- app_assoc. split; [reflexivity|].
      split; [destruct ds; [congruence|discriminate]|].
      split.
      { rewrite forallb_app, Hd. cbn [forallb]. rewrite is_digit_chr by lia. reflexivity. }
      split.
      { rewrite digits_value_snoc, Hv, ord_chr by lia.
        pose proof (Z.div_mod n 10). lia. }
      right. destruct Hh as [Hh|Hh].
      { subst ds. exfalso. unfold Json.digits_value in Hv. simpl in Hv.
        assert (1 <= n / 10) by (apply Z.div_le_lower_bound; lia). lia. }
      destruct ds; [congruence|]. exact Hh.
Qed.

Lemma FormatInt_digits z : exists ds,
  list_ascii_of_string (Json.FormatInt z) = (if z <? 0 then "-"%char :: ds else ds) /\
  ds <> [] /\ forallb Json.is_digit ds = true /\ Json.digits_value ds = Z.abs z /\
  (ds = ["0"%char] \/ ord (hd "0"%char ds) <> 48).
Proof.
  unfold Json.FormatInt. rewrite list_ascii_of_string_of_list_ascii.
  assert (Hb : 0 <= Z.abs z < 10 ^ Z.of_nat (S (Z.to_nat (Z.log2 (Z.abs z))))).
  { pose proof (Z.log2_nonneg (Z.abs z)).
    rewrite Nat2Z.inj_succ, Z2Nat.id by lia.
    destruct (Z.eq_dec (Z.abs z) 0) as [E|E]; [rewrite E; simpl; lia|].
    destruct (Z.log2_spec (Z.abs z)) as [_ Hlt]; [lia|].
    split; [lia|]. eapply Z.lt_le_trans; [exact Hlt|].
    apply Z.pow_le_mono_l; lia. }
  destruct (dec_digits_spec _ _ [] Hb) as [ds [E Hr]].
  exists ds. rewrite E, app_nil_r. split; [reflexivity|exact Hr].
Qed.

Lemma is_digit_bounds c : Json.is_digit c = true -> 48 <= ord c <= 57.
Proof.
  unfold Json.is_digit. intros H. apply andb_prop in H as [H1 H2].
  apply Z.leb_le in H1. apply Z.leb_le in H2. lia.
Qed.

Lemma drop_digits_all l : forallb Json.is_digit l = true -> Json.drop_digits l = [].
Proof.
  induction l as [|c l IH]; [reflexivity|].
  cbn [forallb]. intros H. apply andb_prop in H as [H1 H2].
  cbn [Json.drop_digits]. rewrite H1. exact (IH H2).
Qed.

Lemma ParseInt_FormatInt z : Json.int64_ok z = true ->
  Json.ParseInt (Json.FormatInt z) = Some z.
Proof.
  intros Hok. destruct (FormatInt_digits z) as [ds [E [Hne [Hd [Hv _]]]]].
  unfold Json.ParseInt. rewrite E.
  destruct ds as [|d ds']; [congruence|].
  pose proof (is_digit_bounds d (proj1 (andb_prop _ _ Hd))).
  destruct (Z.ltb_spec z 0).
  - change (ord "-"%char =? 45) with true. cbv iota.
    rewrite Hd, Hv. replace (- Z.abs z) with z by lia. rewrite Hok. reflexivity.
  - destruct (Z.eqb_spec (ord d) 45); [lia|]. destruct (Z.eqb_spec (ord d) 43); [lia|].
    rewrite Hd, Hv. replace (Z.abs z) with z by lia. rewrite Hok. reflexivity.
Qed.

Lemma classify_FormatInt z :
  Json.classify (Json.FormatInt z) = Some (Json.LNumber (Json.FormatInt z)).
Proof.
  destruct (FormatInt_digits z) as [ds [E [Hne [Hd [_ Hh]]]]].

  destruct ds as [|d ds']; [congruence|].
  pose proof (is_digit_bounds d (proj1 (andb_prop _ _ Hd))).
  assert (Hds' : forallb Json.is_digit ds' = true) by (cbn in Hd; apply andb_prop in Hd; tauto).
  assert (Hnum : Json.number_rest (if z <? 0 then "-"%char :: d :: ds' else d :: ds') = Some []).
  { assert (Hd1 : Json.is_digit d = true) by (cbn in Hd; apply andb_prop in Hd; tauto).
    assert (Hr : match ds' with [] => True | _ => ord d <> 48 end).
    { destruct Hh as [Hh|Hh]; [inversion Hh; exact I|]. destruct ds'; [exact I|exact Hh]. }
    destruct (z <? 0); unfold Json.number_rest, Json.is_digit in *; unfold ord in *;
      cbn -[Z.of_N N_of_ascii Z.eqb Z.leb Json.drop_digits];
      try change (Z.of_N (N_of_ascii "-")) with 45; zgoal;
      try rewrite (drop_digits_all ds' Hds'); try reflexivity.
    all: destruct ds'; [reflexivity | lia]. }
  assert (Hws : Json.skip_ws (if z <? 0 then "-"%char :: d :: ds' else d :: ds')
                = (if z <? 0 then "-"%char :: d :: ds' else d :: ds')).
  { destruct (z <? 0); [reflexivity|]. cbn [Json.skip_ws].
    replace (Json.is_ws d) with false; [reflexivity|].
    unfold Json.is_ws. zgoal; reflexivity. }
  assert (Hc : exists c r, (if z <? 0 then "-"%char :: d :: ds' else d :: ds') = c :: r /\
                 ((ord c =? 45) || ((48 <=? ord c) && (ord c <=? 57)))%bool = true).
  { destruct (z <? 0).
    - exists "-"%char, (d :: ds'). split; reflexivity.
    - exists d, ds'. split; [reflexivity|]. apply orb_true_intro; right.
      apply andb_true_intro; split; apply Z.leb_le; lia. }
  destruct Hc as [c [r [Hcr Hcd]]].
  pose proof (ord_bounds c).
  assert (HF : Json.FormatInt z = string_of_list_ascii (c :: r)).
  { rewrite <- Hcr, <- E. symmetry. apply string_of_list_ascii_of_string. }
  rewrite HF. unfold Json.classify. rewrite list_ascii_of_string_of_list_ascii.
  assert (Hws' : Json.skip_ws (c :: r) = c :: r) by (rewrite <- Hcr; exact Hws).
  assert (Hnum' : Json.number_rest (c :: r) = Some []) by (rewrite <- Hcr; exact Hnum).
  rewrite Hws'.
  apply orb_true_iff in Hcd. destruct Hcd as [Hcd|Hcd]; zbool;
    cbv zeta; zgoal; cbn [orb]; rewrite Hnum'; cbn [Json.skip_ws];
    rewrite Nat.sub_0_r, firstn_all; reflexivity.
Qed.

(** Little-endian round trip. *)
Lemma mod_mul_256 a P : 0 < P -> a mod (256 * P) = a mod 256 + 256 * ((a / 256) mod P).
Proof.
  intros HP. symmetry. apply (Z.mod_unique a (256 * P) ((a / 256) / P)).
  - pose proof (Z.mod_pos_bound a 256 ltac:(lia)).
    pose proof (Z.mod_pos_bound (a / 256) P HP). left. nia.
  - pose proof (Z.div_mod a 256 ltac:(lia)).
    pose proof (Z.div_mod (a / 256) P ltac:(lia)). nia.
Qed.

Lemma le_value_le_bytes n : forall z,
  Bson.le_value (Bson.le_bytes n z) = z mod 256 ^ Z.of_nat n.
Proof.
  induction n as [|n IH]; intros z.
  - simpl. rewrite Z.mod_1_r. reflexivity.
  - cbn [Bson.le_bytes Bson.le_value]. rewrite IH, ord_chr by (apply Z.mod_pos_bound; lia).
    rewrite Nat2Z.inj_succ, Z.pow_succ_r by lia.
    rewrite mod_mul_256 by (apply Z.pow_pos_nonneg; lia). reflexivity.
Qed.

Lemma length_le_bytes n z : length (Bson.le_bytes n z) = n.
Proof. revert z; induction n; intros z; simpl; [reflexivity|rewrite IHn; reflexivity]. Qed.

Lemma signed_mod w z : 1 <= w -> - 2 ^ (w - 1) <= z < 2 ^ (w - 1) ->
  Bson.signed w (z mod 2 ^ w) = z.
Proof.
  intros Hw Hz. unfold Bson.signed.
  assert (Hp : 2 ^ w = 2 * 2 ^ (w - 1)).
  { rewrite <- Z.pow_succ_r by lia. f_equal; lia. }
  destruct (Z.leb_spec 0 z).
  - rewrite Z.mod_small by lia. destruct (Z.leb_spec (2 ^ (w - 1)) z); lia.
  - rewrite <- (Z.mod_unique z (2 ^ w) (-1) (z + 2 ^ w)) by lia.
    destruct (Z.leb_spec (2 ^ (w - 1)) (z + 2 ^ w)); lia.
Qed.

(** The float64 bit pattern. *)
Lemma pow_step k : 0 <= k -> 2 ^ (k + 1) = 2 * 2 ^ k.
Proof. intros. rewrite Z.pow_add_r by lia. lia. Qed.
Lemma digits2_pos_bounds m :
  2 ^ (Z.pos (SpecFloat.digits2_pos m) - 1) <= Z.pos m < 2 ^ Z.pos (SpecFloat.digits2_pos m).
Proof.
  induction m as [p IH|p IH|]; cbn [SpecFloat.digits2_pos].
  3: exact (conj (Z.le_refl 1) (eq_refl : (1 < 2))).
  all: rewrite (Pos2Z.inj_succ (SpecFloat.digits2_pos p)).
  1: rewrite (Pos2Z.inj_xI p).
  2: rewrite (Pos2Z.inj_xO p).
  all: pose proof (Pos2Z.is_pos (SpecFloat.digits2_pos p)).
  all: generalize dependent (Z.pos (SpecFloat.digits2_pos p)); intros D HD HD1.
  all: assert (E1 : 2 ^ D = 2 * 2 ^ (D - 1))
         by (rewrite <- pow_step by lia; f_equal; lia).
  all: assert (E2 : 2 ^ (Z.succ D - 1) = 2 ^ D) by (f_equal; lia).
  all: assert (E3 : 2 ^ Z.succ D = 2 * 2 ^ D)
         by (rewrite <- pow_step by lia; f_equal; lia).
  all: rewrite E2, E3; lia.
Qed.

Lemma prim_finite_bounds s m e :
  SpecFloat.valid_binary 53 1024 (S754_finite s m e) = true ->
  (Z.pos m < 2 ^ 52 /\ e = -1074) \/
  (2 ^ 52 <= Z.pos m < 2 ^ 53 /\ -1074 <= e <= 971).
Proof.
  intros Hv. cbn [SpecFloat.valid_binary] in Hv. unfold SpecFloat.bounded in Hv.
  apply andb_prop in Hv as [Hc He]. apply Z.leb_le in He.
  unfold SpecFloat.canonical_mantissa, SpecFloat.fexp, SpecFloat.emin in Hc.
  apply Z.eqb_eq in Hc.
  pose proof (digits2_pos_bounds m) as [Hlo Hhi].
  set (d := Z.pos (SpecFloat.digits2_pos m)) in *.
  assert (Hd : 1 <= d) by (subst d; lia).
  destruct (Z.le_gt_cases 53 d) as [Hd53|Hd53].
  - right. assert (Hd' : d = 53) by lia. rewrite Hd' in Hlo, Hhi.
    split; lia.
  - left. split; [|lia].
    eapply Z.lt_le_trans; [exact Hhi|]. apply Z.pow_le_mono_r; lia.
Qed.

Lemma of_bits_fields sb E F : (sb = 0 \/ sb = 1) -> 0 <= E < 2048 -> 0 <= F < 2 ^ 52 ->
  Z.testbit (sb * 2 ^ 63 + E * 2 ^ 52 + F) 63 = (sb =? 1) /\
  Z.land (Z.shiftr (sb * 2 ^ 63 + E * 2 ^ 52 + F) 52) 2047 = E /\
  Z.land (sb * 2 ^ 63 + E * 2 ^ 52 + F) (2 ^ 52 - 1) = F.
Proof.
  intros Hs HE HF.
  rewrite Z.testbit_eqb, Z.shiftr_div_pow2 by lia.
  change 2047 with (Z.ones 11). change (2 ^ 52 - 1) with (Z.ones 52).
  rewrite !Z.land_ones by lia.
  change (2 ^ 63) with 9223372036854775808 in *.
  change (2 ^ 52) with 4503599627370496 in *.
  change (2 ^ 11) with 2048.
  splits.
  - destruct Hs as [-> | ->].
    + replace ((0 * 9223372036854775808 + E * 4503599627370496 + F) / 9223372036854775808)
        with 0 by (Z.div_mod_to_equations; lia). reflexivity.
    + replace ((1 * 9223372036854775808 + E * 4503599627370496 + F) / 9223372036854775808)
        with 1 by (Z.div_mod_to_equations; lia). reflexivity.
  - Z.div_mod_to_equations. destruct Hs; subst; nia.
  - Z.div_mod_to_equations. destruct Hs; subst; nia.
Qed.

Lemma of_bits_bits f : F64.of_bits (F64.bits f) = f.
Proof.
  transitivity (SF2Prim (Prim2SF f)); [|apply SF2Prim_Prim2SF].
  pose proof (Prim2SF_valid f) as Hv.
  unfold F64.of_bits, F64.bits. f_equal.
  destruct (Prim2SF f) as [s|s| |s m e]; [destruct s; reflexivity|destruct s; reflexivity|reflexivity|].
  apply prim_finite_bounds in Hv.
  assert (Hsgn : (if s then 2 ^ 63 else 0) = (if s then 1 else 0) * 2 ^ 63) by (destruct s; reflexivity).
  assert (Hsb : (if s then 1 else 0) = 0 \/ (if s then 1 else 0) = 1) by (destruct s; auto).
  assert (Hs : ((if s then 1 else 0) =? 1) = s) by (destruct s; reflexivity).
  unfold F64.two52. rewrite Hsgn.
  destruct Hv as [[Hm He] | [Hm He]].
  - destruct (Z.ltb_spec (Z.pos m) (2 ^ 52)); [|lia].
    replace ((if s then 1 else 0) * 2 ^ 63 + Z.pos m)
      with ((if s then 1 else 0) * 2 ^ 63 + 0 * 2 ^ 52 + Z.pos m) by ring.
    destruct (of_bits_fields (if s then 1 else 0) 0 (Z.pos m) Hsb ltac:(lia) ltac:(lia))
      as [E1 [E2 E3]].
    cbv zeta. rewrite E1, E2, E3, Hs. subst e. reflexivity.
  - destruct (Z.ltb_spec (Z.pos m) (2 ^ 52)); [lia|].
    destruct (of_bits_fields (if s then 1 else 0) (e + 1075) (Z.pos m - 2 ^ 52) Hsb
                ltac:(lia) ltac:(lia)) as [E1 [E2 E3]].
    cbv zeta. rewrite E1, E2, E3, Hs.
    destruct (Z.eqb_spec (e + 1075) 0); [lia|]. destruct (Z.eqb_spec (e + 1075) 2047); [lia|].
    replace (Z.pos m - 2 ^ 52 + 2 ^ 52) with (Z.pos m) by ring.
    replace (e + 1075 - 1075) with e by ring. reflexivity.
Qed.

Lemma reverseHexTable_char c : (Hex.reverseHexTable c <= 15)%N ->
  Json.html_safe (ord c) = true /\ Hex.digit (Hex.reverseHexTable c) = GUuid.lower c.
Proof.
  destruct c as [[] [] [] [] [] [] [] []]; vm_compute; first [intros _; split; reflexivity | intros H; exfalso; apply H; reflexivity].
Qed.

Lemma hex_pair_bits a b : (a <= 15)%N -> (b <= 15)%N ->
  N.shiftr (N_of_ascii (ascii_of_N (N.lor (N.shiftl a 4) b))) 4 = a /\
  N.land (N_of_ascii (ascii_of_N (N.lor (N.shiftl a 4) b))) 15 = b.
Proof.
  intros Ha Hb.
  assert (Ea : exists k, (k < 16)%nat /\ a = N.of_nat k) by (exists (N.to_nat a); lia).
  assert (Eb : exists k, (k < 16)%nat /\ b = N.of_nat k) by (exists (N.to_nat b); lia).
  destruct Ea as [i [Hi ->]], Eb as [j [Hj ->]].
  do 16 (try destruct i as [|i]); try lia.
  all: do 16 (try destruct j as [|j]); try lia; vm_compute; split; reflexivity.
Qed.


Lemma Hex_Decode_ok n : forall l d, (length l <= n)%nat -> Hex.Decode l = Ok d ->
  safe_bytes l = true /\
  list_ascii_of_string (Hex.EncodeToString d) = map GUuid.lower l /\
  length l = (2 * length d)%nat.
Proof.
  induction n as [|n IH]; intros l d Hl H.
  - destruct l; [|simpl in Hl; lia]. inversion H; subst. split; [reflexivity|split; reflexivity].
  - destruct l as [|p [|q rest]].
    + inversion H; subst. split; [reflexivity|split; reflexivity].
    + simpl in H. destruct (15 <? Hex.reverseHexTable p)%N; discriminate.
    + cbn [Hex.Decode] in H.
      destruct (N.ltb_spec 15 (Hex.reverseHexTable p)) as [|Hp]; [discriminate|].
      destruct (N.ltb_spec 15 (Hex.reverseHexTable q)) as [|Hq]; [discriminate|].
      destruct (Hex.Decode rest) as [d'|e] eqn:Hd; [|discriminate].
      inversion H; subst; clear H.
      destruct (IH rest d' ltac:(simpl in Hl; lia) Hd) as [S1 [S2 S3]].
      destruct (reverseHexTable_char p Hp) as [P1 P2].
      destruct (reverseHexTable_char q Hq) as [Q1 Q2].
      destruct (hex_pair_bits _ _ Hp Hq) as [B1 B2].
      unfold Hex.EncodeToString in *.
      rewrite list_ascii_of_string_of_list_ascii in *.
      unfold safe_bytes in *. cbn [forallb flat_map map length app] in *.
      rewrite P1, Q1, S1, B1, B2, P2, Q2, S2. split; [reflexivity|split; [reflexivity|lia]].
Qed.

Lemma ObjectIDFromHex_ok o oId : Bson.ObjectIDFromHex o = Ok oId ->
  safe_bytes (list_ascii_of_string o) = true /\
  Bson.Hex oId = string_of_list_ascii (map GUuid.lower (list_ascii_of_string o)) /\
  length oId = 12%nat.
Proof.
  unfold Bson.ObjectIDFromHex. intros H.
  destruct (Nat.eqb_spec (String.length o) 24) as [Hl|]; [|discriminate]. cbn [negb] in H.
  destruct (Hex.Decode (list_ascii_of_string o)) as [d|] eqn:Hd; [|discriminate].
  inversion H; subst; clear H.
  destruct (Hex_Decode_ok _ _ _ (le_n _) Hd) as [S1 [S2 S3]].
  rewrite length_list_ascii_of_string, Hl in S3.
  split; [exact S1|split; [|lia]].
  unfold Bson.Hex. rewrite <- S2, string_of_list_ascii_of_string. reflexivity.
Qed.

Lemma safe_ascii c : Json.html_safe (ord c) = true -> ord c < 128.
Proof. unfold Json.html_safe. intros H. zbool. lia. Qed.

Lemma quote_body_safe n : forall l, (length l <= n)%nat -> safe_bytes l = true ->
  Json.quote_body n l = l.
Proof.
  induction n as [|n IH]; intros l Hl Hs.
  - destruct l; [reflexivity|simpl in Hl; lia].
  - destruct l as [|c r]; [reflexivity|].
    unfold safe_bytes in Hs. cbn [forallb] in Hs. apply andb_prop in Hs as [Hc Hr].
    cbn [Json.quote_body]. pose proof (safe_ascii c Hc).
    destruct (Z.ltb_spec (ord c) 128); [|lia]. rewrite Hc.
    cbn [app]. rewrite IH; [reflexivity|simpl in Hl; lia|exact Hr].
Qed.

Lemma Marshal_string_safe s : safe_bytes (list_ascii_of_string s) = true ->
  Json.Marshal_string s = (quoted s, None).
Proof.
  intros H. unfold Json.Marshal_string, quoted. rewrite quote_body_safe; [reflexivity|lia|exact H].
Qed.

Lemma valid_safe n : forall l, safe_bytes l = true -> Utf8.valid_fuel n l = true.
Proof.
  induction n as [|n IH]; intros l Hs; [reflexivity|].
  destruct l as [|c r]; [reflexivity|].
  unfold safe_bytes in Hs. cbn [forallb] in Hs. apply andb_prop in Hs as [Hc Hr].
  pose proof (safe_ascii c Hc). cbn [Utf8.valid_fuel Utf8.DecodeRune].
  destruct (Z.ltb_spec (ord c) 128); [|lia].
  destruct (Z.eqb_spec (ord c) Utf8.RuneError); [unfold Utf8.RuneError in *; lia|].
  cbn [andb skipn]. apply IH. exact Hr.
Qed.

Lemma Unmarshal_quoted_safe s cur : safe_bytes (list_ascii_of_string s) = true ->
  Json.Unmarshal_string (quoted s) cur = (s, None).
Proof.
  intros H. replace (quoted s) with (fst (Json.Marshal_string s))
    by (rewrite (Marshal_string_safe s H); reflexivity).
  apply Unmarshal_Marshal_string.
  apply valid_safe. exact H.
Qed.

(** The BSON value readers on the bytes the writer produced. *)
Lemma le_bytes_32 z : - 2 ^ 31 <= z < 2 ^ 31 ->
  exists a b c d, Bson.le_bytes 4 z = [a; b; c; d] /\ Bson.signed 32 (Bson.le_value [a; b; c; d]) = z.
Proof.
  intros Hz. exists (chr (z mod 256)), (chr (z / 256 mod 256)), (chr (z / 256 / 256 mod 256)),
    (chr (z / 256 / 256 / 256 mod 256)). split; [reflexivity|].
  change [chr (z mod 256); chr (z / 256 mod 256); chr (z / 256 / 256 mod 256);
          chr (z / 256 / 256 / 256 mod 256)] with (Bson.le_bytes 4 z).
  rewrite le_value_le_bytes. apply (signed_mod 32 z); lia.
Qed.

Lemma readLength_le32 z rest : - 2 ^ 31 <= z < 2 ^ 31 ->
  Bson.readLength ((Bson.le32 z ++ rest)%list) = Some (z, rest).
Proof.
  intros Hz. destruct (le_bytes_32 z Hz) as (a & b & c & d & E & V).
  unfold Bson.le32. rewrite E. cbn [app Bson.readLength]. rewrite V. reflexivity.
Qed.

Lemma readBytes_all d : Bson.readBytes (Z.of_nat (length d)) d = Ok (d, []).
Proof.
  unfold Bson.readBytes. destruct (Z.ltb_spec (Z.of_nat (length d)) 0); [lia|].
  destruct (Z.ltb_spec (Z.of_nat (length d)) (Z.of_nat (length d))); [lia|].
  rewrite Nat2Z.id, firstn_all, skipn_all. reflexivity.
Qed.

Lemma ReadBinary_MarshalValue st d : Ascii.eqb st Bson.TypeBinaryBinaryOld = false ->
  Z.of_nat (length d) < 2 ^ 31 ->
  exists data, Bson.MarshalValue (Bson.VBinary {| Bson.Subtype := st; Bson.Data := d |})
                 = (Bson.TypeBinary, data, None) /\
               Bson.ReadBinary data = Ok {| Bson.Subtype := st; Bson.Data := d |}.
Proof.
  intros Hst Hl. eexists. split.
  - cbn [Bson.MarshalValue Bson.Subtype Bson.Data]. rewrite Hst. reflexivity.
  - unfold Bson.ReadBinary. rewrite readLength_le32 by lia. cbn [app]. rewrite Hst.
    cbn [andb]. rewrite readBytes_all. reflexivity.
Qed.

Lemma ReadString_MarshalValue s : Z.of_nat (String.length s) + 1 < 2 ^ 31 ->
  exists data, Bson.MarshalValue (Bson.VString s) = (Bson.TypeString, data, None) /\
               Bson.ReadString data = Ok s.
Proof.
  intros Hl. rewrite <- length_list_ascii_of_string in Hl. eexists. split; [reflexivity|].
  unfold Bson.ReadString. rewrite readLength_le32 by lia.
  destruct (Z.leb_spec (Z.of_nat (length (list_ascii_of_string s)) + 1) 0); [lia|].
  replace (Z.of_nat (length (list_ascii_of_string s)) + 1)
    with (Z.of_nat (length ((list_ascii_of_string s ++ [ascii_of_nat 0])%list)))
    by (rewrite length_app; simpl; lia).
  rewrite readBytes_all, last_last, removelast_last. cbn [Ascii.eqb].
  rewrite ascii_eqb_refl, string_of_list_ascii_of_string. reflexivity.
Qed.

Lemma ReadInt32_le z : - 2 ^ 31 <= z < 2 ^ 31 -> Bson.ReadInt32 (Bson.le_bytes 4 z) = Ok z.
Proof.
  intros Hz. destruct (le_bytes_32 z Hz) as (a & b & c & d & E & V).
  rewrite E. cbn [Bson.ReadInt32]. rewrite V. reflexivity.
Qed.

Lemma ReadInt64_le z : - 2 ^ 63 <= z < 2 ^ 63 -> Bson.ReadInt64 (Bson.le_bytes 8 z) = Ok z.
Proof.
  intros Hz. unfold Bson.ReadInt64. rewrite length_le_bytes. cbn [Nat.ltb Nat.leb].
  rewrite firstn_all2 by (rewrite length_le_bytes; lia).
  rewrite le_value_le_bytes. f_equal. apply (signed_mod 64 z); lia.
Qed.

Lemma bits_bounds f : 0 <= F64.bits f < 2 ^ 64.
Proof.
  pose proof (Prim2SF_valid f) as Hv. unfold F64.bits, F64.two52.
  destruct (Prim2SF f) as [s|s| |s m e]; [destruct s; lia|destruct s; lia|lia|].
  apply prim_finite_bounds in Hv.
  destruct (Z.ltb_spec (Z.pos m) (2 ^ 52)); destruct s; lia.
Qed.

Lemma ReadDouble_le f : Bson.ReadDouble (Bson.le_bytes 8 (F64.bits f)) = Ok f.
Proof.
  unfold Bson.ReadDouble. rewrite length_le_bytes. cbn [Nat.ltb Nat.leb].
  rewrite firstn_all2 by (rewrite length_le_bytes; lia).
  rewrite le_value_le_bytes. pose proof (bits_bounds f).
  rewrite Z.mod_small by (cbn; lia). rewrite of_bits_bits. reflexivity.
Qed.

(** The UUID text accepted by [Parse]. *)
Lemma rev_hex_ne c : Hex.reverseHexTable c <> 255%N -> (Hex.reverseHexTable c <= 15)%N.
Proof.
  destruct c as [[] [] [] [] [] [] [] []]; vm_compute;
    first [intros _; discriminate | intros H; exfalso; apply H; reflexivity].
Qed.

Lemma hex_safe c : Hex.reverseHexTable c <> 255%N -> Json.html_safe (ord c) = true.
Proof. intros H. exact (proj1 (reverseHexTable_char c (rev_hex_ne c H))). Qed.

Lemma parse_groups_ok s xs : forall i u b, GUuid.parse_groups i u s xs = (b, None) ->
  forall x, In x xs -> Json.html_safe (ord (GUuid.at_ s x)) = true /\
                       Json.html_safe (ord (GUuid.at_ s (S x))) = true.
Proof.
  induction xs as [|y xs IH]; intros i u b H x Hx; [destruct Hx|].
  cbn [GUuid.parse_groups GUuid.xtob] in H.
  destruct (N.eqb_spec (Hex.reverseHexTable (GUuid.at_ s y)) 255) as [|H1];
    [cbn in H; discriminate|].
  destruct (N.eqb_spec (Hex.reverseHexTable (GUuid.at_ s (S y))) 255) as [|H2];
    [cbn in H; discriminate|].
  cbn [negb andb] in H. destruct Hx as [<-|Hx].
  - split; apply hex_safe; assumption.
  - exact (IH _ _ _ H x Hx).
Qed.

Lemma parse_groups_ext s s' xs : (forall x, In x xs ->
    GUuid.at_ s x = GUuid.at_ s' x /\ GUuid.at_ s (S x) = GUuid.at_ s' (S x)) ->
  forall i u, GUuid.parse_groups i u s xs = GUuid.parse_groups i u s' xs.
Proof.
  induction xs as [|y xs IH]; intros Hx i u; [reflexivity|].
  cbn [GUuid.parse_groups]. destruct (Hx y (or_introl eq_refl)) as [E1 E2].
  rewrite E1, E2. destruct (GUuid.xtob _ _) as [v ok].
  rewrite IH by (intros; apply Hx; right; assumption). reflexivity.
Qed.

Lemma is_dash_safe c : GUuid.is_dash c = true -> Json.html_safe (ord c) = true.
Proof. unfold GUuid.is_dash. intros H. apply ascii_eqb_true in H. subst. reflexivity. Qed.

Lemma forallb_nth {A} (f : A -> bool) (l : list A) d :
  (forall i, (i < length l)%nat -> f (nth i l d) = true) -> forallb f l = true.
Proof.
  intros H. apply forallb_forall. intros x Hx.
  destruct (In_nth l x d Hx) as [i [Hi <-]]. apply H. exact Hi.
Qed.

Lemma in_positions x : In x GUuid.positions -> (S x < 36)%nat.
Proof. cbn. intros H. repeat destruct H as [<-|H]; lia. Qed.

Lemma parse_hyphenated_safe l b : length l = 36%nat ->
  GUuid.parse_hyphenated l = (b, None) -> safe_bytes l = true.
Proof.
  intros Hl H. unfold GUuid.parse_hyphenated in H.
  destruct (GUuid.is_dash (GUuid.at_ l 8)) eqn:D1; [|cbn in H; discriminate].
  destruct (GUuid.is_dash (GUuid.at_ l 13)) eqn:D2; [|cbn in H; discriminate].
  destruct (GUuid.is_dash (GUuid.at_ l 18)) eqn:D3; [|cbn in H; discriminate].
  destruct (GUuid.is_dash (GUuid.at_ l 23)) eqn:D4; [|cbn in H; discriminate].
  cbn [andb negb] in H. pose proof (parse_groups_ok _ _ _ _ _ H) as Hg.
  apply (forallb_nth _ _ (ascii_of_nat 0)). rewrite Hl. intros i Hi.
  change (nth i l (ascii_of_nat 0)) with (GUuid.at_ l i).
  do 36 (try destruct i as [|i]); try lia;
  match goal with |- Json.html_safe (ord (GUuid.at_ l ?k)) = true =>
    first [ apply is_dash_safe; assumption
          | exact (proj1 (Hg k ltac:(cbn; repeat (first [left; reflexivity | right]))))
          | exact (proj2 (Hg (pred k) ltac:(cbn; repeat (first [left; reflexivity | right])))) ]
  end.
Qed.

Lemma at_app l t i : (i < length l)%nat -> GUuid.at_ (l ++ t)%list i = GUuid.at_ l i.
Proof. intros H. unfold GUuid.at_. apply app_nth1. exact H. Qed.

Lemma parse_hyphenated_app l t : length l = 36%nat ->
  GUuid.parse_hyphenated (l ++ t)%list = GUuid.parse_hyphenated l.
Proof.
  intros Hl. unfold GUuid.parse_hyphenated.
  rewrite !at_app by lia.
  rewrite (parse_groups_ext (l ++ t)%list l GUuid.positions); [reflexivity|].
  intros x Hx. pose proof (in_positions x Hx). rewrite !at_app by lia. split; reflexivity.
Qed.

Lemma UUID_json_roundtrip u b cur : GUuid.Parse u = (b, None) -> String.length u = 36%nat ->
  UUID.MarshalJSON u = (quoted u, None) /\
  UUID.UnmarshalJSON cur (quoted u) = Returns (GUuid.String_ b) None.
Proof.
  intros Hp Hl. rewrite <- length_list_ascii_of_string in Hl.
  unfold GUuid.Parse, GUuid.parse_bytes in Hp. rewrite Hl in Hp. cbn [Nat.eqb] in Hp.
  pose proof (parse_hyphenated_safe _ _ Hl Hp) as Hs.
  split.
  - unfold UUID.MarshalJSON, UUID.IsZero. rewrite <- length_list_ascii_of_string, Hl.
    cbn [Nat.eqb]. apply Marshal_string_safe. exact Hs.
  - unfold UUID.UnmarshalJSON, quoted. cbn [string_of_list_ascii String.eqb list_ascii_of_string].
    rewrite list_ascii_of_string_of_list_ascii. unfold GUuid.ParseBytes, GUuid.parse_bytes.
    cbn [length]. rewrite length_app, Hl. cbn [Nat.eqb length plus skipn].
    rewrite parse_hyphenated_app by exact Hl. rewrite Hp. reflexivity.
Qed.

Lemma Parse_nonempty u b : GUuid.Parse u = (b, None) -> UUID.IsZero u = false /\ length b = 16%nat.
Proof.
  intros H. split.
  - unfold UUID.IsZero. destruct u; [discriminate|reflexivity].
  - pose proof (parse_bytes_length (list_ascii_of_string u)). unfold GUuid.Parse in H.
    rewrite H in *. assumption.
Qed.

Lemma lor_add a b k : 0 <= k -> a mod 2 ^ k = 0 -> 0 <= b < 2 ^ k -> Z.lor a b = a + b.
Proof.
  intros Hk Ha Hb.
  assert (Hl : Z.land a b = 0).
  { apply Z.bits_inj'. intros n Hn. rewrite Z.land_spec, Z.testbit_0_l.
    destruct (Z.ltb_spec n k).
    - assert (Ea : a = Z.shiftl (a / 2 ^ k) k).
      { rewrite Z.shiftl_mul_pow2 by lia. rewrite Z.mul_comm. apply Z.div_exact; [|exact Ha].
        apply Z.pow_nonzero; lia. }
      rewrite Ea, Z.shiftl_spec_low by lia. reflexivity.
    - rewrite (Z.testbit_eqb b n Hn), Z.div_small, andb_false_r; [reflexivity|].
      split; [lia|]. apply (Z.lt_le_trans _ (2 ^ k)); [lia|]. apply Z.pow_le_mono_r; lia. }
  rewrite <- Z.lxor_lor, <- Z.add_nocarry_lxor by exact Hl. reflexivity.
Qed.

Ltac bits_to_arith :=
  repeat first
    [ rewrite Z.shiftl_mul_pow2 by lia
    | rewrite Z.shiftr_div_pow2 by lia
    | rewrite (Z.land_ones _ 6) by lia
    | rewrite (Z.land_ones _ 8) by lia ];
  change (2 ^ 6) with 64 in *; change (2 ^ 8) with 256 in *;
  change (2 ^ 12) with 4096 in *; change (2 ^ 16) with 65536 in *;
  change (2 ^ 18) with 262144 in *.

Lemma lor_sextets v a0 : 0 <= v < 2 ^ 24 -> a0 = v mod 64 ->
  Z.lor (Z.lor (Z.lor (Z.shiftl (Z.land (Z.shiftr v 18) 63) 18)
                      (Z.shiftl (Z.land (Z.shiftr v 12) 63) 12))
               (Z.shiftl (Z.land (Z.shiftr v 6) 63) 6)) a0 = v.
Proof.
  intros Hv ->. change 63 with (Z.ones 6). change (2 ^ 24) with 16777216 in Hv.
  bits_to_arith.
  rewrite (lor_add (v / 262144 mod 64 * 262144) _ 18);
    [|lia|change (2 ^ 18) with 262144; Z.div_mod_to_equations; lia
         |change (2 ^ 18) with 262144; Z.div_mod_to_equations; lia].
  rewrite (lor_add (v / 262144 mod 64 * 262144 + v / 4096 mod 64 * 4096) _ 12);
    [|lia|change (2 ^ 12) with 4096; Z.div_mod_to_equations; lia
         |change (2 ^ 12) with 4096; Z.div_mod_to_equations; lia].
  rewrite (lor_add (v / 262144 mod 64 * 262144 + v / 4096 mod 64 * 4096 + v / 64 mod 64 * 64) _ 6);
    [|lia|change (2 ^ 6) with 64; Z.div_mod_to_equations; lia
         |change (2 ^ 6) with 64; Z.div_mod_to_equations; lia].
  Z.div_mod_to_equations; lia.
Qed.

Lemma val_bytes x0 x1 x2 : 0 <= x0 < 256 -> 0 <= x1 < 256 -> 0 <= x2 < 256 ->
  Z.lor (Z.lor (Z.shiftl x0 16) (Z.shiftl x1 8)) x2 = x0 * 65536 + x1 * 256 + x2 /\
  Z.lor (Z.shiftl x0 16) (Z.shiftl x1 8) = x0 * 65536 + x1 * 256.
Proof.
  intros H0 H1 H2. rewrite !Z.shiftl_mul_pow2 by lia.
  change (2 ^ 16) with 65536; change (2 ^ 8) with 256.
  rewrite (lor_add (x0 * 65536) _ 16);
    [|lia|change (2 ^ 16) with 65536; Z.div_mod_to_equations; lia
         |change (2 ^ 16) with 65536; lia].
  split; [|reflexivity].
  rewrite (lor_add (x0 * 65536 + x1 * 256) _ 8);
    [reflexivity|lia|change (2 ^ 8) with 256; Z.div_mod_to_equations; lia
         |change (2 ^ 8) with 256; lia].
Qed.

Lemma byte_at v k x : 0 <= k -> 0 <= x < 256 -> (v / 2 ^ k) mod 256 = x ->
  chr (Z.land (Z.shiftr v k) 255) = chr x.
Proof.
  intros Hk Hx H. change 255 with (Z.ones 8). rewrite Z.land_ones, Z.shiftr_div_pow2 by lia.
  change (2 ^ 8) with 256. rewrite H. reflexivity.
Qed.

Lemma decodeMap_enc k : 0 <= k < 64 -> B64.decodeMap (B64.enc k) = k.
Proof.
  intros Hk. rewrite <- (Z2Nat.id k) by lia.
  assert (Hn : (Z.to_nat k < 64)%nat) by lia. generalize (Z.to_nat k) Hn. clear.
  intros n Hn. do 64 (try destruct n as [|n]); try lia; vm_compute; reflexivity.
Qed.

Lemma enc_safe k : Json.html_safe (ord (B64.enc k)) = true.
Proof.
  unfold B64.enc. generalize (Z.to_nat k). intros n.
  do 64 (try destruct n as [|n]); vm_compute; reflexivity.
Qed.

Lemma pad_facts : B64.decodeMap B64.padChar = 255 /\ B64.is_nl B64.padChar = false /\
  Ascii.eqb B64.padChar B64.padChar = true.
Proof. split; [reflexivity|split; reflexivity]. Qed.

Ltac dq_step :=
  destruct pad_facts as [P1 [P2 P3]];
  repeat (cbn [B64.decodeQuantum length Nat.eqb app];
          rewrite ?decodeMap_enc by lia; rewrite ?P1, ?P2, ?P3; zgoal;
          cbn [negb Nat.leb B64.skip_nl]).

Lemma sextet_bound v k : 0 <= Z.land (Z.shiftr v k) 63 < 64.
Proof. change 63 with (Z.ones 6). rewrite Z.land_ones by lia. apply Z.mod_pos_bound. lia. Qed.

Lemma sextet_bound0 v : 0 <= Z.land v 63 < 64.
Proof. change 63 with (Z.ones 6). rewrite Z.land_ones by lia. apply Z.mod_pos_bound. lia. Qed.

Lemma decodeQuantum_4 k0 k1 k2 k3 rest si :
  0 <= k0 < 64 -> 0 <= k1 < 64 -> 0 <= k2 < 64 -> 0 <= k3 < 64 ->
  B64.decodeQuantum (B64.enc k0 :: B64.enc k1 :: B64.enc k2 :: B64.enc k3 :: rest) si []
  = (rest, (S (S (S (S si)))), B64.quantum_bytes [k0; k1; k2; k3], None).
Proof. intros. dq_step. destruct rest; reflexivity. Qed.

Lemma decodeQuantum_3 k0 k1 k2 si :
  0 <= k0 < 64 -> 0 <= k1 < 64 -> 0 <= k2 < 64 ->
  exists si', B64.decodeQuantum [B64.enc k0; B64.enc k1; B64.enc k2; B64.padChar] si []
  = ([], si', B64.quantum_bytes [k0; k1; k2], None).
Proof. intros. dq_step. eexists. reflexivity. Qed.

Lemma decodeQuantum_2 k0 k1 si :
  0 <= k0 < 64 -> 0 <= k1 < 64 ->
  exists si', B64.decodeQuantum [B64.enc k0; B64.enc k1; B64.padChar; B64.padChar] si []
  = ([], si', B64.quantum_bytes [k0; k1], None).
Proof. intros. dq_step. eexists. reflexivity. Qed.

Lemma land63 v k : 0 <= k -> Z.land (Z.shiftr v k) 63 = (v / 2 ^ k) mod 64.
Proof. intros Hk. change 63 with (Z.ones 6). rewrite Z.land_ones, Z.shiftr_div_pow2 by lia. reflexivity. Qed.

Lemma byte_at0 v x : 0 <= x < 256 -> v mod 256 = x -> chr (Z.land v 255) = chr x.
Proof.
  intros Hx H. change 255 with (Z.ones 8). rewrite Z.land_ones by lia.
  change (2 ^ 8) with 256. rewrite H. reflexivity.
Qed.

Ltac ords := repeat match goal with c : ascii |- _ =>
  lazymatch goal with H : 0 <= ord c < 256 |- _ => fail | _ => pose proof (ord_bounds c) end end.

Lemma quantum_full v b0 b1 b2 : v = ord b0 * 65536 + ord b1 * 256 + ord b2 ->
  B64.quantum_bytes [Z.land (Z.shiftr v 18) 63; Z.land (Z.shiftr v 12) 63;
                     Z.land (Z.shiftr v 6) 63; Z.land v 63] = [b0; b1; b2].
Proof.
  intros Hv. ords. unfold B64.quantum_bytes. cbn [nth length].
  rewrite (lor_sextets v (Z.land v 63)); [| change (2 ^ 24) with 16777216; lia
    | change 63 with (Z.ones 6); rewrite Z.land_ones by lia; reflexivity].
  rewrite (byte_at v 16 (ord b0)), (byte_at v 8 (ord b1)), (byte_at0 v (ord b2));
    try (change (2 ^ 16) with 65536); try (change (2 ^ 8) with 256); try lia;
    try (Z.div_mod_to_equations; lia).
  rewrite !chr_ord. reflexivity.
Qed.

Lemma quantum_two v b0 b1 : v = ord b0 * 65536 + ord b1 * 256 ->
  B64.quantum_bytes [Z.land (Z.shiftr v 18) 63; Z.land (Z.shiftr v 12) 63;
                     Z.land (Z.shiftr v 6) 63] = [b0; b1].
Proof.
  intros Hv. ords. unfold B64.quantum_bytes. cbn [nth length].
  rewrite (lor_sextets v 0); [| change (2 ^ 24) with 16777216; lia
    | Z.div_mod_to_equations; lia].
  rewrite (byte_at v 16 (ord b0)), (byte_at v 8 (ord b1));
    try (change (2 ^ 16) with 65536); try (change (2 ^ 8) with 256); try lia;
    try (Z.div_mod_to_equations; lia).
  rewrite !chr_ord. reflexivity.
Qed.

Lemma quantum_one v b0 : v = ord b0 * 65536 ->
  B64.quantum_bytes [Z.land (Z.shiftr v 18) 63; Z.land (Z.shiftr v 12) 63] = [b0].
Proof.
  intros Hv. ords. unfold B64.quantum_bytes. cbn [nth length].
  replace (Z.shiftl 0 6) with (Z.shiftl (Z.land (Z.shiftr v 6) 63) 6)
    by (rewrite land63 by lia; change (2 ^ 6) with 64; f_equal; Z.div_mod_to_equations; lia).
  rewrite (lor_sextets v 0); [| change (2 ^ 24) with 16777216; lia
    | Z.div_mod_to_equations; lia].
  rewrite (byte_at v 16 (ord b0));
    try (change (2 ^ 16) with 65536); try lia; try (Z.div_mod_to_equations; lia).
  rewrite !chr_ord. reflexivity.
Qed.

Lemma decode_encode f : forall b fuel si, (length b <= 3 * f)%nat ->
  (length (B64.encode_fuel f b) <= fuel)%nat ->
  B64.decode_fuel fuel (B64.encode_fuel f b) si = (b, None).
Proof.
  induction f as [|f IH]; intros b fuel si Hb Hf.
  - destruct b; [|simpl in Hb; lia]. destruct fuel; reflexivity.
  - destruct b as [|b0 [|b1 [|b2 rest]]].
    + destruct fuel; reflexivity.
    + cbn [B64.encode_fuel] in *. destruct fuel as [|fuel]; [simpl in Hf; lia|].
      ords. destruct (val_bytes (ord b0) 0 0 ltac:(lia) ltac:(lia) ltac:(lia)) as [_ V].
      destruct (decodeQuantum_2 (Z.land (Z.shiftr (Z.shiftl (ord b0) 16) 18) 63)
                  (Z.land (Z.shiftr (Z.shiftl (ord b0) 16) 12) 63) si
                  (sextet_bound _ _) (sextet_bound _ _)) as [si' E].
      cbn [B64.decode_fuel]. rewrite E.
      rewrite (quantum_one _ b0) by (rewrite Z.shiftl_mul_pow2 by lia; reflexivity).
      destruct fuel; reflexivity.
    + cbn [B64.encode_fuel] in *. destruct fuel as [|fuel]; [simpl in Hf; lia|].
      ords. destruct (val_bytes (ord b0) (ord b1) 0 ltac:(lia) ltac:(lia) ltac:(lia)) as [_ V].
      destruct (decodeQuantum_3 (Z.land (Z.shiftr (Z.lor (Z.shiftl (ord b0) 16) (Z.shiftl (ord b1) 8)) 18) 63)
                  (Z.land (Z.shiftr (Z.lor (Z.shiftl (ord b0) 16) (Z.shiftl (ord b1) 8)) 12) 63)
                  (Z.land (Z.shiftr (Z.lor (Z.shiftl (ord b0) 16) (Z.shiftl (ord b1) 8)) 6) 63) si
                  (sextet_bound _ _) (sextet_bound _ _) (sextet_bound _ _)) as [si' E].
      cbn [B64.decode_fuel]. rewrite E.
      rewrite (quantum_two _ b0 b1) by exact V.
      destruct fuel; reflexivity.
    + cbn [B64.encode_fuel] in *. destruct fuel as [|fuel]; [simpl in Hf; lia|].
      ords. destruct (val_bytes (ord b0) (ord b1) (ord b2) ltac:(lia) ltac:(lia) ltac:(lia)) as [V _].
      cbn [app] in *.
      cbn [B64.decode_fuel]. rewrite decodeQuantum_4 by (apply sextet_bound || apply sextet_bound0).
      rewrite (quantum_full _ b0 b1 b2) by exact V.
      rewrite IH; [reflexivity|simpl in Hb; lia|simpl in Hf; lia].
Qed.

Lemma encode_safe f b : safe_bytes (B64.encode_fuel f b) = true.
Proof.
  revert b; induction f as [|f IH]; intros b; [reflexivity|].
  destruct b as [|b0 [|b1 [|b2 rest]]]; cbn [B64.encode_fuel]; [reflexivity| | |];
    unfold safe_bytes in *; cbn [forallb app]; rewrite ?enc_safe, ?IH; reflexivity.
Qed.

Lemma encode_length f b : (length b <= 3 * f)%nat ->
  (length b <= length (B64.encode_fuel f b))%nat /\ (b <> [] -> B64.encode_fuel f b <> []).
Proof.
  revert b; induction f as [|f IH]; intros b Hb.
  - destruct b; [split; [simpl; lia|congruence]|simpl in Hb; lia].
  - destruct b as [|b0 [|b1 [|b2 rest]]]; cbn [B64.encode_fuel];
      [split; [simpl; lia|congruence]|split; [simpl; lia|discriminate]..|].
    destruct (IH rest ltac:(simpl in Hb; lia)) as [IH1 _].
    cbn [app length]. split; [lia|discriminate].
Qed.

Lemma DecodeString_EncodeToString b :
  B64.DecodeString (B64.EncodeToString b) = (b, None).
Proof.
  unfold B64.DecodeString, B64.EncodeToString. rewrite list_ascii_of_string_of_list_ascii.
  apply decode_encode; lia.
Qed.

Ltac tags := repeat match goal with
  | |- context [Ascii.eqb ?a ?b] =>
      let e := eval vm_compute in (Ascii.eqb a b) in
      match e with
      | true => change (Ascii.eqb a b) with true
      | false => change (Ascii.eqb a b) with false
      end
  end; cbn [negb orb andb Bson.Subtype Bson.Data].

Lemma quoted_nonempty s : String.length (quoted s) <> 0%nat.
Proof. unfold quoted. cbn. discriminate. Qed.


(** ** C2: decoding what was encoded *)
(** C2 (counterexample): the 32 digit UUID form, which [Parse] accepts,
    fails to decode from its JSON text, whose 34 bytes (quotes included) are
    handed to [ParseBytes].  Beside this slip: a NullFloat32 is encoded at
    float32 precision, so the float64 nearest 1.3 decodes from BSON to
    another value; a string that is not valid UTF-8 comes back from JSON with
    U+FFFD in place of the bad byte; the all-zero ObjectId is encoded as null
    in both formats and decodes to the empty ObjectId; an infinite
    NullFloat64 has no JSON encoding. *)
Lemma wrapper_roundtrip_counterexample :
  float_is_zero 0x1.4cccccccccccdp+0%float = false /\
  bson_decode_of (NullFloat32.MarshalBSONValue 0x1.4cccccccccccdp+0%float) (NullFloat32.UnmarshalBSONValue 0%float)
    = Some (Returns (F64.to_float32 0x1.4cccccccccccdp+0%float) None) /\
  PrimFloat.eqb (F64.to_float32 0x1.4cccccccccccdp+0%float) 0x1.4cccccccccccdp+0%float = false /\
  snd (GUuid.Parse "f47ac10b58cc037285670e02b2c3d479") = None /\
  json_decode_of (UUID.MarshalJSON "f47ac10b58cc037285670e02b2c3d479")
    (UUID.UnmarshalJSON EmptyString)
    = Some (Returns EmptyString (Some (UUIDInvalidLengthError 34))) /\
  json_decode_of (NullString.MarshalJSON (String (ascii_of_nat 255) EmptyString))
    (NullString.UnmarshalJSON EmptyString)
    = Some (Returns (string_of_list_ascii (Utf8.EncodeRune Utf8.RuneError)) None) /\
  Utf8.EncodeRune Utf8.RuneError <> [ascii_of_nat 255] /\
  Bson.ObjectIDFromHex ObjectId.NilObjectID = Ok Bson.NilObjectID /\
  json_decode_of (ObjectId.MarshalJSON ObjectId.NilObjectID) (ObjectId.UnmarshalJSON EmptyString)
    = Some (Returns EmptyString None) /\
  bson_decode_of (ObjectId.MarshalBSONValue ObjectId.NilObjectID)
    (ObjectId.UnmarshalBSONValue EmptyString) = Some (Returns EmptyString None) /\
  (forall FormatFloat, NullFloat64.MarshalJSON FormatFloat PrimFloat.infinity
                       = (EmptyString, Some JSONUnsupportedValueError)).
Proof.
  repeat match goal with |- _ /\ _ => split end;
    try (intros FormatFloat; reflexivity); try (vm_compute; reflexivity).
  vm_compute. discriminate.
Qed.

(** C2 (code bug): a non-null value comes back from its encoding, except
    for UUIDs in JSON.  An ObjectId that parses as hex and is not the
    all-zero id decodes to its lowercase hex in both formats.  A UUID that
    [Parse] accepts decodes from BSON to its canonical string; from JSON only
    when it is written in the 36 byte hyphenated form, since [UnmarshalJSON]
    hands the quoted bytes to [ParseBytes], which takes the 38 byte text for
    the braced form and drops its first and last byte.  A non-empty Binary
    comes back unchanged in both formats, as does a non-empty NullString
    (from JSON when it is valid UTF-8), and a non-zero NullInt32 or NullInt64
    in its range.  A non-zero NullFloat64 comes back from BSON, and from JSON
    when it is finite and the text [FormatFloat] writes for it parses back to
    it.  A non-zero NullFloat32 comes back as its float32 rounding
    [F64.to_float32 v] from BSON, and from JSON when the text written for
    that rounding parses back to it.  Binary and string lengths are below
    2^31, as the BSON length fields require. *)
Theorem wrapper_roundtrip :
  (forall o oId cur, Bson.ObjectIDFromHex o = Ok oId -> Bson.IsZero oId = false ->
     json_decode_of (ObjectId.MarshalJSON o) (ObjectId.UnmarshalJSON cur)
       = Some (Returns (hex_lower o) None) /\
     bson_decode_of (ObjectId.MarshalBSONValue o) (ObjectId.UnmarshalBSONValue cur)
       = Some (Returns (hex_lower o) None)) /\
  (forall u b cur, GUuid.Parse u = (b, None) ->
     bson_decode_of (UUID.MarshalBSONValue u) (UUID.UnmarshalBSONValue cur)
       = Some (Returns (GUuid.String_ b) None) /\
     (String.length u = 36%nat ->
      json_decode_of (UUID.MarshalJSON u) (UUID.UnmarshalJSON cur)
        = Some (Returns (GUuid.String_ b) None))) /\
  (forall b cur, b <> [] -> Z.of_nat (length b) < 2 ^ 31 ->
     json_decode_of (Binary.MarshalJSON b) (Binary.UnmarshalJSON cur) = Some (Returns b None) /\
     bson_decode_of (Binary.MarshalBSONValue b) (Binary.UnmarshalBSONValue cur)
       = Some (Returns b None)) /\
  (forall v cur, v <> EmptyString ->
     (Utf8.Valid (list_ascii_of_string v) = true ->
      json_decode_of (NullString.MarshalJSON v) (NullString.UnmarshalJSON cur)
        = Some (Returns v None)) /\
     (Z.of_nat (String.length v) + 1 < 2 ^ 31 ->
      bson_decode_of (NullString.MarshalBSONValue v) (NullString.UnmarshalBSONValue cur)
        = Some (Returns v None))) /\
  (forall v cur, v <> 0 -> Json.int32_ok v = true ->
     json_decode_of (NullInt32.MarshalJSON v) (NullInt32.UnmarshalJSON cur)
       = Some (Returns v None) /\
     bson_decode_of (NullInt32.MarshalBSONValue v) (NullInt32.UnmarshalBSONValue cur)
       = Some (Returns v None)) /\
  (forall v cur, v <> 0 -> Json.int64_ok v = true ->
     json_decode_of (NullInt64.MarshalJSON v) (NullInt64.UnmarshalJSON cur)
       = Some (Returns v None) /\
     bson_decode_of (NullInt64.MarshalBSONValue v) (NullInt64.UnmarshalBSONValue cur)
       = Some (Returns v None)) /\
  (forall v cur, float_is_zero v = false ->
     bson_decode_of (NullFloat64.MarshalBSONValue v) (NullFloat64.UnmarshalBSONValue cur)
       = Some (Returns v None) /\
     (forall FormatFloat ParseFloat, F64.is_finite v = true ->
      Json.classify (FormatFloat 64 v) = Some (Json.LNumber (FormatFloat 64 v)) ->
      ParseFloat (FormatFloat 64 v) = Some v ->
      json_decode_of (NullFloat64.MarshalJSON FormatFloat v)
        (NullFloat64.UnmarshalJSON ParseFloat cur) = Some (Returns v None))) /\
  (forall v cur, float_is_zero v = false ->
     bson_decode_of (NullFloat32.MarshalBSONValue v) (NullFloat32.UnmarshalBSONValue cur)
       = Some (Returns (F64.to_float32 v) None) /\
     (forall FormatFloat ParseFloat, F64.is_finite (F64.to_float32 v) = true ->
      Json.classify (FormatFloat 32 (F64.to_float32 v))
        = Some (Json.LNumber (FormatFloat 32 (F64.to_float32 v))) ->
      ParseFloat (FormatFloat 32 (F64.to_float32 v)) = Some (F64.to_float32 v) ->
      json_decode_of (NullFloat32.MarshalJSON FormatFloat v)
        (NullFloat32.UnmarshalJSON ParseFloat cur)
        = Some (Returns (F64.to_float32 v) None))).
Proof.
  repeat match goal with |- _ /\ _ => split end.
  - (* ObjectId *)
    intros o oId cur Hp Hz. destruct (ObjectIDFromHex_ok o oId Hp) as [Hs [Hh Hl]].
    assert (Hlen : String.length o <> 0%nat).
    { intros H0. destruct o; [|discriminate]. vm_compute in Hp. discriminate. }
    assert (Hnil : String.eqb o ObjectId.NilObjectID = false).
    { destruct (String.eqb_spec o ObjectId.NilObjectID) as [->|]; [|reflexivity].
      vm_compute in Hp. inversion Hp; subst. vm_compute in Hz. discriminate. }
    split.
    + unfold ObjectId.MarshalJSON. apply Nat.eqb_neq in Hlen. rewrite Hlen, Hnil.
      rewrite Marshal_string_safe by exact Hs. cbn [json_decode_of].
      unfold ObjectId.UnmarshalJSON. rewrite Unmarshal_quoted_safe by exact Hs.
      rewrite Hlen, Hp, Hh. reflexivity.
    + unfold ObjectId.MarshalBSONValue. apply Nat.eqb_neq in Hlen. rewrite Hlen, Hp, Hz.
      unfold marshalBsonValue. cbn [Bson.MarshalValue bson_decode_of].
      unfold ObjectId.UnmarshalBSONValue, Bson.ObjectID_of_slice. rewrite Hl.
      tags. cbn [Nat.ltb Nat.leb].
      rewrite firstn_all2 by lia. rewrite Hh. reflexivity.
  - (* UUID *)
    intros u b cur Hp. split.
    + destruct (Parse_nonempty u b Hp) as [Hz Hl].
    destruct (ReadBinary_MarshalValue Bson.TypeBinaryUUID b eq_refl ltac:(rewrite Hl; lia))
      as [data [Em Er]].
    unfold UUID.MarshalBSONValue. rewrite Hz, Hp. cbn [GUuid.MarshalBinary]. unfold marshalBsonValue.
    rewrite Em. cbn [bson_decode_of]. unfold UUID.UnmarshalBSONValue, Bson.UnmarshalValue_Binary.
    tags.
    rewrite Er. cbn [Bson.Subtype Bson.Data Ascii.eqb Bson.TypeBinaryUUID ascii_of_nat Bool.eqb negb].
    unfold GUuid.FromBytes. rewrite Hl. reflexivity.
    + intros H36. destruct (UUID_json_roundtrip u b cur Hp H36) as [E1 E2].
    rewrite E1. exact (f_equal Some E2).
  - (* Binary *)
    intros b cur Hne Hlt. split.
    + 
    assert (Hs : safe_bytes (list_ascii_of_string (B64.EncodeToString b)) = true)
      by (unfold B64.EncodeToString; rewrite list_ascii_of_string_of_list_ascii; apply encode_safe).
    assert (He : String.length (B64.EncodeToString b) <> 0%nat).
    { unfold B64.EncodeToString. rewrite length_string_of_list_ascii.
      destruct (encode_length (length b) b ltac:(lia)) as [_ H]. specialize (H Hne).
      destruct (B64.encode_fuel (length b) b); [congruence|discriminate]. }
    unfold Binary.MarshalJSON. destruct b as [|c r]; [congruence|]. cbn [length Nat.eqb].
    rewrite Marshal_string_safe by exact Hs. cbn [json_decode_of].
    unfold Binary.UnmarshalJSON. apply Nat.eqb_neq in He.
    pose proof (quoted_nonempty (B64.EncodeToString (c :: r))) as Hq. apply Nat.eqb_neq in Hq.
    rewrite Hq, Unmarshal_quoted_safe by exact Hs. rewrite He, DecodeString_EncodeToString.
    reflexivity.
    +     destruct (ReadBinary_MarshalValue Bson.TypeBinaryGeneric b eq_refl Hlt) as [data [Em Er]].
    unfold Binary.MarshalBSONValue. destruct b as [|c r]; [congruence|]. cbn [length Nat.eqb].
    unfold marshalBsonValue. rewrite Em. cbn [bson_decode_of].
    unfold Binary.UnmarshalBSONValue, Bson.UnmarshalValue_Binary.
    tags.
    rewrite Er. reflexivity.
  - (* NullString *)
    intros v cur Hne. split.
    + intros Hv. unfold NullString.MarshalJSON.
    destruct v as [|c r]; [congruence|]. cbn [String.length Nat.eqb].
    pose proof (Unmarshal_Marshal_string (String c r) cur Hv) as H.
    change (Json.Marshal_string (String c r))
      with (fst (Json.Marshal_string (String c r)), @None go_error).
    cbn [json_decode_of].
    unfold NullString.UnmarshalJSON. rewrite H. reflexivity.
    + intros Hl. destruct (ReadString_MarshalValue v Hl) as [data [Em Er]].
    unfold NullString.MarshalBSONValue. destruct v as [|c r]; [congruence|]. cbn [String.length Nat.eqb].
    rewrite Em. cbn [bson_decode_of]. unfold NullString.UnmarshalBSONValue, BsonDecode.String_.
    tags.
    rewrite Er. reflexivity.
  - (* NullInt32 *)
    intros v cur Hne Hok. split.
    +  unfold NullInt32.MarshalJSON. apply Z.eqb_neq in Hne. rewrite Hne.
    cbn [json_decode_of Json.Marshal_int]. unfold NullInt32.UnmarshalJSON, Json.Unmarshal_int.
    rewrite classify_FormatInt, ParseInt_FormatInt
      by (unfold Json.int64_ok, Json.int32_ok in *; zbool; zgoal; reflexivity).
    unfold Json.int32_ok in Hok. change (32 - 1) with 31. rewrite Hok. reflexivity.
    +  unfold NullInt32.MarshalBSONValue. apply Z.eqb_neq in Hne. rewrite Hne.
    unfold marshalBsonValue. cbn [Bson.MarshalValue bson_decode_of].
    unfold NullInt32.UnmarshalBSONValue, BsonDecode.Int32, BsonDecode.int_value.
    tags.
    unfold Json.int32_ok in Hok. zbool. rewrite ReadInt32_le by lia.
    unfold Json.int32_ok. zgoal. reflexivity.
  - (* NullInt64 *)
    intros v cur Hne Hok. split.
    +  unfold NullInt64.MarshalJSON. apply Z.eqb_neq in Hne. rewrite Hne.
    cbn [json_decode_of Json.Marshal_int]. unfold NullInt64.UnmarshalJSON, Json.Unmarshal_int.
    rewrite classify_FormatInt, ParseInt_FormatInt by exact Hok.
    unfold Json.int64_ok in Hok. change (64 - 1) with 63. rewrite Hok. reflexivity.
    +  unfold NullInt64.MarshalBSONValue. apply Z.eqb_neq in Hne. rewrite Hne.
    unfold marshalBsonValue. cbn [Bson.MarshalValue bson_decode_of].
    unfold NullInt64.UnmarshalBSONValue, BsonDecode.Int64, BsonDecode.int_value.
    tags.
    unfold Json.int64_ok in Hok. zbool. rewrite ReadInt64_le by lia. reflexivity.
  - (* NullFloat64 *)
    intros v cur Hz. split.
    +  unfold NullFloat64.MarshalBSONValue. rewrite Hz.
    unfold marshalBsonValue. cbn [Bson.MarshalValue bson_decode_of].
    unfold NullFloat64.UnmarshalBSONValue, BsonDecode.Float64.
    tags.
    rewrite ReadDouble_le. reflexivity.
    + intros FormatFloat ParseFloat Hf Hc Hp.
    unfold NullFloat64.MarshalJSON, Json.Marshal_float. rewrite Hz.
    unfold F64.is_finite in Hf. rewrite Hf. cbn [json_decode_of].
    unfold NullFloat64.UnmarshalJSON, Json.Unmarshal_float. rewrite Hc, Hp. reflexivity.
  - (* NullFloat32 *)
    intros v cur Hz. split.
    +  unfold NullFloat32.MarshalBSONValue. rewrite Hz.
    unfold marshalBsonValue. cbn [Bson.MarshalValue bson_decode_of].
    unfold NullFloat32.UnmarshalBSONValue, BsonDecode.Float64.
    tags.
    rewrite ReadDouble_le. reflexivity.
    + intros FormatFloat ParseFloat Hf Hc Hp.
    unfold NullFloat32.MarshalJSON, Json.Marshal_float. rewrite Hz.
    unfold F64.is_finite in Hf. rewrite Hf. cbn [json_decode_of].
    unfold NullFloat32.UnmarshalJSON, Json.Unmarshal_float. rewrite Hc, Hp. reflexivity.
Qed.



(** * Further properties of the wrapper types and the connector *)

Lemma hex_byte c :
  (15 <? Hex.reverseHexTable (Hex.digit (N.shiftr (N_of_ascii c) 4)))%N = false /\
  (15 <? Hex.reverseHexTable (Hex.digit (N.land (N_of_ascii c) 15)))%N = false /\
  ascii_of_N (N.lor (N.shiftl (Hex.reverseHexTable (Hex.digit (N.shiftr (N_of_ascii c) 4))) 4)
                    (Hex.reverseHexTable (Hex.digit (N.land (N_of_ascii c) 15)))) = c.
Proof. destruct c as [[] [] [] [] [] [] [] []]; vm_compute; repeat split. Qed.

Lemma Hex_Decode_Encode d :
  Hex.Decode (list_ascii_of_string (Hex.EncodeToString d)) = Ok d.
Proof.
  unfold Hex.EncodeToString. rewrite list_ascii_of_string_of_list_ascii.
  induction d as [|c d IH]; [reflexivity|].
  cbn [flat_map app Hex.Decode]. destruct (hex_byte c) as [H1 [H2 H3]].
  rewrite H1, H2, IH, H3. reflexivity.
Qed.

Lemma Hex_injective a b : Hex.EncodeToString a = Hex.EncodeToString b -> a = b.
Proof.
  intros H. pose proof (Hex_Decode_Encode a) as Ha. rewrite H, Hex_Decode_Encode in Ha.
  congruence.
Qed.

Lemma ObjectIDFromHex_Hex id : length id = 12%nat ->
  Bson.ObjectIDFromHex (Bson.Hex id) = Ok id.
Proof.
  intros Hl. unfold Bson.ObjectIDFromHex, Bson.Hex.
  rewrite Hex_EncodeToString_length, Hl. cbn [Nat.eqb negb mult plus].
  rewrite Hex_Decode_Encode. reflexivity.
Qed.

Lemma Hex_safe d : safe_bytes (list_ascii_of_string (Hex.EncodeToString d)) = true.
Proof.
  exact (proj1 (Hex_Decode_ok _ _ _ (le_n _) (Hex_Decode_Encode d))).
Qed.

Lemma NilObjectID_Hex : ObjectId.NilObjectID = Bson.Hex Bson.NilObjectID.
Proof. vm_compute. reflexivity. Qed.

(** [ObjectIdFromHex] on success returns the lower-case form of its input,
    24 characters long, which it maps to itself; on failure it returns the
    empty string, and an input whose length is not 24 fails with the invalid
    hex error. *)
Theorem ObjectIdFromHex_normalizes (s : string) :
  match ObjectId.ObjectIdFromHex s with
  | (o, None) => o = hex_lower s /\ String.length o = 24%nat
                 /\ ObjectId.ObjectIdFromHex o = (o, None)
  | (o, Some _) => o = EmptyString
  end
  /\ (String.length s <> 24%nat -> ObjectId.ObjectIdFromHex s = (EmptyString, Some ErrInvalidHex)).
Proof.
  split.
  - unfold ObjectId.ObjectIdFromHex at 1. destruct (Bson.ObjectIDFromHex s) as [oId|e] eqn:H;
      [|reflexivity].
    destruct (ObjectIDFromHex_ok _ _ H) as [_ [Hh Hl]].
    split; [exact Hh|]. split.
    + unfold Bson.Hex. rewrite Hex_EncodeToString_length, Hl. reflexivity.
    + unfold ObjectId.ObjectIdFromHex. rewrite ObjectIDFromHex_Hex by exact Hl. reflexivity.
  - intros Hl. unfold ObjectId.ObjectIdFromHex, Bson.ObjectIDFromHex.
    apply Nat.eqb_neq in Hl. rewrite Hl. reflexivity.
Qed.

(** For a 12-byte object id (what [NewObjectId] takes from the generator),
    its hex form is a 24-character [ObjectId] that [ObjectIdFromHex] accepts
    unchanged and [IsZero] reports non-zero; it encodes to BSON as that
    object id (null for the all-zero id), to JSON as the quoted hex (null for
    the all-zero id), and decoding that object id from BSON gives the hex form
    back. *)
Theorem ObjectId_of_generated_id (id : Bson.ObjectID) : length id = 12%nat ->
  String.length (Bson.Hex id) = 24%nat
  /\ ObjectId.ObjectIdFromHex (Bson.Hex id) = (Bson.Hex id, None)
  /\ ObjectId.IsZero (Bson.Hex id) = false
  /\ ObjectId.MarshalBSONValue (Bson.Hex id)
     = (if Bson.IsZero id then bson_null else (Bson.TypeObjectID, id, None))
  /\ ObjectId.MarshalJSON (Bson.Hex id)
     = (if Bson.IsZero id then ("null", None) else (quoted (Bson.Hex id), None))
  /\ (forall cur, ObjectId.UnmarshalBSONValue cur Bson.TypeObjectID id
                  = Returns (Bson.Hex id) None).
Proof.
  intros Hl.
  assert (H24 : String.length (Bson.Hex id) = 24%nat)
    by (unfold Bson.Hex; rewrite Hex_EncodeToString_length, Hl; reflexivity).
  assert (Hz : String.eqb (Bson.Hex id) ObjectId.NilObjectID = Bson.IsZero id).
  { rewrite NilObjectID_Hex. unfold Bson.IsZero.
    destruct (String.eqb_spec (Bson.Hex id) (Bson.Hex Bson.NilObjectID)) as [E|E].
    - apply Hex_injective in E. rewrite E. symmetry. apply bytes_eqb_eq. reflexivity.
    - destruct (bytes_eqb id Bson.NilObjectID) eqn:B; [|reflexivity].
      apply bytes_eqb_eq in B. rewrite B in E. contradiction. }
  split; [exact H24|]. split.
  { unfold ObjectId.ObjectIdFromHex. rewrite ObjectIDFromHex_Hex by exact Hl. reflexivity. }
  split; [unfold ObjectId.IsZero; rewrite H24; reflexivity|]. split.
  { unfold ObjectId.MarshalBSONValue. rewrite H24, ObjectIDFromHex_Hex by exact Hl.
    cbn [Nat.eqb]. destruct (Bson.IsZero id); reflexivity. }
  split.
  { unfold ObjectId.MarshalJSON. rewrite H24, Hz. cbn [Nat.eqb].
    destruct (Bson.IsZero id); [reflexivity|]. apply Marshal_string_safe. apply Hex_safe. }
  intros cur. unfold ObjectId.UnmarshalBSONValue, Bson.ObjectID_of_slice. rewrite Hl.
  tags. cbn [Nat.ltb Nat.leb]. rewrite firstn_all2 by lia. reflexivity.
Qed.

Lemma ObjectId_of_generated_id_witness :
  length (repeat (ascii_of_nat 1) 12) = 12%nat
  /\ String.length (Bson.Hex (repeat (ascii_of_nat 1) 12)) = 24%nat
  /\ ObjectId.ObjectIdFromHex (Bson.Hex (repeat (ascii_of_nat 1) 12))
     = (Bson.Hex (repeat (ascii_of_nat 1) 12), None)
  /\ ObjectId.IsZero (Bson.Hex (repeat (ascii_of_nat 1) 12)) = false
  /\ ObjectId.MarshalBSONValue (Bson.Hex (repeat (ascii_of_nat 1) 12))
     = (if Bson.IsZero (repeat (ascii_of_nat 1) 12) then bson_null
        else (Bson.TypeObjectID, repeat (ascii_of_nat 1) 12, None))
  /\ ObjectId.MarshalJSON (Bson.Hex (repeat (ascii_of_nat 1) 12))
     = (if Bson.IsZero (repeat (ascii_of_nat 1) 12) then ("null", None)
        else (quoted (Bson.Hex (repeat (ascii_of_nat 1) 12)), None))
  /\ (forall cur, ObjectId.UnmarshalBSONValue cur Bson.TypeObjectID (repeat (ascii_of_nat 1) 12)
                  = Returns (Bson.Hex (repeat (ascii_of_nat 1) 12)) None).
Proof. split; [reflexivity | apply (ObjectId_of_generated_id (repeat (ascii_of_nat 1) 12)); reflexivity]. Defined.

Lemma xtob_hex c :
  GUuid.xtob (Hex.digit (N.shiftr (N_of_ascii c) 4)) (Hex.digit (N.land (N_of_ascii c) 15))
  = (c, true).
Proof. destruct c as [[] [] [] [] [] [] [] []]; vm_compute; reflexivity. Qed.

Lemma Parse_String b : length b = 16%nat -> GUuid.Parse (GUuid.String_ b) = (b, None).
Proof.
  intros Hl.
  do 16 (destruct b as [|? b]; [discriminate|]). destruct b; [|discriminate].
  unfold GUuid.Parse, GUuid.String_, Hex.EncodeToString.
  rewrite !list_ascii_of_string_of_list_ascii.
  cbn [firstn skipn flat_map app].
  unfold GUuid.parse_bytes. cbn [length Nat.eqb].
  unfold GUuid.parse_hyphenated. cbn [GUuid.at_ nth]. 
  change (GUuid.is_dash "-") with true. cbn [andb negb].
  unfold GUuid.positions. cbn [GUuid.parse_groups GUuid.at_ nth].
  rewrite !xtob_hex. reflexivity.
Qed.


(** When [uuid.Parse] accepts a text as the 16 bytes [b], [UuidFromString]
    returns the canonical 36-character lower-case form of [b], which is not
    zero and which [UuidFromString] maps to itself. *)
Theorem UuidFromString_canonical (id : string) (b : GUuid.UUID) :
  GUuid.Parse id = (b, None) ->
  UUID.UuidFromString id = (GUuid.String_ b, None)
  /\ String.length (GUuid.String_ b) = 36%nat
  /\ UUID.IsZero (GUuid.String_ b) = false
  /\ UUID.UuidFromString (GUuid.String_ b) = (GUuid.String_ b, None).
Proof.
  intros H. destruct (Parse_nonempty _ _ H) as [_ Hl].
  assert (H36 : String.length (GUuid.String_ b) = 36%nat) by (apply String_length; exact Hl).
  split; [unfold UUID.UuidFromString; rewrite H; reflexivity|].
  split; [exact H36|]. split; [unfold UUID.IsZero; rewrite H36; reflexivity|].
  unfold UUID.UuidFromString. rewrite Parse_String by exact Hl. reflexivity.
Qed.

Lemma UuidFromString_canonical_witness :
  GUuid.Parse "F47AC10B-58CC-4372-8567-0E02B2C3D479"
    = (fst (GUuid.Parse "F47AC10B-58CC-4372-8567-0E02B2C3D479"), None)
  /\ UUID.UuidFromString "F47AC10B-58CC-4372-8567-0E02B2C3D479"
     = (GUuid.String_ (fst (GUuid.Parse "F47AC10B-58CC-4372-8567-0E02B2C3D479")), None)
  /\ String.length (GUuid.String_ (fst (GUuid.Parse "F47AC10B-58CC-4372-8567-0E02B2C3D479"))) = 36%nat
  /\ UUID.IsZero (GUuid.String_ (fst (GUuid.Parse "F47AC10B-58CC-4372-8567-0E02B2C3D479"))) = false
  /\ UUID.UuidFromString (GUuid.String_ (fst (GUuid.Parse "F47AC10B-58CC-4372-8567-0E02B2C3D479")))
     = (GUuid.String_ (fst (GUuid.Parse "F47AC10B-58CC-4372-8567-0E02B2C3D479")), None).
Proof.
  split; [vm_compute; reflexivity|].
  apply (UuidFromString_canonical "F47AC10B-58CC-4372-8567-0E02B2C3D479"
           (fst (GUuid.Parse "F47AC10B-58CC-4372-8567-0E02B2C3D479"))).
  vm_compute. reflexivity.
Defined.

Lemma UUID_MarshalBSONValue_parsed u b : GUuid.Parse u = (b, None) ->
  UUID.MarshalBSONValue u = (Bson.TypeBinary, (Bson.le32 16 ++ [Bson.TypeBinaryUUID] ++ b)%list, None).
Proof.
  intros H. destruct (Parse_nonempty _ _ H) as [Hz Hl].
  unfold UUID.MarshalBSONValue. rewrite Hz, H. cbn [GUuid.MarshalBinary].
  unfold marshalBsonValue. cbn [Bson.MarshalValue Bson.Subtype Bson.Data]. tags.
  rewrite Hl. reflexivity.
Qed.

(** [Uuid.MarshalBSONValue] encodes a zero uuid as BSON null, a text
    [uuid.Parse] accepts as a binary of subtype 4 holding the 16 parsed bytes,
    and returns the parse error otherwise; so a text encodes to the same BSON
    value as its [UuidFromString] form. *)
Theorem UUID_MarshalBSONValue_normalizes :
  (forall u : UUID.UUID,
     UUID.MarshalBSONValue u =
       if UUID.IsZero u then bson_null
       else match GUuid.Parse u with
            | (b, None) => (Bson.TypeBinary, (Bson.le32 16 ++ [Bson.TypeBinaryUUID] ++ b)%list, None)
            | (_, Some e) => (ascii_of_nat 0, [], Some e)
            end)
  /\ (forall (u : UUID.UUID) b, GUuid.Parse u = (b, None) ->
        UUID.MarshalBSONValue u = UUID.MarshalBSONValue (fst (UUID.UuidFromString u))).
Proof.
  split.
  - intros u. destruct (UUID.IsZero u) eqn:Hz.
    + unfold UUID.MarshalBSONValue. rewrite Hz. reflexivity.
    + destruct (GUuid.Parse u) as [b [e|]] eqn:H.
      * unfold UUID.MarshalBSONValue. rewrite Hz, H. reflexivity.
      * apply UUID_MarshalBSONValue_parsed. exact H.
  - intros u b H. destruct (Parse_nonempty _ _ H) as [_ Hl].
    unfold UUID.UuidFromString. rewrite H. cbn [fst].
    rewrite (UUID_MarshalBSONValue_parsed u b H).
    rewrite (UUID_MarshalBSONValue_parsed (GUuid.String_ b) b) by (apply Parse_String; exact Hl).
    reflexivity.
Qed.

(** [Uuid.UnmarshalBSONValue] on a BSON binary of subtype 4 returns the
    canonical text of the payload when it has 16 bytes, and otherwise keeps
    the destination and reports the invalid length. *)
Theorem UUID_UnmarshalBSONValue_payload (u : UUID.UUID) (d : bytes) :
  Z.of_nat (length d) < 2 ^ 31 ->
  UUID.UnmarshalBSONValue u Bson.TypeBinary
    (Bson.le32 (Z.of_nat (length d)) ++ [Bson.TypeBinaryUUID] ++ d)%list
  = if Nat.eqb (length d) 16 then Returns (GUuid.String_ d) None
    else Returns u (Some (UUIDInvalidBytes (length d))).
Proof.
  intros Hd. unfold UUID.UnmarshalBSONValue, Bson.UnmarshalValue_Binary, Bson.ReadBinary. tags.
  rewrite readLength_le32 by lia. cbn [app]. tags. rewrite readBytes_all. tags.
  unfold GUuid.FromBytes. destruct (Nat.eqb (length d) 16); reflexivity.
Qed.

Lemma UUID_UnmarshalBSONValue_payload_witness :
  Z.of_nat (length (repeat (ascii_of_nat 7) 3)) < 2 ^ 31
  /\ UUID.UnmarshalBSONValue EmptyString Bson.TypeBinary
       (Bson.le32 (Z.of_nat (length (repeat (ascii_of_nat 7) 3))) ++ [Bson.TypeBinaryUUID]
        ++ repeat (ascii_of_nat 7) 3)%list
     = if Nat.eqb (length (repeat (ascii_of_nat 7) 3)) 16
       then Returns (GUuid.String_ (repeat (ascii_of_nat 7) 3)) None
       else Returns EmptyString (Some (UUIDInvalidBytes (length (repeat (ascii_of_nat 7) 3)))).
Proof.
  split; [vm_compute; reflexivity|].
  apply (UUID_UnmarshalBSONValue_payload EmptyString (repeat (ascii_of_nat 7) 3)).
  vm_compute. reflexivity.
Defined.

(** [Uuid.UnmarshalJSON] accepts a bare (unquoted) uuid text: it stores
    the canonical form of what [uuid.Parse] reads from it. *)
Theorem UUID_UnmarshalJSON_bare (cur u : UUID.UUID) (b : GUuid.UUID) :
  GUuid.Parse u = (b, None) -> UUID.UnmarshalJSON cur u = Returns (GUuid.String_ b) None.
Proof.
  intros H. unfold UUID.UnmarshalJSON.
  destruct (String.eqb_spec u "null") as [->|_]; [vm_compute in H; discriminate|].
  change (GUuid.ParseBytes (list_ascii_of_string u)) with (GUuid.Parse u). rewrite H. reflexivity.
Qed.

Lemma UUID_UnmarshalJSON_bare_witness :
  GUuid.Parse "6ba7b810-9dad-11d1-80b4-00c04fd430c8"
    = (fst (GUuid.Parse "6ba7b810-9dad-11d1-80b4-00c04fd430c8"), None)
  /\ UUID.UnmarshalJSON EmptyString "6ba7b810-9dad-11d1-80b4-00c04fd430c8"
     = Returns (GUuid.String_ (fst (GUuid.Parse "6ba7b810-9dad-11d1-80b4-00c04fd430c8"))) None.
Proof.
  split; [vm_compute; reflexivity|].
  apply (UUID_UnmarshalJSON_bare EmptyString "6ba7b810-9dad-11d1-80b4-00c04fd430c8"
           (fst (GUuid.Parse "6ba7b810-9dad-11d1-80b4-00c04fd430c8"))).
  vm_compute. reflexivity.
Defined.

(** For 16 bytes [b] (what [NewUuid] takes from the generator), the
    canonical text of [b] is kept by [UuidFromString], encodes to JSON as its
    quoted form and to BSON as a subtype 4 binary of [b], and both encodings
    decode back to the same text. *)
Theorem UUID_generated_roundtrip (b : GUuid.UUID) (cur : UUID.UUID) : length b = 16%nat ->
  UUID.UuidFromString (GUuid.String_ b) = (GUuid.String_ b, None)
  /\ UUID.MarshalJSON (GUuid.String_ b) = (quoted (GUuid.String_ b), None)
  /\ UUID.UnmarshalJSON cur (quoted (GUuid.String_ b)) = Returns (GUuid.String_ b) None
  /\ UUID.MarshalBSONValue (GUuid.String_ b)
     = (Bson.TypeBinary, (Bson.le32 16 ++ [Bson.TypeBinaryUUID] ++ b)%list, None)
  /\ UUID.UnmarshalBSONValue cur Bson.TypeBinary (Bson.le32 16 ++ [Bson.TypeBinaryUUID] ++ b)%list
     = Returns (GUuid.String_ b) None.
Proof.
  intros Hl. pose proof (Parse_String b Hl) as Hp.
  assert (H36 : String.length (GUuid.String_ b) = 36%nat) by (apply String_length; exact Hl).
  destruct (UUID_json_roundtrip _ _ cur Hp H36) as [J1 J2].
  split; [unfold UUID.UuidFromString; rewrite Hp; reflexivity|].
  split; [exact J1|]. split; [exact J2|]. split; [apply UUID_MarshalBSONValue_parsed; exact Hp|].
  pose proof (UUID_UnmarshalBSONValue_payload cur b) as P. rewrite Hl in P.
  apply P. lia.
Qed.

Lemma UUID_generated_roundtrip_witness :
  length (repeat (ascii_of_nat 171) 16) = 16%nat
  /\ UUID.UuidFromString (GUuid.String_ (repeat (ascii_of_nat 171) 16))
     = (GUuid.String_ (repeat (ascii_of_nat 171) 16), None)
  /\ UUID.MarshalJSON (GUuid.String_ (repeat (ascii_of_nat 171) 16))
     = (quoted (GUuid.String_ (repeat (ascii_of_nat 171) 16)), None)
  /\ UUID.UnmarshalJSON EmptyString (quoted (GUuid.String_ (repeat (ascii_of_nat 171) 16)))
     = Returns (GUuid.String_ (repeat (ascii_of_nat 171) 16)) None
  /\ UUID.MarshalBSONValue (GUuid.String_ (repeat (ascii_of_nat 171) 16))
     = (Bson.TypeBinary, (Bson.le32 16 ++ [Bson.TypeBinaryUUID] ++ repeat (ascii_of_nat 171) 16)%list, None)
  /\ UUID.UnmarshalBSONValue EmptyString Bson.TypeBinary
       (Bson.le32 16 ++ [Bson.TypeBinaryUUID] ++ repeat (ascii_of_nat 171) 16)%list
     = Returns (GUuid.String_ (repeat (ascii_of_nat 171) 16)) None.
Proof.
  split; [reflexivity|].
  apply (UUID_generated_roundtrip (repeat (ascii_of_nat 171) 16) EmptyString). reflexivity.
Defined.

Lemma encode_fuel_length f b : (length b <= 3 * f)%nat ->
  length (B64.encode_fuel f b) = (4 * ((length b + 2) / 3))%nat.
Proof.
  revert b; induction f as [|f IH]; intros b Hb.
  - destruct b; [reflexivity|simpl in Hb; lia].
  - destruct b as [|b0 [|b1 [|b2 rest]]]; [reflexivity..|].
    cbn [B64.encode_fuel]. rewrite length_app, IH by (simpl in Hb; lia).
    cbn [length]. replace (S (S (S (length rest))) + 2)%nat with (1 * 3 + (length rest + 2))%nat by lia.
    rewrite Nat.div_add_l by lia. lia.
Qed.

(** [Binary.MarshalJSON] writes an empty slice as null and any other as
    the quoted standard base64 text, whose length is 4 * ceil(n / 3) for
    n bytes. *)
Theorem Binary_MarshalJSON_base64 (b : Binary.Binary) :
  Binary.MarshalJSON b
  = (if Nat.eqb (length b) 0 then ("null", None) else (quoted (B64.EncodeToString b), None))
  /\ String.length (B64.EncodeToString b) = (4 * ((length b + 2) / 3))%nat.
Proof.
  split.
  - unfold Binary.MarshalJSON. destruct (Nat.eqb (length b) 0); [reflexivity|].
    apply Marshal_string_safe. unfold B64.EncodeToString.
    rewrite list_ascii_of_string_of_list_ascii. apply encode_safe.
  - unfold B64.EncodeToString. rewrite length_string_of_list_ascii.
    apply encode_fuel_length. lia.
Qed.

(** [NullString.UnmarshalBSONValue] also reads a generic BSON binary (its
    bytes as text), a non-zero object id (its lower-case hex) and a BSON
    symbol; an object id payload shorter than 12 bytes is a read error that
    leaves the destination. *)
Theorem NullString_reads_other_types (v : NullString.NullString) :
  (forall b : Binary.Binary, b <> [] -> Z.of_nat (length b) < 2 ^ 31 ->
     bson_decode_of (Binary.MarshalBSONValue b) (NullString.UnmarshalBSONValue v)
     = Some (Returns (string_of_list_ascii b) None))
  /\ (forall o oId, Bson.ObjectIDFromHex o = Ok oId -> Bson.IsZero oId = false ->
     bson_decode_of (ObjectId.MarshalBSONValue o) (NullString.UnmarshalBSONValue v)
     = Some (Returns (hex_lower o) None))
  /\ (forall s, Z.of_nat (String.length s) + 1 < 2 ^ 31 ->
     NullString.UnmarshalBSONValue v Bson.TypeSymbol
       (snd (fst (Bson.MarshalValue (Bson.VString s)))) = Returns s None)
  /\ (forall data, (length data < 12)%nat ->
     NullString.UnmarshalBSONValue v Bson.TypeObjectID data = Returns v (Some BSONReadError)).
Proof.
  split; [|split; [|split]].
  - intros b Hne Hl.
    destruct (ReadBinary_MarshalValue Bson.TypeBinaryGeneric b eq_refl Hl) as [data [Em Er]].
    unfold Binary.MarshalBSONValue. destruct (Nat.eqb_spec (length b) 0) as [E|_].
    { destruct b; [congruence|discriminate]. }
    unfold marshalBsonValue. rewrite Em. cbn [bson_decode_of].
    unfold NullString.UnmarshalBSONValue, BsonDecode.String_. tags. rewrite Er. tags.
    reflexivity.
  - intros o oId Hp Hz. destruct (ObjectIDFromHex_ok o oId Hp) as [_ [Hh Hl]].
    assert (Hlen : String.length o <> 0%nat).
    { intros H0. destruct o; [|discriminate]. vm_compute in Hp. discriminate. }
    unfold ObjectId.MarshalBSONValue. apply Nat.eqb_neq in Hlen. rewrite Hlen, Hp, Hz.
    unfold marshalBsonValue. cbn [Bson.MarshalValue bson_decode_of].
    unfold NullString.UnmarshalBSONValue, BsonDecode.String_, Bson.ObjectID_of_slice. tags.
    rewrite Hl. cbn [Nat.ltb Nat.leb]. rewrite firstn_all2 by lia. rewrite Hh. reflexivity.
  - intros s Hl. destruct (ReadString_MarshalValue s Hl) as [data [Em Er]]. rewrite Em.
    cbn [fst snd]. unfold NullString.UnmarshalBSONValue, BsonDecode.String_. tags.
    rewrite Er. reflexivity.
  - intros data Hl. unfold NullString.UnmarshalBSONValue, BsonDecode.String_,
      Bson.ObjectID_of_slice. tags. apply Nat.ltb_lt in Hl. rewrite Hl. reflexivity.
Qed.

(** On JSON null every nullable wrapper keeps its current value, while on
    BSON null it is reset to its zero value. *)
Theorem json_null_keeps_bson_null_resets :
  (forall v, NullString.UnmarshalJSON v "null" = Returns v None
             /\ NullString.UnmarshalBSONValue v Bson.TypeNull [] = Returns EmptyString None)
  /\ (forall v, NullInt32.UnmarshalJSON v "null" = Returns v None
             /\ NullInt32.UnmarshalBSONValue v Bson.TypeNull [] = Returns 0 None)
  /\ (forall v, NullInt64.UnmarshalJSON v "null" = Returns v None
             /\ NullInt64.UnmarshalBSONValue v Bson.TypeNull [] = Returns 0 None)
  /\ (forall ParseFloat v, NullFloat32.UnmarshalJSON ParseFloat v "null" = Returns v None
             /\ NullFloat32.UnmarshalBSONValue v Bson.TypeNull [] = Returns 0%float None)
  /\ (forall ParseFloat v, NullFloat64.UnmarshalJSON ParseFloat v "null" = Returns v None
             /\ NullFloat64.UnmarshalBSONValue v Bson.TypeNull [] = Returns 0%float None).
Proof. repeat split; reflexivity. Qed.

Lemma ParseInt_FormatInt_any z :
  Json.ParseInt (Json.FormatInt z) = if Json.int64_ok z then Some z else None.
Proof.
  destruct (FormatInt_digits z) as [ds [E [Hne [Hd [Hv _]]]]].
  unfold Json.ParseInt. rewrite E.
  destruct ds as [|d ds']; [congruence|].
  pose proof (is_digit_bounds d (proj1 (andb_prop _ _ Hd))).
  destruct (Z.ltb_spec z 0).
  - change (ord "-"%char =? 45) with true. cbv iota.
    rewrite Hd, Hv. replace (- Z.abs z) with z by lia. reflexivity.
  - destruct (Z.eqb_spec (ord d) 45); [lia|]. destruct (Z.eqb_spec (ord d) 43); [lia|].
    rewrite Hd, Hv. replace (Z.abs z) with z by lia. reflexivity.
Qed.

(** [NullInt32.UnmarshalJSON] on the decimal text of an integer stores it
    when it fits in 32 bits, [NullInt64.UnmarshalJSON] when it fits in 64
    bits; otherwise the destination is kept and an error returned. *)
Theorem NullInt_UnmarshalJSON_range :
  (forall v z, NullInt32.UnmarshalJSON v (Json.FormatInt z)
               = if Json.int32_ok z then Returns z None
                 else Returns v (Some JSONSyntaxOrTypeError))
  /\ (forall v z, NullInt64.UnmarshalJSON v (Json.FormatInt z)
               = if Json.int64_ok z then Returns z None
                 else Returns v (Some JSONSyntaxOrTypeError)).
Proof.
  split; intros v z.
  - unfold NullInt32.UnmarshalJSON, Json.Unmarshal_int.
    rewrite classify_FormatInt, ParseInt_FormatInt_any.
    destruct (Json.int64_ok z) eqn:H64; cbv iota.
    + match goal with |- context [if ?c then _ else _] =>
        replace c with (Json.int32_ok z) by reflexivity end.
      destruct (Json.int32_ok z); reflexivity.
    + replace (Json.int32_ok z) with false; [reflexivity|].
      unfold Json.int32_ok, Json.int64_ok in *. symmetry.
      apply andb_false_iff in H64. apply andb_false_iff.
      destruct H64 as [H|H]; [left|right]; zbool; zgoal; reflexivity.
  - unfold NullInt64.UnmarshalJSON, Json.Unmarshal_int.
    rewrite classify_FormatInt, ParseInt_FormatInt_any.
    destruct (Json.int64_ok z) eqn:H64; cbv iota; [|reflexivity].
    match goal with |- context [if ?c then _ else _] =>
      replace c with (Json.int64_ok z) by reflexivity end.
    rewrite H64. reflexivity.
Qed.

Lemma int32_ok_64 z : Json.int32_ok z = true -> Json.int64_ok z = true.
Proof. unfold Json.int32_ok, Json.int64_ok. intros H. zbool. zgoal; reflexivity. Qed.

Lemma int32_ok_bounds z : Json.int32_ok z = true -> - 2 ^ 31 <= z < 2 ^ 31.
Proof. unfold Json.int32_ok. intros H. zbool. lia. Qed.

Lemma int64_ok_bounds z : Json.int64_ok z = true -> - 2 ^ 63 <= z < 2 ^ 63.
Proof. unfold Json.int64_ok. intros H. zbool. lia. Qed.

(** [NullInt32.UnmarshalBSONValue] reads a BSON int64 that fits in 32 bits
    and reports an overflow (keeping the destination) for one that does not;
    [NullInt64.UnmarshalBSONValue] reads every BSON int32; both read a BSON
    boolean as 1 or 0. *)
Theorem NullInt_UnmarshalBSONValue_widths :
  (forall v z, Json.int64_ok z = true ->
     NullInt32.UnmarshalBSONValue v Bson.TypeInt64 (Bson.le_bytes 8 z)
     = if Json.int32_ok z then Returns z None else Returns v (Some BSONOverflowError))
  /\ (forall v z, Json.int32_ok z = true ->
     NullInt64.UnmarshalBSONValue v Bson.TypeInt32 (Bson.le_bytes 4 z) = Returns z None)
  /\ (forall v (b : bool),
     NullInt32.UnmarshalBSONValue v Bson.TypeBoolean [ascii_of_nat (if b then 1 else 0)]
       = Returns (if b then 1 else 0) None
     /\ NullInt64.UnmarshalBSONValue v Bson.TypeBoolean [ascii_of_nat (if b then 1 else 0)]
       = Returns (if b then 1 else 0) None).
Proof.
  split; [|split].
  - intros v z H. unfold NullInt32.UnmarshalBSONValue, BsonDecode.Int32, BsonDecode.int_value.
    tags. rewrite ReadInt64_le by (apply int64_ok_bounds; exact H).
    destruct (Json.int32_ok z); reflexivity.
  - intros v z H. unfold NullInt64.UnmarshalBSONValue, BsonDecode.Int64, BsonDecode.int_value.
    tags. rewrite ReadInt32_le by (apply int32_ok_bounds; exact H). reflexivity.
  - intros v b. destruct b; split; reflexivity.
Qed.

(** [NullFloat32.UnmarshalBSONValue] and [NullFloat64.UnmarshalBSONValue]
    read a BSON int32 or int64 as its conversion to float64. *)
Theorem NullFloat_UnmarshalBSONValue_ints :
  (forall v z, Json.int32_ok z = true ->
     NullFloat64.UnmarshalBSONValue v Bson.TypeInt32 (Bson.le_bytes 4 z)
       = Returns (BsonDecode.float_of_Z z) None
     /\ NullFloat32.UnmarshalBSONValue v Bson.TypeInt32 (Bson.le_bytes 4 z)
       = Returns (BsonDecode.float_of_Z z) None)
  /\ (forall v z, Json.int64_ok z = true ->
     NullFloat64.UnmarshalBSONValue v Bson.TypeInt64 (Bson.le_bytes 8 z)
       = Returns (BsonDecode.float_of_Z z) None
     /\ NullFloat32.UnmarshalBSONValue v Bson.TypeInt64 (Bson.le_bytes 8 z)
       = Returns (BsonDecode.float_of_Z z) None).
Proof.
  split; intros v z H; split;
    unfold NullFloat64.UnmarshalBSONValue, NullFloat32.UnmarshalBSONValue, BsonDecode.Float64;
    tags.
  all: first [ rewrite ReadInt32_le by (apply int32_ok_bounds; exact H)
             | rewrite ReadInt64_le by (apply int64_ok_bounds; exact H) ]; reflexivity.
Qed.

(** [WithCollection] panics without a database; otherwise it keeps the
    database, sets the collection, and every operation of the result is
    forwarded to that collection under the driver method's name and with the
    same arguments ([Count] as [CountDocuments], [InsertMany]'s documents
    wrapped in one slice). *)
Theorem WithCollection_forwards (conn : Connector.StdConnector) (c : string) :
  match Connector.WithCollection conn c with
  | None => Connector.database conn = None
  | Some conn2 =>
      Connector.database conn2 = Connector.database conn
      /\ Connector.collection conn2 = Some c
      /\ (forall f o, Connector.Find conn2 f o = Connector.Forward c "Find" (f :: o))
      /\ (forall f o, Connector.FindOne conn2 f o = Connector.Forward c "FindOne" (f :: o))
      /\ (forall f o, Connector.Count conn2 f o = Connector.Forward c "CountDocuments" (f :: o))
      /\ (forall n f o, Connector.Distinct conn2 n f o
                        = Connector.Forward c "Distinct" (Connector.BString n :: f :: o))
      /\ (forall f o, Connector.FindOneAndDelete conn2 f o
                      = Connector.Forward c "FindOneAndDelete" (f :: o))
      /\ (forall f r o, Connector.FindOneAndReplace conn2 f r o
                        = Connector.Forward c "FindOneAndReplace" (f :: r :: o))
      /\ (forall f u o, Connector.FindOneAndUpdate conn2 f u o
                        = Connector.Forward c "FindOneAndUpdate" (f :: u :: o))
      /\ (forall f u o, Connector.UpdateOne conn2 f u o = Connector.Forward c "UpdateOne" (f :: u :: o))
      /\ (forall f u o, Connector.UpdateMany conn2 f u o = Connector.Forward c "UpdateMany" (f :: u :: o))
      /\ (forall i u o, Connector.UpdateById conn2 i u o = Connector.Forward c "UpdateByID" (i :: u :: o))
      /\ (forall f u o, Connector.ReplaceOne conn2 f u o = Connector.Forward c "ReplaceOne" (f :: u :: o))
      /\ (forall d o, Connector.InsertOne conn2 d o = Connector.Forward c "InsertOne" (d :: o))
      /\ (forall ds o, Connector.InsertMany conn2 ds o
                       = Connector.Forward c "InsertMany"
                           (Connector.BDoc (map (fun d => (EmptyString, d)) ds) :: o))
      /\ (forall f o, Connector.DeleteOne conn2 f o = Connector.Forward c "DeleteOne" (f :: o))
      /\ (forall f o, Connector.DeleteMany conn2 f o = Connector.Forward c "DeleteMany" (f :: o))
      /\ (forall p o, Connector.Aggregate conn2 p o = Connector.Forward c "Aggregate" (p :: o))
      /\ Connector.Drop conn2 = Connector.Forward c "Drop" []
      /\ (forall p o, Connector.Watch conn2 p o = Connector.Forward c "Watch" (p :: o))
  end.
Proof.
  unfold Connector.WithCollection. destruct (Connector.database conn) as [d|] eqn:Hd;
    [|reflexivity].
  repeat match goal with |- _ /\ _ => split end; reflexivity.
Qed.

(** [GetNextSeq] on a connector without a database panics, except for an
    empty name with no collection set, which returns 0 and the error. *)
Theorem GetNextSeq_without_database (conn : Connector.StdConnector) (name : string)
  (opts : list string) :
  Connector.database conn = None ->
  Connector.GetNextSeq conn name opts
  = match Connector.collection conn with
    | None => if Nat.eqb (String.length name) 0
              then Connector.SeqReturn 0 (Some Connector.no_collection_set)
              else Connector.SeqPanic
    | Some _ => Connector.SeqPanic
    end.
Proof.
  intros Hd. unfold Connector.GetNextSeq, Connector.WithCollection. rewrite Hd.
  destruct (Nat.eqb (String.length name) 0), (Connector.collection conn); reflexivity.
Qed.

Lemma GetNextSeq_without_database_witness :
  Connector.database {| Connector.database := None; Connector.collection := Some "orders" |} = None
  /\ Connector.GetNextSeq {| Connector.database := None; Connector.collection := Some "orders" |}
       EmptyString []
     = match Connector.collection
               {| Connector.database := None; Connector.collection := Some "orders" |} with
       | None => if Nat.eqb (String.length EmptyString) 0
                 then Connector.SeqReturn 0 (Some Connector.no_collection_set)
                 else Connector.SeqPanic
       | Some _ => Connector.SeqPanic
       end.
Proof.
  split; [reflexivity|].
  apply (GetNextSeq_without_database
           {| Connector.database := None; Connector.collection := Some "orders" |} EmptyString []).
  reflexivity.
Defined.

(** [GetNextSeq] with an empty name counts under the current collection's
    name, and only the first option (the sequences collection) is used. *)
Theorem GetNextSeq_name_and_options (conn : Connector.StdConnector) :
  (forall c opts, Connector.collection conn = Some c ->
     Connector.GetNextSeq conn EmptyString opts = Connector.GetNextSeq conn c opts)
  /\ (forall name o rest rest',
     Connector.GetNextSeq conn name (o :: rest) = Connector.GetNextSeq conn name (o :: rest')).
Proof.
  split.
  - intros c opts Hc. unfold Connector.GetNextSeq. rewrite Hc. cbn [String.length Nat.eqb].
    destruct (Nat.eqb (String.length c) 0); reflexivity.
  - intros name o rest rest'. reflexivity.
Qed.

(** The JSON decoders reject a value of the wrong kind and keep the
    destination: the integer and float wrappers reject every JSON string, and
    [NullString], [ObjectId] and [Binary] reject every JSON number. *)
Theorem json_kind_mismatch :
  (forall v data s, Json.classify data = Some (Json.LString s) ->
     NullInt32.UnmarshalJSON v data = Returns v (Some JSONSyntaxOrTypeError)
     /\ NullInt64.UnmarshalJSON v data = Returns v (Some JSONSyntaxOrTypeError))
  /\ (forall ParseFloat v data s, Json.classify data = Some (Json.LString s) ->
     NullFloat32.UnmarshalJSON ParseFloat v data = Returns v (Some JSONSyntaxOrTypeError)
     /\ NullFloat64.UnmarshalJSON ParseFloat v data = Returns v (Some JSONSyntaxOrTypeError))
  /\ (forall v o b data t, Json.classify data = Some (Json.LNumber t) ->
     NullString.UnmarshalJSON v data = Returns v (Some JSONSyntaxOrTypeError)
     /\ ObjectId.UnmarshalJSON o data = Returns o (Some JSONSyntaxOrTypeError)
     /\ Binary.UnmarshalJSON b data = Returns b (Some JSONSyntaxOrTypeError)).
Proof.
  split; [|split].
  - intros v data s Hc. split;
      unfold NullInt32.UnmarshalJSON, NullInt64.UnmarshalJSON, Json.Unmarshal_int;
      rewrite Hc; reflexivity.
  - intros ParseFloat v data s Hc. split;
      unfold NullFloat32.UnmarshalJSON, NullFloat64.UnmarshalJSON, Json.Unmarshal_float;
      rewrite Hc; reflexivity.
  - intros v o b data t Hc. split; [|split].
    + unfold NullString.UnmarshalJSON, Json.Unmarshal_string. rewrite Hc. reflexivity.
    + unfold ObjectId.UnmarshalJSON, Json.Unmarshal_string. rewrite Hc. reflexivity.
    + unfold Binary.UnmarshalJSON, Json.Unmarshal_string.
      destruct data as [|c r]; [discriminate Hc|]. cbn [String.length Nat.eqb].
      rewrite Hc. reflexivity.
Qed.
